(** * FlowMind: task store, dependency edges, scoring and AI-assisted scheduling

    A shallow embedding of [app/services/task_service.py],
    [app/services/ai/grok_service.py], [app/services/ai/enhanced_grok_service.py],
    [app/tasks/ai_tasks.py], the task handlers of
    [app/api/v1/endpoints/tasks.py], the tag validators of
    [app/schemas/task.py] and the rate limit of [app/core/middleware.py],
    followed by the properties of the task dependency and scheduling engine
    that are stated about them.

    Conventions.
    - A reading of the clock, [datetime.utcnow()], is a naive [datetime]:
      the number of microseconds since the epoch. Every operation that reads
      the clock takes the reading [now] as an argument. A [datetime] that
      comes from a request or from a row is naive or aware, as the Python
      value is ([pydatetime]); comparing an aware value with a reading of
      the clock, or subtracting the reading from it, raises [TypeError]. A
      row holds such a value as the session holds the attribute once it has
      loaded or refreshed the row; whether the store gives a value back
      with a time zone is a property of the store ([db_zone]). The store
      compares and orders by the instant.
    - A Python [float] that the code computes is a binary64 number, with
      the arithmetic of the machine ([Py.number]). A float that is only
      carried, a literal of the source or a number of a JSON document, is
      kept by the rational that it stands for, and so is a reading of
      [time.time()], which the code compares and from which it subtracts
      60.
    - A Python [str] is a [string]; one [ascii] stands for one character.
    - A table of the relational store is kept as the code sees it: the task
      table is a finite map from the primary key to the row, the dependency
      table a list of rows (it has no uniqueness constraint).
    - Code that can raise returns a [Py.result]. *)

From Stdlib Require Import ZArith Ascii String List Bool Lia QArith Sorted.
From Stdlib Require Import Floats Uint63.
From stdpp Require Import base option list gmap.

Local Open Scope Z_scope.

Set Warnings "-register-all".

(** ** Python values, exceptions and the JSON documents of the AI endpoint *)

Module Py.

(** The exception classes that the modelled code raises or names in an
    [except] clause. All of them derive from [Exception]. *)
Inductive exn : Type :=
| JSONDecodeError
| KeyError
| IndexError
| TypeError
| AttributeError
| ValueError
| IntegrityError
| MultipleResultsFound
| ServiceUnavailable.   (* Exception("AI service unavailable: ...") *)

Inductive result (A : Type) : Type :=
| Ok (a : A)
| Raise (e : exn).
Arguments Ok {A} a.
Arguments Raise {A} e.

Definition bind {A B} (r : result A) (k : A -> result B) : result B :=
  match r with
  | Ok a => k a
  | Raise e => Raise e
  end.

Definition is_ok {A} (r : result A) : bool :=
  match r with Ok _ => true | Raise _ => false end.

(** The value that a call returns, if it returns. *)
Definition result_option {A} (r : result A) : option A :=
  match r with Ok a => Some a | Raise _ => None end.

(** A Python float: a finite value, an infinity or a NaN. A finite value is
    given by the rational that it stands for, a literal of the source by
    its decimal. *)
Inductive pyfloat : Type :=
| FFinite (q : Q)
| FInf (negative : bool)
| FNaN.

(** What [json.loads] produces. A dict keeps its items as an association
    list; lookup takes the first item with the key. *)
Inductive json : Type :=
| JNull
| JBool (b : bool)
| JInt (z : Z)
| JFloat (f : pyfloat)
| JStr (s : string)
| JList (l : list json)
| JDict (d : list (string * json)).

Fixpoint dict_lookup (d : list (string * json)) (k : string) : option json :=
  match d with
  | [] => None
  | (k', v) :: d' => if String.eqb k' k then Some v else dict_lookup d' k
  end.

(** [bool(v)] *)
Definition truthy (v : json) : bool :=
  match v with
  | JNull => false
  | JBool b => b
  | JInt z => negb (z =? 0)
  | JFloat (FFinite q) => negb (Qeq_bool q 0)
  | JFloat _ => true
  | JStr s => negb (String.eqb s EmptyString)
  | JList l => match l with [] => false | _ => true end
  | JDict d => match d with [] => false | _ => true end
  end.

(** [v[k]] for a string key *)
Definition getitem_key (v : json) (k : string) : result json :=
  match v with
  | JDict d => match dict_lookup d k with
               | Some x => Ok x
               | None => Raise KeyError
               end
  | _ => Raise TypeError
  end.

(** [v[0]] *)
Definition getitem_0 (v : json) : result json :=
  match v with
  | JList l => match l with
               | x :: _ => Ok x
               | [] => Raise IndexError
               end
  | JStr s => match s with
              | String c _ => Ok (JStr (String c EmptyString))
              | EmptyString => Raise IndexError
              end
  | JDict _ => Raise KeyError
  | _ => Raise TypeError
  end.

(** [v.get(k, default)]: only a dict has the method. *)
Definition get (v : json) (k : string) (default : json) : result json :=
  match v with
  | JDict d => Ok (match dict_lookup d k with
                   | Some x => x
                   | None => default
                   end)
  | _ => Raise AttributeError
  end.

(** [for x in v] *)
Definition iter (v : json) : result (list json) :=
  match v with
  | JList l => Ok l
  | JDict d => Ok (map (fun kv => JStr (fst kv)) d)
  | JStr s => Ok (map (fun c => JStr (String c EmptyString)) (list_ascii_of_string s))
  | _ => Raise TypeError
  end.

(** [n == v] for an int [n] *)
Definition int_eq (n : Z) (v : json) : bool :=
  match v with
  | JInt z => n =? z
  | JBool b => n =? (if b then 1 else 0)
  | JFloat (FFinite q) => Qeq_bool (inject_Z n) q
  | _ => false
  end.

(** [s[:n]] *)
Definition prefix (n : nat) (s : string) : string := substring 0 n s.

(** [len(v)]; a dict counts its keys. *)
Definition len (v : json) : result Z :=
  match v with
  | JList l => Ok (Z.of_nat (length l))
  | JDict d => Ok (Z.of_nat (length (nodup string_dec (map fst d))))
  | JStr s => Ok (Z.of_nat (String.length s))
  | _ => Raise TypeError
  end.

(** A number that an arithmetic expression of the code yields: an [int] or
    a [float]. *)
Inductive number : Type :=
| Int (z : Z)
| Float (f : float).

(** The float of an int from 0 to 2^53, which is exact. The ints that the
    modelled code divides and multiplies are list lengths and the literal
    100. *)
Definition float_of_int (z : Z) : float := PrimFloat.of_uint63 (Uint63.of_Z z).

(** [a / b] for two such ints, [b] not 0: the float nearest to the
    quotient. *)
Definition truediv (a b : Z) : float :=
  PrimFloat.div (float_of_int a) (float_of_int b).

(** [x * n] for a float [x] and such an int [n] *)
Definition mul_int (x : float) (n : Z) : float :=
  PrimFloat.mul x (float_of_int n).

(** [min(x, n)] for a number [x] and such an int [n]: the first argument,
    unless the second is smaller. *)
Definition min_int (x : number) (n : Z) : number :=
  match x with
  | Int z => if n <? z then Int n else Int z
  | Float f => if PrimFloat.ltb (float_of_int n) f then Int n else Float f
  end.

End Py.

Notation "'let!' x ':=' r 'in' k" := (Py.bind r (fun x => k))
  (at level 10, x name, r at level 100, k at level 200).

(** ** Time *)

(** A naive [datetime], as [datetime.utcnow()] returns it. *)
Definition datetime : Type := Z.

(** A value of the class [datetime]: what it reads, and whether it carries
    a time zone ([tzinfo is not None]). The request schema reads an ISO text
    with [Z] or an offset as an aware value, and one without as a naive
    value. *)
Record pydatetime : Type := mkDatetime {
  instant : datetime;
  aware : bool
}.

Definition naive (t : datetime) : pydatetime := mkDatetime t false.

(** [d < t], [d <= t] and [d - t] for a naive [t]: an aware [d] raises
    "can't compare (subtract) offset-naive and offset-aware datetimes". *)
Definition datetime_lt (d : pydatetime) (t : datetime) : Py.result bool :=
  if aware d then Py.Raise Py.TypeError else Py.Ok (instant d <? t).

Definition datetime_le (d : pydatetime) (t : datetime) : Py.result bool :=
  if aware d then Py.Raise Py.TypeError else Py.Ok (instant d <=? t).

Definition datetime_sub (d : pydatetime) (t : datetime) : Py.result Z :=
  if aware d then Py.Raise Py.TypeError else Py.Ok (instant d - t).

(** What a column declared [DateTime(timezone=True)] gives back for a value
    that was written to it depends on the database behind the session:
    PostgreSQL, which the [DATABASE_URL] of the configuration names, gives
    every value back with a time zone; a database without a type for it
    gives every value back without; [as_written] stands for a session that
    keeps the value that it was given. *)
Inductive column_zone : Type :=
| as_written
| always_aware
| always_naive.

Definition read_back (zone : column_zone) (d : pydatetime) : pydatetime :=
  match zone with
  | as_written => d
  | always_aware => mkDatetime (instant d) true
  | always_naive => mkDatetime (instant d) false
  end.

Definition day_us : Z := 86400000000.

(** [timedelta(days=n)] *)
Definition timedelta_of_days (n : Z) : Z := n * day_us.

(** [delta.days]: a [timedelta] is normalised with a non-negative remainder,
    so the day count is the floor. *)
Definition timedelta_days (delta : Z) : Z := delta / day_us.

(** ** app/models/task.py *)

Inductive TaskStatus : Type :=
| PENDING | IN_PROGRESS | COMPLETED | CANCELLED | ON_HOLD.

Inductive TaskPriority : Type :=
| LOW | MEDIUM | HIGH | URGENT.

#[global] Instance TaskStatus_eq_dec : EqDecision TaskStatus.
Proof. solve_decision. Defined.

#[global] Instance TaskPriority_eq_dec : EqDecision TaskPriority.
Proof. solve_decision. Defined.

(** A row of [tasks]; the primary key is the key of the table. Columns that
    are nullable in the table are options. The columns [uuid], [workspace_id],
    [page_id], [ai_context], [is_recurring], [recurrence_pattern] and
    [next_occurrence] are carried by no modelled operation beyond a copy and
    are left out; the modelled requests name no workspace and no page. The
    code compares no [datetime] column other than [due_date] in Python, so
    that the other ones are kept by their readings. A tag is held in the
    form that the validators of the request schemas give it, which the
    validator of the response schema leaves as it is. *)
Record Task : Type := mkTask {
  title : option string;
  description : option string;
  status : option TaskStatus;
  priority : option TaskPriority;
  due_date : option pydatetime;
  start_date : option datetime;
  estimated_duration : option Z;
  actual_duration : option Z;
  tags : option (list string);
  category : option string;
  project : option string;
  ai_generated : bool;
  ai_priority_score : option Z;
  ai_complexity_score : option Z;
  ai_suggested_time_slot : option datetime;
  user_id : Z;
  parent_task_id : option Z;
  created_at : datetime;
  updated_at : option datetime;
  completed_at : option datetime
}.

(** A row of [task_dependencies]: the task [dep_task_id] depends on the task
    [dep_depends_on_id]. *)
Record TaskDependency : Type := mkDep {
  dep_id : Z;
  dep_task_id : Z;
  dep_depends_on_id : Z;
  dependency_type : string
}.

(** ** app/schemas/task.py *)

(** [TaskUpdate] after validation. A field is [None] when the request left it
    unset, [Some None] when it was set to null and [Some (Some v)] when it was
    set to [v]: [dict(exclude_unset=True)] keeps exactly the fields that were
    set. The schema has no field [completed_at] and no field
    [ai_suggested_time_slot]; a keyword of that name given to the constructor
    is ignored. *)
Record TaskUpdate : Type := mkTaskUpdate {
  upd_title : option (option string);
  upd_description : option (option string);
  upd_status : option (option TaskStatus);
  upd_priority : option (option TaskPriority);
  upd_due_date : option (option pydatetime);
  upd_start_date : option (option datetime);
  upd_estimated_duration : option (option Z);
  upd_actual_duration : option (option Z);
  upd_tags : option (option (list string));
  upd_category : option (option string);
  upd_project : option (option string)
}.

(** [TaskUpdate()] with no field set *)
Definition TaskUpdate_empty : TaskUpdate :=
  mkTaskUpdate None None None None None None None None None None None.

(** Reading an attribute of the schema object: an unset field reads as its
    default [None]. *)
Definition attr {A} (field : option (option A)) : option A :=
  match field with
  | Some v => v
  | None => None
  end.

(** [TaskResponse]: the columns of the row, its key and the computed fields. *)
Record TaskResponse : Type := mkTaskResponse {
  resp_id : Z;
  resp_task : Task;
  is_overdue : bool;
  is_due_soon : bool;
  subtask_count : nat;
  completion_percentage : float
}.

(** [Field(None, max_length=n)] on an optional string *)
Definition max_length (n : nat) (s : option string) : bool :=
  match s with
  | Some text => Nat.leb (String.length text) n
  | None => true
  end.

(** What the constructor of [TaskResponse] requires of the columns of a
    row: [title], [status], [priority] and [tags] are not optional, and the
    fields inherited from [TaskBase] keep their bounds. Where it holds, the
    object carries the values as they are; else the constructor raises a
    [ValidationError]. *)
Definition TaskResponse_validates (t : Task) : bool :=
  match title t with
  | Some text => Nat.leb 1 (String.length text) && Nat.leb (String.length text) 200
  | None => false
  end
  && max_length 2000 (description t)
  && bool_decide (is_Some (status t))
  && bool_decide (is_Some (priority t))
  && match estimated_duration t with
     | Some minutes => (1 <=? minutes) && (minutes <=? 1440)
     | None => true
     end
  && match tags t with
     | Some l => Nat.leb (length l) 10
     | None => false
     end
  && max_length 100 (category t)
  && max_length 100 (project t).

(** The validators of the [tags] field. *)
Module TaskSchema.

Section Validators.

(** [str.strip] and [str.lower] *)
Variable strip lower : string -> string.

(** [[tag.strip().lower() for tag in v if tag.strip()]] *)
Definition clean_tags (v : list string) : list string :=
  map (fun tag => lower (strip tag))
    (List.filter (fun tag => negb (String.eqb (strip tag) EmptyString)) v).

(** [TaskBase.validate_tags] *)
Definition TaskBase_validate_tags (v : list string) : Py.result (list string) :=
  if Nat.ltb 10 (length v) then Py.Raise Py.ValueError
  else Py.Ok (clean_tags v).

(** [TaskUpdate.validate_tags]: [None] and the empty list are returned as
    they are. *)
Definition TaskUpdate_validate_tags (v : option (list string))
  : Py.result (option (list string)) :=
  match v with
  | None => Py.Ok None
  | Some l =>
      if Nat.ltb 10 (length l) then Py.Raise Py.ValueError
      else match l with
           | [] => Py.Ok (Some [])
           | _ => Py.Ok (Some (clean_tags l))
           end
  end.

End Validators.

End TaskSchema.

(** ** The store *)

Record DB : Type := mkDB {
  db_tasks : gmap Z Task;
  db_dependencies : list TaskDependency;
  db_zone : column_zone
}.

Definition with_tasks (db : DB) (m : gmap Z Task) : DB :=
  mkDB m (db_dependencies db) (db_zone db).

Definition with_dependencies (db : DB) (l : list TaskDependency) : DB :=
  mkDB (db_tasks db) l (db_zone db).

(** [select(Task).where(cond)]: the rows of the table that satisfy [cond]. *)
Definition select_tasks (cond : Z -> Task -> bool) (db : DB) : list (Z * Task) :=
  List.filter (fun row => cond (fst row) (snd row)) (map_to_list (db_tasks db)).

(** [scalar_one_or_none()] *)
Definition scalar_one_or_none {A} (rows : list A) : Py.result (option A) :=
  match rows with
  | [] => Py.Ok None
  | [row] => Py.Ok (Some row)
  | _ => Py.Raise Py.MultipleResultsFound
  end.

(** SQL comparison of a nullable column with a value: null compares as
    unknown, and a row is kept only when the condition is true. *)
Definition sql_eq {A} `{EqDecision A} (col : option A) (v : A) : bool :=
  match col with
  | Some x => bool_decide (x = v)
  | None => false
  end.

Definition sql_ne {A} `{EqDecision A} (col : option A) (v : A) : bool :=
  match col with
  | Some x => negb (bool_decide (x = v))
  | None => false
  end.

(** Python [!=] on a nullable attribute: [None != v] is true. *)
Definition py_ne {A} `{EqDecision A} (x : option A) (v : A) : bool :=
  negb (bool_decide (x = Some v)).

(** Assignments to single attributes of a loaded row. *)
Definition set_due_date (v : option pydatetime) (t : Task) : Task :=
  mkTask (title t) (description t) (status t) (priority t) v
    (start_date t) (estimated_duration t) (actual_duration t) (tags t)
    (category t) (project t) (ai_generated t) (ai_priority_score t)
    (ai_complexity_score t) (ai_suggested_time_slot t) (user_id t)
    (parent_task_id t) (created_at t) (updated_at t) (completed_at t).

Definition set_completed_at (v : option datetime) (t : Task) : Task :=
  mkTask (title t) (description t) (status t) (priority t) (due_date t)
    (start_date t) (estimated_duration t) (actual_duration t) (tags t)
    (category t) (project t) (ai_generated t) (ai_priority_score t)
    (ai_complexity_score t) (ai_suggested_time_slot t) (user_id t)
    (parent_task_id t) (created_at t) (updated_at t) v.

Definition set_updated_at (v : option datetime) (t : Task) : Task :=
  mkTask (title t) (description t) (status t) (priority t) (due_date t)
    (start_date t) (estimated_duration t) (actual_duration t) (tags t)
    (category t) (project t) (ai_generated t) (ai_priority_score t)
    (ai_complexity_score t) (ai_suggested_time_slot t) (user_id t)
    (parent_task_id t) (created_at t) v (completed_at t).

Definition set_ai_suggested_time_slot (v : option datetime) (t : Task) : Task :=
  mkTask (title t) (description t) (status t) (priority t) (due_date t)
    (start_date t) (estimated_duration t) (actual_duration t) (tags t)
    (category t) (project t) (ai_generated t) (ai_priority_score t)
    (ai_complexity_score t) v (user_id t)
    (parent_task_id t) (created_at t) (updated_at t) (completed_at t).

Definition set_ai_scores (p c : option Z) (t : Task) : Task :=
  mkTask (title t) (description t) (status t) (priority t) (due_date t)
    (start_date t) (estimated_duration t) (actual_duration t) (tags t)
    (category t) (project t) (ai_generated t) p c
    (ai_suggested_time_slot t) (user_id t)
    (parent_task_id t) (created_at t) (updated_at t) (completed_at t).

(** [db.refresh(task)] after a commit: the attributes are read from the
    store again. *)
Definition refresh (db : DB) (t : Task) : Task :=
  set_due_date (read_back (db_zone db) <$> due_date t) t.

(** [TaskCreate] after validation, for a request that names no workspace
    and no page: [priority] and [tags] always hold a value. *)
Record TaskCreate : Type := mkTaskCreate {
  new_title : string;
  new_description : option string;
  new_priority : TaskPriority;
  new_due_date : option pydatetime;
  new_start_date : option datetime;
  new_estimated_duration : option Z;
  new_tags : list string;
  new_category : option string;
  new_project : option string;
  new_parent_task_id : option Z;
  new_ai_generated : bool
}.

(** The filters of a listing, as the endpoint builds the dict: every key is
    present, a value may be [None]. *)
Record Filters : Type := mkFilters {
  f_status : option TaskStatus;
  f_priority : option TaskPriority;
  f_category : option string;
  f_project : option string;
  f_due_soon : bool;
  f_overdue : bool;
  f_search : option string
}.

(** [overdue=true] alone, and [due_soon=true] alone. *)
Definition overdue_filter : Filters :=
  mkFilters None None None None false true None.

Definition due_soon_filter : Filters :=
  mkFilters None None None None true false None.

(** The result dict of the analytics aggregation. *)
Record Analytics : Type := mkAnalytics {
  total_tasks : Z;
  completed_tasks : Z;
  pending_tasks : Z;
  overdue_tasks : Z;
  completion_rate : Py.number;
  productivity_score : Py.number;
  period_days : Z
}.

(** SQL three-valued disjunction *)
Definition sql_or (a b : option bool) : option bool :=
  match a, b with
  | Some true, _ | _, Some true => Some true
  | Some false, Some false => Some false
  | _, _ => None
  end.

Definition sql_is_true (c : option bool) : bool :=
  match c with Some true => true | _ => false end.

(** A truthy optional string: set and not empty. *)
Definition str_truthy (s : option string) : option string :=
  match s with
  | Some x => if String.eqb x EmptyString then None else Some x
  | None => None
  end.

(** *** Ordering of a listing

    [order_by(desc(priority == URGENT), desc(priority == HIGH), asc(due_date),
    desc(created_at))] as PostgreSQL evaluates it: a null sorts as the
    largest value, so it comes first under [desc] and last under [asc]. The
    query leaves open in what order the store returns rows that compare
    equal; [order_rows] returns them in the order of the table, which is one
    of the orders that the query allows, and no property below depends on
    that choice. *)

(** The instant of the due date, which is what the store compares. *)
Definition due_instant (t : Task) : option datetime := instant <$> due_date t.

Definition desc_flag (p : option TaskPriority) (v : TaskPriority) : Z :=
  match p with
  | None => 0
  | Some x => if bool_decide (x = v) then 1 else 2
  end.

Definition asc_nulls_last (a b : option datetime) : comparison :=
  match a, b with
  | Some x, Some y => x ?= y
  | Some _, None => Lt
  | None, Some _ => Gt
  | None, None => Eq
  end.

Definition then_by (c d : comparison) : comparison :=
  match c with Eq => d | _ => c end.

Definition row_compare (a b : Z * Task) : comparison :=
  then_by (desc_flag (priority (snd a)) URGENT ?= desc_flag (priority (snd b)) URGENT)
 (then_by (desc_flag (priority (snd a)) HIGH ?= desc_flag (priority (snd b)) HIGH)
 (then_by (asc_nulls_last (due_instant (snd a)) (due_instant (snd b)))
          (created_at (snd b) ?= created_at (snd a)))).

Definition row_leb (a b : Z * Task) : bool :=
  match row_compare a b with Gt => false | _ => true end.

Fixpoint insert_row (x : Z * Task) (l : list (Z * Task)) : list (Z * Task) :=
  match l with
  | [] => [x]
  | y :: l' => if row_leb x y then x :: l else y :: insert_row x l'
  end.

Definition order_rows (l : list (Z * Task)) : list (Z * Task) :=
  fold_right insert_row [] l.

(** ** The sort key of a listing

    The order of a listing is the lexicographic order of five numbers:
    the two priority flags, the mark of a missing due date, the due date
    and the creation time, negated. *)

Module SortKey.

Definition row_keys (a : Z * Task) : list Z :=
  [ desc_flag (priority (snd a)) URGENT;
    desc_flag (priority (snd a)) HIGH;
    match due_instant (snd a) with Some _ => 0 | None => 1 end;
    default 0 (due_instant (snd a));
    - created_at (snd a) ].

Fixpoint lex (k1 k2 : list Z) : comparison :=
  match k1, k2 with
  | x :: k1', y :: k2' => then_by (x ?= y) (lex k1' k2')
  | _, _ => Eq
  end.

(** The place of a priority in a listing: a row without priority comes
    first, then the urgent rows, then the high ones, then the others. *)
Definition rank (p : option TaskPriority) : Z :=
  match p with
  | None => 0
  | Some URGENT => 1
  | Some HIGH => 2
  | Some _ => 3
  end.

(** [a] is not behind [b] in the order of a listing. *)
Definition not_behind (a b : TaskResponse) : Prop :=
  row_compare (resp_id a, resp_task a) (resp_id b, resp_task b) <> Gt.

End SortKey.

(** ** Logging and the AI endpoint *)

Inductive level : Type := INFO | ERROR.

(** A structured log line: its level, its event text and the integer fields
    bound to it. *)
Record log_entry : Type := mkLog {
  log_level : level;
  log_event : string;
  log_fields : list (string * Z)
}.

(** What one POST to [/chat/completions] comes to: the call fails inside
    httpx (transport error, timeout or an error status), or it delivers a
    body that is not JSON, or it delivers a JSON document. *)
Inductive http_outcome : Type :=
| HttpError
| HttpNotJson
| HttpJson (body : Py.json).

(** The endpoint answers with the completion text [content]. *)
Definition completion_reply (content : string) : http_outcome :=
  HttpJson
    (Py.JDict
       [("choices"%string,
         Py.JList
           [Py.JDict
              [("message"%string,
                Py.JDict [("content"%string, Py.JStr content)])]])]).

(** A schedule with one suggestion. *)
Definition single_suggestion (id : Z) (time : string) : Py.json :=
  Py.JDict
    [("optimized_schedule"%string,
      Py.JList [Py.JDict [("task_id"%string, Py.JInt id);
                          ("suggested_time"%string, Py.JStr time)]])].

(** ** app/services/ai/grok_service.py *)

Module GrokService.

(** [httpx.HTTPError] is caught, logged and raised again as a plain
    [Exception]; the decoding error of [response.json()] is not an
    [httpx.HTTPError]. *)
Definition _make_request (reply : http_outcome)
  : list log_entry * Py.result Py.json :=
  match reply with
  | HttpError =>
      ([mkLog ERROR "Grok API request failed" []], Py.Raise Py.ServiceUnavailable)
  | HttpNotJson => ([], Py.Raise Py.JSONDecodeError)
  | HttpJson body => ([], Py.Ok body)
  end.

Section WithJson.

(** [json.loads] on a text: [None] stands for [JSONDecodeError]. *)
Variable json_loads : string -> option Py.json.

(** [json.loads(content)] on whatever the response holds under
    [content]. *)
Definition loads (content : Py.json) : Py.result Py.json :=
  match content with
  | Py.JStr text =>
      match json_loads text with
      | Some v => Py.Ok v
      | None => Py.Raise Py.JSONDecodeError
      end
  | _ => Py.Raise Py.TypeError
  end.

(** The body of the [try] blocks:
    [response = await self._make_request(...)],
    [content = response["choices"][0]["message"]["content"]],
    [json.loads(content)]. *)
Definition request_and_parse (reply : http_outcome) : Py.result Py.json :=
  let! response := snd (_make_request reply) in
  let! choices := Py.getitem_key response "choices" in
  let! choice := Py.getitem_0 choices in
  let! message := Py.getitem_key choice "message" in
  let! content := Py.getitem_key message "content" in
  loads content.

Definition fallback_task (task_input : string) : Py.json :=
  Py.JDict
    [ ("title"%string, Py.JStr (Py.prefix 100 task_input));
      ("description"%string,
        if (100 <? String.length task_input)%nat
        then Py.JStr task_input else Py.JNull);
      ("priority"%string, Py.JStr "medium") ].

(** The result of the call; its log lines are left out. *)
Definition parse_natural_language_task
    (task_input : string) (reply : http_outcome) : Py.result Py.json :=
  match request_and_parse reply with
  | Py.Ok task_data => Py.Ok task_data
  | Py.Raise Py.JSONDecodeError
  | Py.Raise Py.KeyError => Py.Ok (fallback_task task_input)
  | Py.Raise e => Py.Raise e
  end.

Definition fallback_schedule : Py.json :=
  Py.JDict
    [ ("error"%string, Py.JStr "Optimization failed");
      ("fallback"%string, Py.JBool true) ].

(** [context] is the text of [json.dumps(context_data, indent=2)], which
    is built before the [try]; it is [None] when a value of the context
    is not serialisable, and the [TypeError] then leaves the function. The
    log holds the line of the request, if it has one, and then the line of
    the function. *)
Definition generate_schedule_optimization
    (user_id : Z) (context : option string) (reply : http_outcome)
  : list log_entry * Py.result Py.json :=
  match context with
  | None => ([], Py.Raise Py.TypeError)
  | Some _ =>
      match request_and_parse reply with
      | Py.Ok optimization_data =>
          (fst (_make_request reply)
           ++ [mkLog INFO "Schedule optimized" [("user_id"%string, user_id)]],
           Py.Ok optimization_data)
      | Py.Raise _ =>
          (fst (_make_request reply)
           ++ [mkLog ERROR "Schedule optimization failed"
                 [("user_id"%string, user_id)]],
           Py.Ok fallback_schedule)
      end
  end.

Definition fallback_insights : Py.json :=
  Py.JDict [ ("error"%string, Py.JStr "Insights generation failed") ].

(** As [generate_schedule_optimization]: the text of
    [json.dumps(productivity_data, indent=2)] is built before the [try]. *)
Definition generate_productivity_insights
    (user_id : Z) (context : option string) (reply : http_outcome)
  : list log_entry * Py.result Py.json :=
  match context with
  | None => ([], Py.Raise Py.TypeError)
  | Some _ =>
      match request_and_parse reply with
      | Py.Ok insights =>
          (fst (_make_request reply)
           ++ [mkLog INFO "Productivity insights generated"
                 [("user_id"%string, user_id)]],
           Py.Ok insights)
      | Py.Raise _ =>
          (fst (_make_request reply)
           ++ [mkLog ERROR "Productivity insights failed"
                 [("user_id"%string, user_id)]],
           Py.Ok fallback_insights)
      end
  end.

End WithJson.

End GrokService.

(** ** app/services/ai/enhanced_grok_service.py *)

Module EnhancedGrokService.

(** The dataclass is not validated: a field holds whatever the parsed
    document has under its key. *)
Record TaskParsing : Type := mkTaskParsing {
  tp_title : Py.json;
  tp_description : Py.json;
  tp_priority : Py.json;
  tp_due_date : option pydatetime;
  tp_estimated_duration : Py.json;
  tp_tags : Py.json;
  tp_dependencies : Py.json;
  tp_subtasks : Py.json;
  tp_ai_confidence : Py.json;
  tp_reasoning : Py.json
}.

Definition _make_request (reply : http_outcome)
  : list log_entry * Py.result Py.json :=
  match reply with
  | HttpError =>
      ([mkLog ERROR "Enhanced Grok API request failed" []],
       Py.Raise Py.ServiceUnavailable)
  | HttpNotJson => ([], Py.Raise Py.JSONDecodeError)
  | HttpJson body => ([], Py.Ok body)
  end.

Section WithLibrary.

Variable json_loads : string -> option Py.json.
(** [datetime.fromisoformat] and [datetime.strptime]; [None] stands for
    their [ValueError]. A format without [%z] gives a naive value. *)
Variable fromisoformat : string -> option pydatetime.
Variable strptime : string -> string -> option datetime.

Definition loads (content : Py.json) : Py.result Py.json :=
  match content with
  | Py.JStr text =>
      match json_loads text with
      | Some v => Py.Ok v
      | None => Py.Raise Py.JSONDecodeError
      end
  | _ => Py.Raise Py.TypeError
  end.

(** [date_str.replace('Z', '+00:00')] *)
Fixpoint replace_Z (s : string) : string :=
  match s with
  | EmptyString => EmptyString
  | String c s' =>
      if Ascii.eqb c "Z"%char then ("+00:00" ++ replace_Z s')%string
      else String c (replace_Z s')
  end.

Fixpoint first_format (date_str : string) (formats : list string)
  : option pydatetime :=
  match formats with
  | [] => None
  | fmt :: rest =>
      match strptime date_str fmt with
      | Some d => Some (naive d)
      | None => first_format date_str rest
      end
  end.

(** Every failure inside is caught by a bare [except]; a value that is
    not a string fails in each attempt. *)
Definition _parse_datetime (date_str : Py.json) : option pydatetime :=
  if negb (Py.truthy date_str) then None
  else match date_str with
       | Py.JStr s =>
           match fromisoformat (replace_Z s) with
           | Some d => Some d
           | None =>
               first_format s
                 ["%Y-%m-%d"; "%Y-%m-%d %H:%M"; "%m/%d/%Y"; "%d/%m/%Y"]%string
           end
       | _ => None
       end.

Definition fallback_parsing (task_input : string) : TaskParsing :=
  mkTaskParsing
    (Py.JStr (Py.prefix 100 task_input))
    (if (100 <? String.length task_input)%nat
     then Py.JStr task_input else Py.JNull)
    (Py.JStr "medium")
    None Py.JNull Py.JNull Py.JNull Py.JNull
    (Py.JFloat (Py.FFinite (3 # 10)))
    (Py.JStr "Fallback parsing due to AI service error").

(** The body of the [try]; the log lines are left out. *)
Definition parse_body (task_input : string) (reply : http_outcome)
  : Py.result TaskParsing :=
  let! response := snd (_make_request reply) in
  let! choices := Py.getitem_key response "choices" in
  let! choice := Py.getitem_0 choices in
  let! message := Py.getitem_key choice "message" in
  let! content := Py.getitem_key message "content" in
  let! parsed_data := loads content in
  let! title := Py.get parsed_data "title" (Py.JStr (Py.prefix 100 task_input)) in
  let! description := Py.get parsed_data "description" Py.JNull in
  let! priority := Py.get parsed_data "priority" (Py.JStr "medium") in
  let! due := Py.get parsed_data "due_date" Py.JNull in
  let! estimated_duration := Py.get parsed_data "estimated_duration" Py.JNull in
  let! tags := Py.get parsed_data "tags" (Py.JList []) in
  let! dependencies := Py.get parsed_data "dependencies" (Py.JList []) in
  let! subtasks := Py.get parsed_data "subtasks" (Py.JList []) in
  let! confidence := Py.get parsed_data "confidence"
                       (Py.JFloat (Py.FFinite (8 # 10))) in
  let! reasoning := Py.get parsed_data "reasoning"
                      (Py.JStr "AI parsed task from natural language") in
  Py.Ok (mkTaskParsing title description priority (_parse_datetime due)
           estimated_duration tags dependencies subtasks confidence reasoning).

(** [except Exception] covers every exception of the body. *)
Definition parse_natural_language_task
    (task_input : string) (reply : http_outcome) : TaskParsing :=
  match parse_body task_input reply with
  | Py.Ok task_parsing => task_parsing
  | Py.Raise _ => fallback_parsing task_input
  end.

End WithLibrary.

End EnhancedGrokService.

(** ** app/services/task_service.py *)

Module TaskService.

(** *** Scores *)

Definition clamp (score : Z) : Z := Z.min (Z.max score 0) 100.

Definition priority_scores (p : option TaskPriority) : Z :=
  match p with
  | Some LOW => 25
  | Some MEDIUM => 50
  | Some HIGH => 75
  | Some URGENT => 95
  | None => 50
  end.

(** [(task.due_date - datetime.utcnow()).days] raises on an aware due
    date. *)
Definition _calculate_ai_priority_score (now : datetime) (task : Task)
  : Py.result Z :=
  let score := priority_scores (priority task) in
  let! score :=
    match due_date task with
    | Some due =>
        let! delta := datetime_sub due now in
        let days_until_due := timedelta_days delta in
        Py.Ok (if days_until_due <=? 1 then score + 20
               else if days_until_due <=? 3 then score + 10
               else if days_until_due <=? 7 then score + 5
               else score)
    | None => Py.Ok score
    end in
  Py.Ok (clamp score).

(** [if x:] on an optional int: [None] and [0] are false. *)
Definition int_truthy (x : option Z) : bool :=
  match x with
  | Some n => negb (n =? 0)
  | None => false
  end.

Definition _calculate_ai_complexity_score (task : Task) : Z :=
  let score := 30 in
  let score :=
    if int_truthy (estimated_duration task) then
      let d := default 0 (estimated_duration task) in
      if d >? 240 then score + 40
      else if d >? 120 then score + 25
      else if d >? 60 then score + 15
      else score
    else score in
  let score :=
    match description task with
    | Some text =>
        if negb (String.eqb text EmptyString) then
          let n := Z.of_nat (String.length text) in
          if n >? 500 then score + 20
          else if n >? 200 then score + 10
          else score
        else score
    | None => score
    end in
  clamp score.

(** [select(Task).where(and_(Task.id == task_id, Task.user_id == user_id))]
    followed by [scalar_one_or_none()]. The id is the primary key, so the
    query has at most one row. *)
Definition find_task (db : DB) (task_id user : Z) : option Task :=
  match db_tasks db !! task_id with
  | Some task => if user_id task =? user then Some task else None
  | None => None
  end.

(** The two flags are computed first: the comparison of an aware due date
    with the reading of the clock raises. Then the subtasks are counted, and
    the constructor of the schema validates the columns. *)
Definition _task_to_response (now : datetime) (db : DB) (id : Z) (task : Task)
  : Py.result TaskResponse :=
  let! overdue :=
    match due_date task with
    | Some due =>
        let! past := datetime_lt due now in
        Py.Ok (past && py_ne (status task) COMPLETED)
    | None => Py.Ok false
    end in
  let! due_soon :=
    match due_date task with
    | Some due =>
        let! soon := datetime_le due (now + timedelta_of_days 3) in
        Py.Ok (soon && py_ne (status task) COMPLETED)
    | None => Py.Ok false
    end in
  let subtasks :=
    select_tasks (fun _ t => sql_eq (parent_task_id t) id) db in
  if TaskResponse_validates task then
    Py.Ok (mkTaskResponse id task overdue due_soon (length subtasks)
             (if bool_decide (status task = Some COMPLETED)
              then 100%float else 0%float))
  else Py.Raise Py.ValueError.

Definition fresh_id (m : gmap Z Task) : Z :=
  map_fold (fun k _ acc => Z.max k acc) 0 m + 1.

(** [db.add(task)] and [db.commit()] for a new row. [parent_task_id] is a
    foreign key to the table itself: the insertion of a row whose parent is
    in no row fails, and nothing is written. [user] is the id of a row of
    [users]. *)
Definition insert_task (db : DB) (task : Task) : DB * Py.result Z :=
  let id := fresh_id (db_tasks db) in
  let tasks := <[id := refresh db task]> (db_tasks db) in
  match parent_task_id task with
  | Some parent =>
      if bool_decide (is_Some (tasks !! parent))
      then (with_tasks db tasks, Py.Ok id)
      else (db, Py.Raise Py.IntegrityError)
  | None => (with_tasks db tasks, Py.Ok id)
  end.

(** [task = Task(...)] and the two scores of an [ai_generated] request;
    [status] and [created_at] take the defaults of the table. *)
Definition new_task (now : datetime) (task_data : TaskCreate) (user : Z)
  : Py.result Task :=
  let task :=
    mkTask (Some (new_title task_data)) (new_description task_data)
      (Some PENDING) (Some (new_priority task_data))
      (new_due_date task_data) (new_start_date task_data)
      (new_estimated_duration task_data) None (Some (new_tags task_data))
      (new_category task_data) (new_project task_data)
      (new_ai_generated task_data) None None None user
      (new_parent_task_id task_data) now None None in
  if new_ai_generated task_data then
    let! priority_score := _calculate_ai_priority_score now task in
    Py.Ok (set_ai_scores (Some priority_score)
             (Some (_calculate_ai_complexity_score task)) task)
  else Py.Ok task.

(** The scores are computed before the row is added; an exception of theirs
    leaves the store as it was. The response is built from the row as
    refreshed; an exception of the response leaves the row that has been
    committed. *)
Definition create_task (now : datetime) (db : DB) (task_data : TaskCreate) (user : Z)
  : DB * Py.result TaskResponse :=
  match new_task now task_data user with
  | Py.Raise e => (db, Py.Raise e)
  | Py.Ok task =>
      match insert_task db task with
      | (db', Py.Raise e) => (db', Py.Raise e)
      | (db', Py.Ok id) => (db', _task_to_response now db' id (refresh db task))
      end
  end.

Definition get_task (now : datetime) (db : DB) (task_id user : Z)
  : Py.result (option TaskResponse) :=
  match find_task db task_id user with
  | None => Py.Ok None
  | Some task =>
      let! response := _task_to_response now db task_id task in
      Py.Ok (Some response)
  end.

(** [for field, value in update_data.items(): setattr(task, field, value)] *)
Definition apply_update_data (u : TaskUpdate) (t : Task) : Task :=
  mkTask
    (default (title t) (upd_title u))
    (default (description t) (upd_description u))
    (default (status t) (upd_status u))
    (default (priority t) (upd_priority u))
    (default (due_date t) (upd_due_date u))
    (default (start_date t) (upd_start_date u))
    (default (estimated_duration t) (upd_estimated_duration u))
    (default (actual_duration t) (upd_actual_duration u))
    (default (tags t) (upd_tags u))
    (default (category t) (upd_category u))
    (default (project t) (upd_project u))
    (ai_generated t) (ai_priority_score t) (ai_complexity_score t)
    (ai_suggested_time_slot t) (user_id t) (parent_task_id t)
    (created_at t) (updated_at t) (completed_at t).

(** The completion timestamp, decided on [task_update.status]. *)
Definition update_completion (now : datetime) (u : TaskUpdate) (t : Task) : Task :=
  if bool_decide (attr (upd_status u) = Some COMPLETED)
     && negb (bool_decide (is_Some (completed_at t)))
  then set_completed_at (Some now) t
  else if negb (bool_decide (attr (upd_status u) = Some COMPLETED))
  then set_completed_at None t
  else t.

(** [title] is declared [nullable=False]; the commit of a row without a
    title fails and nothing is written. *)
Definition commit_task (db : DB) (id : Z) (t : Task) : DB * Py.result unit :=
  match title t with
  | Some _ => (with_tasks db (<[id := refresh db t]> (db_tasks db)), Py.Ok tt)
  | None => (db, Py.Raise Py.IntegrityError)
  end.

Definition update_task (now : datetime) (db : DB) (task_id : Z)
    (task_update : TaskUpdate) (user : Z)
  : DB * Py.result (option TaskResponse) :=
  match find_task db task_id user with
  | None => (db, Py.Ok None)
  | Some task =>
      let task := apply_update_data task_update task in
      let task := update_completion now task_update task in
      let task := set_updated_at (Some now) task in
      match commit_task db task_id task with
      | (db', Py.Ok _) =>
          (db', let! response :=
                  _task_to_response now db' task_id (refresh db task) in
                Py.Ok (Some response))
      | (db', Py.Raise e) => (db', Py.Raise e)
      end
  end.

(** What the store does with rows that refer to the deleted one is not
    modelled. *)
Definition delete_task (db : DB) (task_id user : Z) : DB * bool :=
  match find_task db task_id user with
  | None => (db, false)
  | Some _ => (with_tasks db (delete task_id (db_tasks db)), true)
  end.

(** [TaskUpdate(status=COMPLETED, completed_at=...)]: the second keyword
    names no field of the schema. *)
Definition complete_task (now : datetime) (db : DB) (task_id user : Z)
  : DB * Py.result (option TaskResponse) :=
  update_task now db task_id
    (mkTaskUpdate None None (Some (Some COMPLETED)) None None None None None
       None None None)
    user.

(** *** Dependencies *)

(** "Simple implementation - check direct reverse dependency" *)
Definition _would_create_circular_dependency
    (db : DB) (task_id depends_on_id : Z) : Py.result bool :=
  let reverse :=
    List.filter
      (fun d => (dep_task_id d =? depends_on_id)
                && (dep_depends_on_id d =? task_id))
      (db_dependencies db) in
  let! row := scalar_one_or_none reverse in
  Py.Ok (bool_decide (is_Some row)).

Definition fresh_dep_id (deps : list TaskDependency) : Z :=
  fold_right (fun d acc => Z.max (dep_id d) acc) 0 deps + 1.

Definition add_task_dependency (db : DB) (task_id depends_on_id user : Z)
  : DB * Py.result (option TaskDependency) :=
  let tasks :=
    select_tasks
      (fun id t => ((id =? task_id) || (id =? depends_on_id))
                   && (user_id t =? user)) db in
  if negb (length tasks =? 2)%nat then (db, Py.Ok None)
  else
    match _would_create_circular_dependency db task_id depends_on_id with
    | Py.Raise e => (db, Py.Raise e)
    | Py.Ok true => (db, Py.Ok None)
    | Py.Ok false =>
        let dependency :=
          mkDep (fresh_dep_id (db_dependencies db)) task_id depends_on_id
            "finish_to_start" in
        (with_dependencies db (db_dependencies db ++ [dependency]),
         Py.Ok (Some dependency))
    end.

(** One entry of the list that [get_task_dependencies] returns: the id of
    the row, the id, title and status of the task depended on, and the type
    of the dependency. *)
Record DependencyInfo : Type := mkDependencyInfo {
  info_id : Z;
  info_depends_on_id : Z;
  info_depends_on_title : option string;
  info_depends_on_status : option TaskStatus;
  info_dependency_type : string
}.

(** The list comprehension over the rows. [dep.depends_on] is the row
    that [depends_on_id] names, [None] when the table has no such row;
    reading an attribute of [None] raises. *)
Fixpoint dependency_rows (tasks : gmap Z Task) (dependencies : list TaskDependency)
  : Py.result (list DependencyInfo) :=
  match dependencies with
  | [] => Py.Ok []
  | dep :: rest =>
      match tasks !! dep_depends_on_id dep with
      | None => Py.Raise Py.AttributeError
      | Some depends_on =>
          let! infos := dependency_rows tasks rest in
          Py.Ok (mkDependencyInfo (dep_id dep) (dep_depends_on_id dep)
                   (title depends_on) (status depends_on) (dependency_type dep)
                 :: infos)
      end
  end.

Definition get_task_dependencies (db : DB) (task_id user : Z)
  : Py.result (list DependencyInfo) :=
  match find_task db task_id user with
  | None => Py.Ok []
  | Some _ =>
      dependency_rows (db_tasks db)
        (List.filter (fun d => dep_task_id d =? task_id) (db_dependencies db))
  end.

(** *** Subtasks *)

(** [TaskCreate(title=title, parent_task_id=parent_task_id,
    priority=TaskPriority.MEDIUM, ai_generated=True)]: the title must have
    between 1 and 200 characters, the other fields take their defaults.
    The [ValidationError] of pydantic is a [ValueError]. *)
Definition subtask_data (title : string) (parent_task_id : Z)
  : Py.result TaskCreate :=
  if Nat.leb 1 (String.length title) && Nat.leb (String.length title) 200
  then Py.Ok (mkTaskCreate title None MEDIUM None None None [] None None
                (Some parent_task_id) true)
  else Py.Raise Py.ValueError.

(** [subtask_titles] is a list of [str], as annotated. Each [create_task]
    reads the clock for itself: [clock k] is the reading of the call for
    the title at index [k]. Nothing is caught, and what was created before
    an exception stays. *)
Fixpoint create_subtasks (clock : nat -> datetime) (db : DB) (parent_task_id : Z)
    (subtask_titles : list string) (user : Z) : DB * Py.result unit :=
  match subtask_titles with
  | [] => (db, Py.Ok tt)
  | title :: rest =>
      match subtask_data title parent_task_id with
      | Py.Raise e => (db, Py.Raise e)
      | Py.Ok data =>
          match create_task (clock 0%nat) db data user with
          | (db', Py.Raise e) => (db', Py.Raise e)
          | (db', Py.Ok _) =>
              create_subtasks (fun k => clock (S k)) db' parent_task_id rest user
          end
      end
  end.

(** *** Analytics *)

Definition count {A} (p : A -> bool) (l : list A) : Z :=
  Z.of_nat (length (List.filter p l)).

(** [[t for t in tasks if t.due_date and t.due_date < datetime.utcnow()
    and t.status != TaskStatus.COMPLETED]]: the comparison raises at the
    first task whose due date is aware. *)
Fixpoint overdue_list (now : datetime) (tasks : list (Z * Task))
  : Py.result (list (Z * Task)) :=
  match tasks with
  | [] => Py.Ok []
  | row :: rest =>
      let! keep :=
        match due_date (snd row) with
        | Some due =>
            let! past := datetime_lt due now in
            Py.Ok (past && py_ne (status (snd row)) COMPLETED)
        | None => Py.Ok false
        end in
      let! overdue := overdue_list now rest in
      Py.Ok (if keep then row :: overdue else overdue)
  end.

Definition get_productivity_analytics (now : datetime) (db : DB) (user days : Z)
  : Py.result Analytics :=
  let start := now - timedelta_of_days days in
  let tasks :=
    select_tasks (fun _ t => (user_id t =? user) && (created_at t >=? start)) db in
  let total_tasks := Z.of_nat (length tasks) in
  let completed_tasks :=
    count (fun row => bool_decide (status (snd row) = Some COMPLETED)) tasks in
  let! overdue := overdue_list now tasks in
  let overdue_tasks := Z.of_nat (length overdue) in
  let completion_rate :=
    if total_tasks >? 0
    then Py.Float (Py.mul_int (Py.truediv completed_tasks total_tasks) 100)
    else Py.Int 0 in
  Py.Ok (mkAnalytics total_tasks completed_tasks (total_tasks - completed_tasks)
           overdue_tasks completion_rate (Py.min_int completion_rate 100) days).

Definition update_productivity_metrics (user task_id : Z) : list log_entry :=
  [mkLog INFO "Productivity metrics updated"
     [("user_id"%string, user); ("task_id"%string, task_id)]].

Section Listing.

(** [column.ilike(pattern)] of the store, on a text and a pattern. *)
Variable ilike : string -> string -> bool.

Definition sql_ilike (col : option string) (pattern : string) : option bool :=
  match col with
  | Some text => Some (ilike text pattern)
  | None => None
  end.

(** The conditions that the filters add; their [and_] holds of a row
    when each of them does. *)
Definition conditions (now : datetime) (filters : Filters) : list (Task -> bool) :=
  (match f_status filters with
   | Some s => [fun t => sql_eq (status t) s]
   | None => []
   end) ++
  (match f_priority filters with
   | Some p => [fun t => sql_eq (priority t) p]
   | None => []
   end) ++
  (match str_truthy (f_category filters) with
   | Some c => [fun t => sql_eq (category t) c]
   | None => []
   end) ++
  (match str_truthy (f_project filters) with
   | Some p => [fun t => sql_eq (project t) p]
   | None => []
   end) ++
  (if f_due_soon filters then
     let week_from_now := now + timedelta_of_days 7 in
     [fun t => match due_instant t with
               | Some due => (due <=? week_from_now) && sql_ne (status t) COMPLETED
               | None => false
               end]
   else []) ++
  (if f_overdue filters then
     [fun t => match due_instant t with
               | Some due => (due <? now) && sql_ne (status t) COMPLETED
               | None => false
               end]
   else []) ++
  (match str_truthy (f_search filters) with
   | Some s =>
       let search_term := ("%" ++ s ++ "%")%string in
       [fun t => sql_is_true (sql_or (sql_ilike (title t) search_term)
                                     (sql_ilike (description t) search_term))]
   | None => []
   end).

Definition matching (now : datetime) (db : DB) (user : Z) (filters : option Filters)
  : list (Z * Task) :=
  let conds := match filters with
               | Some f => conditions now f
               | None => []
               end in
  select_tasks (fun _ t => (user_id t =? user) && forallb (fun c => c t) conds) db.

(** [for task in tasks: task_responses.append(await
    self._task_to_response(task))]: the first row whose response raises
    ends the loop. *)
Fixpoint task_responses (now : datetime) (db : DB) (tasks : list (Z * Task))
  : Py.result (list TaskResponse) :=
  match tasks with
  | [] => Py.Ok []
  | row :: rest =>
      let! task_response := _task_to_response now db (fst row) (snd row) in
      let! responses := task_responses now db rest in
      Py.Ok (task_response :: responses)
  end.

Definition get_user_tasks (now : datetime) (db : DB) (user : Z)
    (skip limit : nat) (filters : option Filters)
  : Py.result (list TaskResponse * nat) :=
  let rows := matching now db user filters in
  let page := firstn limit (skipn skip (order_rows rows)) in
  let total := length rows in
  let! responses := task_responses now db page in
  Py.Ok (responses, total).

(** [optimization] is what the awaited call
    [grok_service.generate_schedule_optimization(...)] comes to. The
    [try] covers the whole body; its handler logs and returns. *)
Definition optimize_body (now : datetime) (db : DB) (task_id user : Z)
    (optimization : Py.result Py.json)
  : DB * Py.result (list log_entry) :=
  match get_task now db task_id user with
  | Py.Raise e => (db, Py.Raise e)
  | Py.Ok None => (db, Py.Ok [])
  | Py.Ok (Some task) =>
      match get_user_tasks now db user 0 50 None with
      | Py.Raise e => (db, Py.Raise e)
      | Py.Ok user_tasks =>
          match optimization with
          | Py.Raise e => (db, Py.Raise e)
          | Py.Ok optimization_data =>
              match Py.get optimization_data "suggested_time_slot" Py.JNull with
              | Py.Raise e => (db, Py.Raise e)
              | Py.Ok slot =>
                  let done :=
                    [mkLog INFO "Task scheduling optimized"
                       [("task_id"%string, task_id); ("user_id"%string, user)]] in
                  if Py.truthy slot then
                    (* TaskUpdate(ai_suggested_time_slot=...) sets no field *)
                    match update_task now db task_id TaskUpdate_empty user with
                    | (db', Py.Ok _) => (db', Py.Ok done)
                    | (db', Py.Raise e) => (db', Py.Raise e)
                    end
                  else (db, Py.Ok done)
              end
          end
      end
  end.

Definition optimize_task_scheduling (now : datetime) (db : DB) (task_id user : Z)
    (optimization : Py.result Py.json)
  : DB * list log_entry :=
  match optimize_body now db task_id user optimization with
  | (db', Py.Ok logs) => (db', logs)
  | (db', Py.Raise _) =>
      (db', [mkLog ERROR "Task optimization failed" [("task_id"%string, task_id)]])
  end.

Definition ai_optimize_task (now : datetime) (db : DB) (task_id user : Z)
    (optimization : Py.result Py.json)
  : DB * list log_entry :=
  optimize_task_scheduling now db task_id user optimization.

End Listing.

End TaskService.

(** ** app/api/v1/endpoints/tasks.py *)

Module Endpoints.

(** What a handler comes to: the body of a response with status 200, or an
    [HTTPException]. *)
Inductive response (A : Type) : Type :=
| Respond (body : A)
| HTTPException (status_code : Z) (detail : string).
Arguments Respond {A} body.
Arguments HTTPException {A} status_code detail.

(** A call handed to [background_tasks.add_task]; it runs once the response
    has been sent. *)
Inductive background_task : Type :=
| run_optimize_task_scheduling (task_id user : Z)
| run_update_productivity_metrics (user task_id : Z)
| run_ai_optimize_task (task_id user : Z).

(** The store after the handler, its answer, the background calls that it
    has added and its log lines. [current_user] is the id of the user that
    the [get_current_user] dependency has authenticated. *)
Record outcome (A : Type) : Type := mkOutcome {
  out_db : DB;
  out_response : response A;
  out_background : list background_task;
  out_logs : list log_entry
}.
Arguments mkOutcome {A} out_db out_response out_background out_logs.
Arguments out_db {A} o.
Arguments out_response {A} o.
Arguments out_background {A} o.
Arguments out_logs {A} o.

Definition ids (task_id current_user : Z) : list (string * Z) :=
  [("task_id"%string, task_id); ("user_id"%string, current_user)].

Definition create_task (now : datetime) (db : DB) (task_data : TaskCreate)
    (current_user : Z) : outcome TaskResponse :=
  match TaskService.create_task now db task_data current_user with
  | (db', Py.Raise _) =>
      mkOutcome db' (HTTPException 500 "Failed to create task") []
        [mkLog ERROR "Failed to create task" [("user_id"%string, current_user)]]
  | (db', Py.Ok task) =>
      mkOutcome db' (Respond task)
        [run_optimize_task_scheduling (resp_id task) current_user]
        [mkLog INFO "Task created" (ids (resp_id task) current_user)]
  end.

Definition get_task (now : datetime) (db : DB) (task_id current_user : Z)
  : outcome TaskResponse :=
  match TaskService.get_task now db task_id current_user with
  | Py.Raise _ =>
      mkOutcome db (HTTPException 500 "Failed to retrieve task") []
        [mkLog ERROR "Failed to get task" (ids task_id current_user)]
  | Py.Ok None => mkOutcome db (HTTPException 404 "Task not found") [] []
  | Py.Ok (Some task) => mkOutcome db (Respond task) [] []
  end.

Definition update_task (now : datetime) (db : DB) (task_id : Z)
    (task_update : TaskUpdate) (current_user : Z) : outcome TaskResponse :=
  match TaskService.update_task now db task_id task_update current_user with
  | (db', Py.Raise _) =>
      mkOutcome db' (HTTPException 500 "Failed to update task") []
        [mkLog ERROR "Failed to update task" (ids task_id current_user)]
  | (db', Py.Ok None) =>
      mkOutcome db' (HTTPException 404 "Task not found") [] []
  | (db', Py.Ok (Some task)) =>
      mkOutcome db' (Respond task)
        (* if task_update.due_date or task_update.estimated_duration *)
        (if bool_decide (is_Some (attr (upd_due_date task_update)))
            || TaskService.int_truthy (attr (upd_estimated_duration task_update))
         then [run_optimize_task_scheduling (resp_id task) current_user]
         else [])
        [mkLog INFO "Task updated" (ids task_id current_user)]
  end.

Definition delete_task (db : DB) (task_id current_user : Z) : outcome string :=
  match TaskService.delete_task db task_id current_user with
  | (db', false) => mkOutcome db' (HTTPException 404 "Task not found") [] []
  | (db', true) =>
      mkOutcome db' (Respond "Task deleted successfully"%string) []
        [mkLog INFO "Task deleted" (ids task_id current_user)]
  end.

Definition complete_task (now : datetime) (db : DB) (task_id current_user : Z)
  : outcome (string * TaskResponse) :=
  match TaskService.complete_task now db task_id current_user with
  | (db', Py.Raise _) =>
      mkOutcome db' (HTTPException 500 "Failed to complete task") []
        [mkLog ERROR "Failed to complete task" (ids task_id current_user)]
  | (db', Py.Ok None) =>
      mkOutcome db' (HTTPException 404 "Task not found") [] []
  | (db', Py.Ok (Some task)) =>
      mkOutcome db' (Respond ("Task completed successfully"%string, task))
        [run_update_productivity_metrics current_user (resp_id task)]
        [mkLog INFO "Task completed" (ids task_id current_user)]
  end.

Definition get_task_dependencies (db : DB) (task_id current_user : Z)
  : outcome (list TaskService.DependencyInfo) :=
  match TaskService.get_task_dependencies db task_id current_user with
  | Py.Ok dependencies => mkOutcome db (Respond dependencies) [] []
  | Py.Raise _ =>
      mkOutcome db (HTTPException 500 "Failed to retrieve dependencies") []
        [mkLog ERROR "Failed to get dependencies" (ids task_id current_user)]
  end.

Definition add_task_dependency (db : DB) (task_id depends_on_id current_user : Z)
  : outcome string :=
  match TaskService.add_task_dependency db task_id depends_on_id current_user with
  | (db', Py.Raise _) =>
      mkOutcome db' (HTTPException 500 "Failed to add dependency") []
        [mkLog ERROR "Failed to add dependency" (ids task_id current_user)]
  | (db', Py.Ok None) =>
      mkOutcome db' (HTTPException 400 "Cannot create dependency") [] []
  | (db', Py.Ok (Some _)) =>
      mkOutcome db' (Respond "Dependency added successfully"%string) []
        [mkLog INFO "Dependency added"
           [("task_id"%string, task_id); ("depends_on_id"%string, depends_on_id);
            ("user_id"%string, current_user)]]
  end.

(** The handler looks at no row: the background call does. *)
Definition optimize_task_with_ai (db : DB) (task_id current_user : Z)
  : outcome (string * Z) :=
  mkOutcome db (Respond ("AI optimization started"%string, task_id))
    [run_ai_optimize_task task_id current_user] [].

End Endpoints.

(** ** app/models/user.py *)

(** The columns of [users] that the jobs read. [auto_scheduling] is
    [ai_preferences["auto_scheduling"]] cast to a boolean, [None] when the
    key is absent. *)
Record User : Type := mkUser {
  uid : Z;
  is_active : bool;
  auto_scheduling : option bool;
  productivity_settings : Py.json
}.

(** The types of a JSON column: [sqlalchemy.JSON], and the [JSON] and
    [JSONB] of [sqlalchemy.dialects.postgresql]. *)
Inductive json_type : Type :=
| generic_JSON
| postgresql_JSON
| postgresql_JSONB.

(** [column[key].astext]: the comparator of the PostgreSQL types has the
    attribute, the one of the generic type has not. *)
Definition astext (column : json_type) : Py.result unit :=
  match column with
  | generic_JSON => Py.Raise Py.AttributeError
  | postgresql_JSON | postgresql_JSONB => Py.Ok tt
  end.

(** [ai_preferences = Column(JSON, ...)], with [JSON] imported from
    [sqlalchemy]. *)
Definition User_ai_preferences : json_type := generic_JSON.

(** ** app/tasks/ai_tasks.py *)

Module AiTasks.

(** The job works in one session, opened with [autoflush=False]. [loaded]
    holds the rows that the session has loaded, with the values that the
    job has assigned to them; [stored] is the committed table. *)
Record session : Type := mkSession {
  loaded : gmap Z Task;
  stored : gmap Z Task
}.

(** A query is answered from the committed table; a row that the session
    already holds keeps the state it has there. *)
Definition load (ids : list Z) (s : session) : session :=
  mkSession
    (fold_right
       (fun id m =>
          match m !! id, stored s !! id with
          | None, Some row => <[id := row]> m
          | _, _ => m
          end)
       (loaded s) ids)
    (stored s).

(** [await db.commit()]: the state of every loaded row is written. *)
Definition commit (s : session) : session :=
  mkSession (loaded s) (loaded s ∪ stored s).

Definition assign_slot (id : Z) (d : datetime) (s : session) : session :=
  mkSession (alter (set_ai_suggested_time_slot (Some d)) id (loaded s)) (stored s).

Section Job.

Variable json_loads : string -> option Py.json.
(** [datetime.fromisoformat]; [None] stands for its [ValueError]. *)
Variable fromisoformat : string -> option datetime.

(** [datetime.fromisoformat(suggested_time)] on a JSON value *)
Definition parse_time (suggested_time : Py.json) : Py.result datetime :=
  match suggested_time with
  | Py.JStr text =>
      match fromisoformat text with
      | Some d => Py.Ok d
      | None => Py.Raise Py.ValueError
      end
  | _ => Py.Raise Py.TypeError
  end.

(** The loop over [optimization.get("optimized_schedule", [])]; [tasks]
    are the keys of the rows selected for the user, in the order of the
    query result. An exception leaves the assignments made so far in
    the session. *)
Fixpoint apply_suggestions (tasks : list Z) (suggestions : list Py.json)
    (s : session) : session * Py.result unit :=
  match suggestions with
  | [] => (s, Py.Ok tt)
  | suggestion :: rest =>
      match Py.get suggestion "task_id" Py.JNull with
      | Py.Raise e => (s, Py.Raise e)
      | Py.Ok task_id =>
          match Py.get suggestion "suggested_time" Py.JNull with
          | Py.Raise e => (s, Py.Raise e)
          | Py.Ok suggested_time =>
              if Py.truthy task_id && Py.truthy suggested_time then
                match List.find (fun id => Py.int_eq id task_id) tasks with
                | Some id =>
                    match parse_time suggested_time with
                    | Py.Ok d => apply_suggestions tasks rest (assign_slot id d s)
                    | Py.Raise e => (s, Py.Raise e)
                    end
                | None => apply_suggestions tasks rest s
                end
              else apply_suggestions tasks rest s
          end
      end
  end.

(** The rows selected for one user: pending or in progress, with a due
    date, at most twenty. *)
Definition user_tasks (user : Z) (m : gmap Z Task) : list (Z * Task) :=
  firstn 20
    (List.filter
       (fun row =>
          (user_id (snd row) =? user)
          && (sql_eq (status (snd row)) PENDING
              || sql_eq (status (snd row)) IN_PROGRESS)
          && bool_decide (is_Some (due_date (snd row))))
       (map_to_list m)).

(** The body of the [try] inside the loop. The result is [true] when the
    body reaches [optimized_count += 1] and [false] when it leaves the
    iteration at [continue]. *)
Definition optimize_user (user : User) (reply : http_outcome) (s : session)
  : session * list log_entry * Py.result bool :=
  let ids := map fst (user_tasks (uid user) (stored s)) in
  let s := load ids s in
  match ids with
  | [] => (s, [], Py.Ok false)
  | _ =>
      (* tasks_data: [task.priority.value] needs a priority. The other values
   of the context are strings, numbers and nulls, so that json.dumps gives
   a text; what the endpoint makes of it is [reply]. *)
      if existsb (fun id => match loaded s !! id with
                            | Some t => negb (bool_decide (is_Some (priority t)))
                            | None => false
                            end) ids
      then (s, [], Py.Raise Py.AttributeError)
      else
        match GrokService.generate_schedule_optimization json_loads
                (uid user) (Some EmptyString) reply with
        | (logs, Py.Raise e) => (s, logs, Py.Raise e)
        | (logs, Py.Ok optimization) =>
            match Py.get optimization "optimized_schedule" (Py.JList []) with
            | Py.Raise e => (s, logs, Py.Raise e)
            | Py.Ok schedule =>
                match Py.iter schedule with
                | Py.Raise e => (s, logs, Py.Raise e)
                | Py.Ok suggestions =>
                    match apply_suggestions ids suggestions s with
                    | (s', Py.Raise e) => (s', logs, Py.Raise e)
                    | (s', Py.Ok _) =>
                        (commit s',
                         logs ++
                         [mkLog INFO "Schedule optimized for user"
                            [("user_id"%string, uid user);
                             ("tasks_optimized"%string, Z.of_nat (length ids))]],
                         Py.Ok true)
                    end
                end
            end
        end
  end.

(** [for user in users: try: ... except Exception: log; continue].
    [replies] gives the outcome of the request made for a user. *)
Fixpoint optimize_loop (replies : Z -> http_outcome) (users : list User)
    (s : session) (optimized_count : nat)
  : session * nat * list log_entry :=
  match users with
  | [] => (s, optimized_count, [])
  | user :: rest =>
      let '(s', logs, outcome) := optimize_user user (replies (uid user)) s in
      let '(count', logs') :=
        match outcome with
        | Py.Ok true => (S optimized_count, logs)
        | Py.Ok false => (optimized_count, logs)
        | Py.Raise _ =>
            (optimized_count,
             logs ++ [mkLog ERROR "Failed to optimize schedule for user"
                        [("user_id"%string, uid user)]])
        end in
      let '(s'', n, later) := optimize_loop replies rest s' count' in
      (s'', n, logs' ++ later)
  end.

(** [select(User).where(User.is_active == True,
    User.ai_preferences["auto_scheduling"].astext.cast(bool) == True)]: the
    expression is built before the query is run. *)
Definition auto_scheduling_users (all_users : list User) : Py.result (list User) :=
  let! _ := astext User_ai_preferences in
  Py.Ok (List.filter
           (fun u => is_active u && bool_decide (auto_scheduling u = Some true))
           all_users).

(** The loop over the users that the query has returned, and the line that
    follows it. When the session is closed, what was not committed is
    lost. *)
Definition optimize_users (replies : Z -> http_outcome) (users : list User)
    (db : DB) : DB * list log_entry :=
  let '(s, optimized_count, logs) :=
    optimize_loop replies users (mkSession ∅ (db_tasks db)) 0 in
  (with_tasks db (stored s),
   logs ++ [mkLog INFO "Schedule optimization completed"
              [("total_users"%string, Z.of_nat (length users));
               ("optimized_count"%string, Z.of_nat optimized_count)]]).

(** The job on the table of users and the store: the store that it leaves,
    its log, and the exception that leaves it. The outer handler logs and
    raises again. *)
Definition optimize_user_schedules (replies : Z -> http_outcome)
    (all_users : list User) (db : DB) : DB * list log_entry * Py.result unit :=
  match auto_scheduling_users all_users with
  | Py.Raise e => (db, [mkLog ERROR "Failed to optimize schedules" []], Py.Raise e)
  | Py.Ok users =>
      let '(db', logs) := optimize_users replies users db in
      (db', logs, Py.Ok tt)
  end.

End Job.

Section Insights.

Variable json_loads : string -> option Py.json.

(** The body of the [try] inside the loop of
    [generate_daily_productivity_insights], for one user; [now] is the
    reading of the clock in that turn. The context holds numbers, strings,
    nulls and the JSON columns of the user, so that [json.dumps] gives a
    text. *)
Definition user_insights (now : datetime) (db : DB) (user : User)
    (reply : http_outcome) : list log_entry * Py.result unit :=
  let tasks :=
    select_tasks (fun _ t => (user_id t =? uid user)
                             && (created_at t >=? now - timedelta_of_days 7)) db in
  (* task.status.value and task.priority.value *)
  if existsb (fun row => negb (bool_decide (is_Some (status (snd row))))
                         || negb (bool_decide (is_Some (priority (snd row)))))
       tasks
  then ([], Py.Raise Py.AttributeError)
  else
    match GrokService.generate_productivity_insights json_loads (uid user)
            (Some EmptyString) reply with
    | (logs, Py.Raise e) => (logs, Py.Raise e)
    | (logs, Py.Ok insights) =>
        match Py.get insights "recommendations" (Py.JList []) with
        | Py.Raise e => (logs, Py.Raise e)
        | Py.Ok recommendations =>
            match Py.len recommendations with
            | Py.Raise e => (logs, Py.Raise e)
            | Py.Ok n =>
                (logs ++ [mkLog INFO "Productivity insights generated"
                            [("user_id"%string, uid user);
                             ("insights_count"%string, n)]],
                 Py.Ok tt)
            end
        end
    end.

(** [now] and [replies] give the clock reading and the outcome of the
    request in the turn of a user. *)
Fixpoint insights_loop (now : Z -> datetime) (replies : Z -> http_outcome)
    (db : DB) (users : list User) (insights_generated : nat)
  : nat * list log_entry :=
  match users with
  | [] => (insights_generated, [])
  | user :: rest =>
      let '(logs, outcome) :=
        user_insights (now (uid user)) db user (replies (uid user)) in
      let '(count', logs') :=
        match outcome with
        | Py.Ok _ => (S insights_generated, logs)
        | Py.Raise _ =>
            (insights_generated,
             logs ++ [mkLog ERROR "Failed to generate insights for user"
                        [("user_id"%string, uid user)]])
        end in
      let '(n, later) := insights_loop now replies db rest count' in
      (n, logs' ++ later)
  end.

(** The job reads the store and writes nothing to it; what it leaves is
    its log. *)
Definition generate_daily_productivity_insights (now : Z -> datetime)
    (replies : Z -> http_outcome) (all_users : list User) (db : DB)
  : list log_entry :=
  let users := List.filter (fun u => is_active u) all_users in
  let '(insights_generated, logs) := insights_loop now replies db users 0 in
  logs ++ [mkLog INFO "Daily productivity insights completed"
             [("total_users"%string, Z.of_nat (length users));
              ("insights_generated"%string, Z.of_nat insights_generated)]].

End Insights.

(** *** [analyze_user_productivity_patterns] *)

Definition weekday_names : list string :=
  ["Monday"; "Tuesday"; "Wednesday"; "Thursday"; "Friday"; "Saturday";
   "Sunday"]%string.

(** [d.strftime("%A")]: the epoch fell on a Thursday. *)
Definition strftime_A (d : datetime) : string :=
  nth (Z.to_nat ((d / day_us + 3) mod 7)) weekday_names EmptyString.

(** [if day not in counts: counts[day] = 0] followed by [counts[day] += 1],
    on a dict kept in the order of insertion. *)
Fixpoint bump (day : string) (counts : list (string * Z)) : list (string * Z) :=
  match counts with
  | [] => [(day, 1)]
  | (k, n) :: rest =>
      if String.eqb k day then (k, n + 1) :: rest else (k, n) :: bump day rest
  end.

(** The dict that the analysis returns; three of its values are never
    filled in. *)
Record Patterns : Type := mkPatterns {
  most_productive_hours : list Z;
  completion_patterns : list (string * Z);
  priority_handling : list (string * Z);
  task_duration_accuracy : Q
}.

(** The loop over the tasks of the window. *)
Definition count_completions (tasks : list (Z * Task)) : list (string * Z) :=
  fold_left
    (fun counts row =>
       match completed_at (snd row) with
       | Some d => bump (strftime_A d) counts
       | None => counts
       end)
    tasks [].

(** The result is [None] when no user has the id. The handler logs and
    raises again; the log lines are left out. *)
Definition analyze_user_productivity_patterns (now : datetime)
    (all_users : list User) (db : DB) (user : Z) : Py.result (option Patterns) :=
  let! found := scalar_one_or_none (List.filter (fun u => uid u =? user) all_users) in
  match found with
  | None => Py.Ok None
  | Some _ =>
      let tasks :=
        select_tasks (fun _ t => (user_id t =? user)
                                 && (created_at t >=? now - timedelta_of_days 30))
          db in
      Py.Ok (Some (mkPatterns [] (count_completions tasks) [] 0))
  end.

End AiTasks.

(** ** app/core/middleware.py *)

Module RateLimitMiddleware.

(** [self.clients]: for an address, the times of its requests. A time is
    a reading of [time.time()], in seconds. *)
Abbreviation clients := (gmap string (list Q)).

(** [req_time > current_time - 60] *)
Definition recent (current_time req_time : Q) : bool :=
  negb (Qle_bool req_time (current_time - 60)).

(** [dispatch] up to the call of the next handler: the new value of
    [self.clients], and [false] when the request is refused with status
    429. *)
Definition dispatch (calls_per_minute : Z) (state : clients)
    (client_ip : string) (current_time : Q) : clients * bool :=
  let cleaned : clients :=
    filter (fun kv : string * list Q =>
              existsb (recent current_time) (snd kv) = true) state in
  let client_requests := default [] (cleaned !! client_ip) in
  let recent_requests := List.filter (recent current_time) client_requests in
  if Z.of_nat (length recent_requests) >=? calls_per_minute
  then (cleaned, false)
  else (<[client_ip := recent_requests ++ [current_time]]> cleaned, true).

(** A run of requests, each given by its address and the reading of the
    clock, on one instance of the middleware; the answers are collected. *)
Fixpoint serve (calls_per_minute : Z) (state : clients)
    (requests : list (string * Q)) : list bool :=
  match requests with
  | [] => []
  | (client_ip, current_time) :: rest =>
      let '(state', passed) :=
        dispatch calls_per_minute state client_ip current_time in
      passed :: serve calls_per_minute state' rest
  end.

(** The times of the requests of [client_ip] that were let through. *)
Fixpoint passed_times (client_ip : string) (requests : list (string * Q))
    (answers : list bool) : list Q :=
  match requests, answers with
  | (ip, t) :: requests', passed :: answers' =>
      if passed && String.eqb ip client_ip
      then t :: passed_times client_ip requests' answers'
      else passed_times client_ip requests' answers'
  | _, _ => []
  end.

(** The clock does not run backwards over the run. *)
Fixpoint clock_monotone (last : Q) (requests : list (string * Q)) : Prop :=
  match requests with
  | [] => True
  | (_, t) :: rest => (last <= t)%Q /\ clock_monotone t rest
  end.

End RateLimitMiddleware.

(** ** The dependency graph *)

Module Graph.

(** The rows of the dependency table as edges: [a] depends on [b]. *)
Definition edge (deps : list TaskDependency) (a b : Z) : Prop :=
  exists d, In d deps /\ dep_task_id d = a /\ dep_depends_on_id d = b.

Inductive path (deps : list TaskDependency) : Z -> Z -> Prop :=
| path_edge a b : edge deps a b -> path deps a b
| path_step a b c : edge deps a b -> path deps b c -> path deps a c.

Definition acyclic (deps : list TaskDependency) : Prop :=
  forall a, ~ path deps a a.

(** A sequence of [add_task_dependency] calls of one owner, each on the
    store that the call before it left; the answers are collected. *)
Fixpoint add_all (db : DB) (user : Z) (requests : list (Z * Z))
  : DB * list (Py.result (option TaskDependency)) :=
  match requests with
  | [] => (db, [])
  | (task_id, depends_on_id) :: rest =>
      let '(db', answer) :=
        TaskService.add_task_dependency db task_id depends_on_id user in
      let '(db'', answers) := add_all db' user rest in
      (db'', answer :: answers)
  end.

(** No edge has its reverse in the table, and no edge leads from a task
    to itself: the table has no cycle of length one or two. *)
Definition no_short_cycle (deps : list TaskDependency) : Prop :=
  forall d1 d2, In d1 deps -> In d2 deps ->
    ~ (dep_task_id d1 = dep_depends_on_id d2
       /\ dep_depends_on_id d1 = dep_task_id d2).

End Graph.

(** ** Notions in the words of the specification *)

Module Spec.

(** "Due within [n] days of now": the due date lies between now and [n]
    days from now. *)
Definition within_days (now due : datetime) (n : Z) : bool :=
  (now <=? due) && (due <=? now + timedelta_of_days n).

Definition priority_base (p : TaskPriority) : Z :=
  match p with
  | LOW => 25
  | MEDIUM => 50
  | HIGH => 75
  | URGENT => 95
  end.

(** Base of the tier, plus 20 if due within 1 day, else plus 10 if within
    3 days, else plus 5 if within 7 days, clamped to [0,100]. *)
Definition priority_score (now : datetime) (p : TaskPriority)
    (due : option datetime) : Z :=
  let bonus :=
    match due with
    | Some d =>
        if within_days now d 1 then 20
        else if within_days now d 3 then 10
        else if within_days now d 7 then 5
        else 0
    | None => 0
    end in
  Z.min (Z.max (priority_base p + bonus) 0) 100.

(** "The AI schedule response contains a suggested time slot": the call
    returned a dict whose [suggested_time_slot] is truthy. *)
Definition response_has_slot (optimization : Py.result Py.json) : bool :=
  match optimization with
  | Py.Ok data =>
      match Py.get data "suggested_time_slot" Py.JNull with
      | Py.Ok slot => Py.truthy slot
      | Py.Raise _ => false
      end
  | Py.Raise _ => false
  end.

End Spec.

(** ** Sample data *)

Module Sample.

Definition hour_us : Z := 3600000000.

(** A pending task of [user] with the given priority and due date, the
    due date being naive. *)
Definition task (user : Z) (p : TaskPriority) (due : option datetime) : Task :=
  mkTask (Some "finish report"%string) None (Some PENDING) (Some p)
    (naive <$> due) None
    None None (Some []) None None true None None None user None 0 None None.

(** The same with an aware due date, as the request schema reads
    [2030-01-01T00:00:00Z]. *)
Definition aware_task (user : Z) (p : TaskPriority) (due : datetime) : Task :=
  mkTask (Some "finish report"%string) None (Some PENDING) (Some p)
    (Some (mkDatetime due true)) None
    None None (Some []) None None true None None None user None 0 None None.

(** A task of [user] that was completed at time 5. *)
Definition completed_task (user : Z) : Task :=
  mkTask (Some "finish report"%string) None (Some COMPLETED) (Some MEDIUM) None
    None None None (Some []) None None false None None None user None 0
    (Some 5) (Some 5).

Definition with_status (s : option TaskStatus) (t : Task) : Task :=
  mkTask (title t) (description t) s (priority t) (due_date t)
    (start_date t) (estimated_duration t) (actual_duration t) (tags t)
    (category t) (project t) (ai_generated t) (ai_priority_score t)
    (ai_complexity_score t) (ai_suggested_time_slot t) (user_id t)
    (parent_task_id t) (created_at t) (updated_at t) (completed_at t).

(** A store without a row. *)
Definition empty (zone : column_zone) : DB := mkDB ∅ [] zone.

(** Tasks 1, 2 and 3 of user 7 and task 4 of user 8; no dependency. *)
Definition store : DB :=
  mkDB (<[1 := task 7 LOW None]>
         (<[2 := task 7 MEDIUM None]>
           (<[3 := task 7 HIGH None]>
             (<[4 := task 8 URGENT None]> ∅))))
       [] as_written.

(** At time 10: task 1 is overdue, task 2 is due in three days, task 3 in
    thirty days, task 4 is overdue and completed, task 5 has no due date;
    task 6 belongs to user 8 and is overdue. *)
Definition due_store : DB :=
  mkDB (<[1 := task 7 LOW (Some 5)]>
         (<[2 := task 7 MEDIUM (Some (10 + 3 * day_us))]>
           (<[3 := task 7 HIGH (Some (10 + 30 * day_us))]>
             (<[4 := with_status (Some COMPLETED) (task 7 URGENT (Some 5))]>
               (<[5 := task 7 LOW None]>
                 (<[6 := task 8 LOW (Some 5)]> ∅))))))
       [] as_written.

(** At the end of day 40: task 1 has been overdue for thirty days and is
    still pending. *)
Definition overdue_store : DB :=
  mkDB (<[1 := task 7 LOW (Some (10 * day_us))]> ∅) [] as_written.

(** The same tasks with the edges 1 -> 2 and 2 -> 3. *)
Definition chain_store : DB :=
  with_dependencies store
    [mkDep 1 1 2 "finish_to_start"; mkDep 2 2 3 "finish_to_start"].

(** Task 1 of user 7, completed. *)
Definition done_store : DB :=
  mkDB (<[1 := completed_task 7]> ∅) [] as_written.

(** Tasks 1 to 25 of user 7, of which tasks 1 to 7 are completed. *)
Definition quarter_store : DB :=
  mkDB (list_to_map
          (map (fun i => (Z.of_nat i,
                          if Nat.leb i 7 then completed_task 7 else task 7 LOW None))
             (seq 1 25)))
       [] as_written.

(** Three users with automatic scheduling, each with one pending task
    that has a due date. *)
Definition users : list User :=
  [ mkUser 1 true (Some true) Py.JNull;
    mkUser 2 true (Some true) Py.JNull;
    mkUser 3 true (Some true) Py.JNull ].

Definition schedule_store : DB :=
  mkDB (<[11 := task 1 HIGH (Some (5 * day_us))]>
         (<[12 := task 2 HIGH (Some (5 * day_us))]>
           (<[13 := task 3 HIGH (Some (5 * day_us))]> ∅)))
       [] as_written.

(** A parser that knows two completion texts. *)
Definition json_loads (text : string) : option Py.json :=
  if String.eqb text "plan for user 1"
  then Some (single_suggestion 11 "2030-01-01T09:00:00")
  else if String.eqb text "plan for user 3"
  then Some (single_suggestion 13 "2030-01-01T14:00:00")
  else if String.eqb text "plan with a bad time" then
    Some (Py.JDict
            [("optimized_schedule"%string,
              Py.JList
                [Py.JDict [("task_id"%string, Py.JInt 11);
                           ("suggested_time"%string, Py.JStr "2030-01-01T09:00:00")];
                 Py.JDict [("task_id"%string, Py.JInt 11);
                           ("suggested_time"%string, Py.JStr "soon")]])])
  else None.

Definition fromisoformat (text : string) : option datetime :=
  if String.eqb text "2030-01-01T09:00:00" then Some 1000
  else if String.eqb text "2030-01-01T14:00:00" then Some 3000
  else None.

(** The request for user 2 fails; the other two are answered. *)
Definition replies (user : Z) : http_outcome :=
  if user =? 1 then completion_reply "plan for user 1"
  else if user =? 3 then completion_reply "plan for user 3"
  else HttpError.

(** User 1 is answered with a schedule whose second time cannot be read. *)
Definition replies_with_bad_time (user : Z) : http_outcome :=
  if user =? 1 then completion_reply "plan with a bad time" else replies user.

Definition rename (new : string) : TaskUpdate :=
  mkTaskUpdate (Some (Some new)) None None None None None None None None None None.

End Sample.

(** ** Notions for the schedule job

    Derived notions in which the properties of the job are stated and
    proved: the course that the body of the loop takes for one user, that
    body run alone, and the invariant of the loop. *)

Module JobPlan.

Section WithLibrary.

Variable json_loads : string -> option Py.json.
Variable fromisoformat : string -> option datetime.

(** What the body of the loop does for one user is decided before the
    first assignment: it leaves at [continue], or raises, or goes through
    a list of suggestions. *)
Inductive plan : Type :=
| Skip
| Raises (logs : list log_entry) (e : Py.exn)
| Apply (logs : list log_entry) (suggestions : list Py.json).

Definition missing_priority (ids : list Z) (m : gmap Z Task) : bool :=
  existsb (fun id => match m !! id with
                     | Some t => negb (bool_decide (is_Some (priority t)))
                     | None => false
                     end) ids.

Definition plan_of (user : User) (reply : http_outcome) (ids : list Z)
    (missing : bool) : plan :=
  match ids with
  | [] => Skip
  | _ =>
      if missing then Raises [] Py.AttributeError
      else
        match GrokService.generate_schedule_optimization json_loads
                (uid user) (Some EmptyString) reply with
        | (logs, Py.Raise e) => Raises logs e
        | (logs, Py.Ok optimization) =>
            match Py.get optimization "optimized_schedule" (Py.JList []) with
            | Py.Raise e => Raises logs e
            | Py.Ok schedule =>
                match Py.iter schedule with
                | Py.Raise e => Raises logs e
                | Py.Ok suggestions => Apply logs suggestions
                end
            end
        end
  end.

Definition run (user : User) (ids : list Z) (p : plan) (s : AiTasks.session)
  : AiTasks.session * list log_entry * Py.result bool :=
  match p with
  | Skip => (s, [], Py.Ok false)
  | Raises logs e => (s, logs, Py.Raise e)
  | Apply logs suggestions =>
      match AiTasks.apply_suggestions fromisoformat ids suggestions s with
      | (s', Py.Raise e) => (s', logs, Py.Raise e)
      | (s', Py.Ok _) =>
          (AiTasks.commit s',
           logs ++ [mkLog INFO "Schedule optimized for user"
                      [("user_id"%string, uid user);
                       ("tasks_optimized"%string, Z.of_nat (length ids))]],
           Py.Ok true)
      end
  end.

(** The body reached [optimized_count += 1]. *)
Definition counted (outcome : Py.result bool) : bool :=
  match outcome with
  | Py.Ok true => true
  | _ => false
  end.

(** The line that the handler of the loop logs. *)
Definition error_line (user : User) : log_entry :=
  mkLog ERROR "Failed to optimize schedule for user" [("user_id"%string, uid user)].

Section WithRun.

Variable replies : Z -> http_outcome.
Variable db0 : gmap Z Task.

Definition fresh_session : AiTasks.session := AiTasks.mkSession ∅ db0.

(** The body of the loop for [user], run on the store as it was. *)
Definition alone (user : User)
  : AiTasks.session * list log_entry * Py.result bool :=
  AiTasks.optimize_user json_loads fromisoformat user (replies (uid user))
    fresh_session.

(** [db0] is the task table at the start of the job. The invariant of the
    loop, for the users [U] handled so far: rows keep their owners, the
    session has loaded rows of handled users only, and the rows of the other
    users are stored as they were. *)
Record Inv (U : list Z) (s : AiTasks.session) : Prop := mkInv {
  inv_owner : forall j, user_id <$> AiTasks.stored s !! j = user_id <$> db0 !! j;
  inv_loaded : forall j t, AiTasks.loaded s !! j = Some t ->
                 In (user_id t) U /\ user_id <$> db0 !! j = Some (user_id t);
  inv_rest : forall j t0, db0 !! j = Some t0 -> ~ In (user_id t0) U ->
               AiTasks.stored s !! j = Some t0
}.

(** The rows of the owner [v] are settled on [target]: the store holds
    them as [target] does, and a commit would write what is stored. *)
Definition settled (v : Z) (target : gmap Z Task) (s : AiTasks.session) : Prop :=
  forall j t0, db0 !! j = Some t0 -> user_id t0 = v ->
    AiTasks.stored s !! j = target !! j
    /\ (forall t, AiTasks.loaded s !! j = Some t -> AiTasks.stored s !! j = Some t).

(** In the body run alone, a commit would write to the rows of the user
    what is stored already. *)
Definition settled_alone (user : User) : Prop :=
  forall j t0, db0 !! j = Some t0 -> user_id t0 = uid user ->
    forall t, AiTasks.loaded (fst (fst (alone user))) !! j = Some t ->
              AiTasks.stored (fst (fst (alone user))) !! j = Some t.

End WithRun.

End WithLibrary.

End JobPlan.

(** ** Notions for the response of a row *)

Module Row.

(** The due date of the row is absent or naive. *)
Definition naive_due (t : Task) : bool :=
  match due_date t with
  | Some due => negb (aware due)
  | None => true
  end.

(** The parent that a new row names, if it names one, is in the table, or
    is the new row itself. *)
Definition parent_known (m : gmap Z Task) (t : Task) : bool :=
  match parent_task_id t with
  | Some parent =>
      bool_decide (is_Some (m !! parent))
      || bool_decide (parent = TaskService.fresh_id m)
  | None => true
  end.

(** The response that [_task_to_response] builds from a row, when it
    builds one. *)
Definition response (now : datetime) (db : DB) (id : Z) (task : Task)
  : TaskResponse :=
  mkTaskResponse id task
    (match due_instant task with
     | Some due => (due <? now) && py_ne (status task) COMPLETED
     | None => false
     end)
    (match due_instant task with
     | Some due => (due <=? now + timedelta_of_days 3) && py_ne (status task) COMPLETED
     | None => false
     end)
    (length (select_tasks (fun _ t => sql_eq (parent_task_id t) id) db))
    (if bool_decide (status task = Some COMPLETED) then 100%float else 0%float).

End Row.

(** * Properties *)

(** ** The response of a row *)

(** [_task_to_response] raises [TypeError] on an aware due date, else
    [ValidationError] on a row that the schema does not accept, and else
    returns the response of the row. *)
Lemma task_to_response_spec (now : datetime) (db : DB) (id : Z) (task : Task) :
  TaskService._task_to_response now db id task
  = if Row.naive_due task
    then if TaskResponse_validates task
         then Py.Ok (Row.response now db id task)
         else Py.Raise Py.ValueError
    else Py.Raise Py.TypeError.
Proof.
  unfold TaskService._task_to_response, Row.naive_due, Row.response, due_instant,
    datetime_lt, datetime_le.
  destruct (due_date task) as [[t [|]]|]; simpl; reflexivity.
Qed.

Lemma task_to_response_Ok (now : datetime) (db : DB) (id : Z) (task : Task)
    (r : TaskResponse) :
  TaskService._task_to_response now db id task = Py.Ok r <->
  Row.naive_due task = true /\ TaskResponse_validates task = true
  /\ r = Row.response now db id task.
Proof.
  rewrite task_to_response_spec.
  destruct (Row.naive_due task), (TaskResponse_validates task); split;
    try discriminate; try (intros (? & ? & ?); discriminate).
  - intros [= <-]. auto.
  - intros (_ & _ & ->). reflexivity.
Qed.

Lemma task_responses_spec (now : datetime) (db : DB) (rows : list (Z * Task))
    (responses : list TaskResponse) :
  TaskService.task_responses now db rows = Py.Ok responses <->
  Forall (fun row => Row.naive_due (snd row) = true
                     /\ TaskResponse_validates (snd row) = true) rows
  /\ responses = map (fun row => Row.response now db (fst row) (snd row)) rows.
Proof.
  revert responses. induction rows as [|row rows IH]; intros responses; simpl.
  - split.
    + intros [= <-]. split; [constructor | reflexivity].
    + intros [_ ->]. reflexivity.
  - destruct (TaskService._task_to_response now db (fst row) (snd row)) as [r|e] eqn:Hr.
    + apply task_to_response_Ok in Hr as (Hn & Hv & ->). simpl.
      destruct (TaskService.task_responses now db rows) as [rs|e] eqn:Hrs; simpl.
      * destruct (IH rs) as [IH1 _]. destruct (IH1 eq_refl) as [Hall ->].
        split.
        -- intros [= <-]. split; [constructor; auto | reflexivity].
        -- intros [_ ->]. reflexivity.
      * split; [discriminate|]. intros [Hall ->].
        apply Forall_cons in Hall as [_ Hall].
        destruct (IH (map (fun row => Row.response now db (fst row) (snd row)) rows))
          as [_ IH2].
        specialize (IH2 (conj Hall eq_refl)). discriminate.
    + simpl. split; [discriminate|]. intros [Hall _].
      apply Forall_cons in Hall as [[Hn Hv] _].
      rewrite task_to_response_spec, Hn, Hv in Hr. discriminate.
Qed.

(** ** Scores *)

Lemma timedelta_days_le (delta n : Z) :
  (timedelta_days delta <=? n) = (delta <? (n + 1) * day_us).
Proof.
  unfold timedelta_days.
  assert (Hd : 0 < day_us) by (unfold day_us; lia).
  pose proof (Z.mod_pos_bound delta day_us Hd) as Hm.
  pose proof (Z.div_mod delta day_us ltac:(lia)) as Hq.
  destruct (Z.leb_spec (delta / day_us) n) as [H | H];
    destruct (Z.ltb_spec delta ((n + 1) * day_us)) as [H' | H'];
    try reflexivity; exfalso; nia.
Qed.

Lemma clamp_bounds (score : Z) : 0 <= TaskService.clamp score <= 100.
Proof. unfold TaskService.clamp. lia. Qed.

(** The priority score of a row whose due date is absent or naive: the
    base of the tier (25, 50, 75, 95; 50 without a priority), plus a bonus
    that is decided on the whole number of days until the due date, rounded
    down: 20 when the due date is less than 2 days ahead (a past due date
    included), else 10 when it is less than 4 days ahead, else 5 when it is
    less than 8 days ahead, and nothing without a due date; the sum is
    clamped. *)
Lemma priority_score_by_whole_days (now : datetime) (task : Task) :
  Row.naive_due task = true ->
  let base :=
    match priority task with
    | Some LOW => 25 | Some MEDIUM => 50 | Some HIGH => 75 | Some URGENT => 95
    | None => 50
    end in
  let bonus :=
    match due_instant task with
    | Some due =>
        if due - now <? 2 * day_us then 20
        else if due - now <? 4 * day_us then 10
        else if due - now <? 8 * day_us then 5
        else 0
    | None => 0
    end in
  TaskService._calculate_ai_priority_score now task
  = Py.Ok (Z.min (Z.max (base + bonus) 0) 100).
Proof.
  intros Hnaive. cbv zeta.
  unfold TaskService._calculate_ai_priority_score, TaskService.clamp,
    TaskService.priority_scores, due_instant, datetime_sub, Row.naive_due in *.
  destruct (due_date task) as [[due [|]]|]; simpl in *; try discriminate.
  - rewrite !timedelta_days_le.
    change ((1 + 1) * day_us) with (2 * day_us).
    change ((3 + 1) * day_us) with (4 * day_us).
    change ((7 + 1) * day_us) with (8 * day_us).
    repeat case_match; reflexivity.
  - do 3 f_equal. lia.
Qed.

(** C4 fails on the code. The score of a task whose due date is aware, as
    the request schema reads a text with [Z] or an offset, is not computed:
    the subtraction of the clock reading raises [TypeError]. [create_task]
    computes the scores of an [ai_generated] request before it adds the
    row, so that such a request raises and leaves the store as it was.
    Whenever a score is computed, it lies in [0,100]. *)
Theorem priority_score_raises_on_aware_due_date
    (now : datetime) (db : DB) (task : Task) (task_data : TaskCreate)
    (user : Z) (due : pydatetime) :
  aware due = true ->
  (due_date task = Some due ->
   TaskService._calculate_ai_priority_score now task = Py.Raise Py.TypeError)
  /\ (new_due_date task_data = Some due -> new_ai_generated task_data = true ->
      TaskService.create_task now db task_data user = (db, Py.Raise Py.TypeError))
  /\ (forall score,
        TaskService._calculate_ai_priority_score now task = Py.Ok score ->
        Row.naive_due task = true /\ 0 <= score <= 100).
Proof.
  intros Haware. split; [|split].
  - intros Hdue. unfold TaskService._calculate_ai_priority_score, datetime_sub.
    rewrite Hdue, Haware. reflexivity.
  - intros Hdue Hai. unfold TaskService.create_task, TaskService.new_task.
    rewrite Hai. unfold TaskService._calculate_ai_priority_score, datetime_sub.
    simpl. rewrite Hdue, Haware. reflexivity.
  - intros score Hscore.
    destruct (Row.naive_due task) eqn:Hnaive.
    + split; [reflexivity|].
      rewrite (priority_score_by_whole_days now task Hnaive) in Hscore.
      injection Hscore as <-. lia.
    + exfalso. unfold Row.naive_due in Hnaive.
      unfold TaskService._calculate_ai_priority_score, datetime_sub in Hscore.
      destruct (due_date task) as [[t [|]]|]; simpl in *; discriminate.
Qed.

Lemma priority_score_raises_on_aware_due_date_witness :
  let due := mkDatetime (41 * day_us) true in
  let task := Sample.aware_task 7 URGENT (41 * day_us) in
  let task_data :=
    mkTaskCreate "finish report" None URGENT (Some due) None None [] None None
      None true in
  (due_date task = Some due ->
   TaskService._calculate_ai_priority_score (40 * day_us) task
   = Py.Raise Py.TypeError)
  /\ (new_due_date task_data = Some due -> new_ai_generated task_data = true ->
      TaskService.create_task (40 * day_us) (Sample.empty always_aware) task_data 7
      = (Sample.empty always_aware, Py.Raise Py.TypeError))
  /\ (forall score,
        TaskService._calculate_ai_priority_score (40 * day_us) task = Py.Ok score ->
        Row.naive_due task = true /\ 0 <= score <= 100).
Proof.
  apply (priority_score_raises_on_aware_due_date (40 * day_us)
           (Sample.empty always_aware)
           (Sample.aware_task 7 URGENT (41 * day_us))
           (mkTaskCreate "finish report" None URGENT
              (Some (mkDatetime (41 * day_us) true)) None None [] None None None true)
           7 (mkDatetime (41 * day_us) true)).
  reflexivity.
Defined.

(** The request of the example, an urgent task due tomorrow, with the due
    date given as [...Z]: no score, no row, whatever the store. With the
    due date given without a zone the score is 100 and the row is written;
    on a store that gives every value back with a time zone, the response
    of the new row then raises. *)
Lemma aware_due_date_example :
  let now := 40 * day_us in
  let request due :=
    mkTaskCreate "finish report" None URGENT (Some due) None None [] None None
      None true in
  (forall zone,
     TaskService.create_task now (Sample.empty zone)
       (request (mkDatetime (now + day_us) true)) 7
     = (Sample.empty zone, Py.Raise Py.TypeError))
  /\ (forall zone,
        ai_priority_score <$>
          db_tasks (fst (TaskService.create_task now (Sample.empty zone)
                           (request (naive (now + day_us))) 7)) !! 1
        = Some (Some 100))
  /\ snd (TaskService.create_task now (Sample.empty always_aware)
            (request (naive (now + day_us))) 7)
     = Py.Raise Py.TypeError
  /\ Py.is_ok (snd (TaskService.create_task now (Sample.empty as_written)
                      (request (naive (now + day_us))) 7))
     = true.
Proof.
  cbv zeta. split; [|split; [|split]].
  - intros zone. reflexivity.
  - intros []; vm_compute; reflexivity.
  - vm_compute. reflexivity.
  - vm_compute. reflexivity.
Qed.

(** On a naive due date the bonus goes by whole days: a low-priority task
    due 36 hours from now is not due within one day, but within three; the
    score is 25 + 20 and not 25 + 10. *)
Lemma priority_score_36_hours :
  let task := Sample.task 7 LOW (Some (36 * Sample.hour_us)) in
  Spec.priority_score 0 LOW (due_instant task) = 35
  /\ TaskService._calculate_ai_priority_score 0 task = Py.Ok 45.
Proof. cbv zeta. split; vm_compute; reflexivity. Qed.

(** C5. The complexity score is 30, plus 40, 25 or 15 for an estimated
    duration above 240, 120 or 60 minutes, plus 20 or 10 for a description
    longer than 500 or 200 characters, clamped; it lies in [0,100]. *)
Theorem complexity_score_formula (task : Task) :
  let duration_bonus :=
    match estimated_duration task with
    | Some minutes =>
        if 240 <? minutes then 40
        else if 120 <? minutes then 25
        else if 60 <? minutes then 15
        else 0
    | None => 0
    end in
  let length_bonus :=
    match description task with
    | Some text =>
        if (500 <? String.length text)%nat then 20
        else if (200 <? String.length text)%nat then 10
        else 0
    | None => 0
    end in
  TaskService._calculate_ai_complexity_score task
  = Z.min (Z.max (30 + duration_bonus + length_bonus) 0) 100
  /\ 0 <= TaskService._calculate_ai_complexity_score task <= 100.
Proof.
  cbv zeta. split; [|apply clamp_bounds].
  unfold TaskService._calculate_ai_complexity_score, TaskService.clamp, TaskService.int_truthy.
  f_equal. f_equal.
  assert (Hd : (if match estimated_duration task with
                   | Some n => negb (n =? 0) | None => false end
                then let d := default 0 (estimated_duration task) in
                     if d >? 240 then 30 + 40
                     else if d >? 120 then 30 + 25
                     else if d >? 60 then 30 + 15 else 30
                else 30)
               = 30 + match estimated_duration task with
                      | Some minutes =>
                          if 240 <? minutes then 40
                          else if 120 <? minutes then 25
                          else if 60 <? minutes then 15 else 0
                      | None => 0
                      end).
  { destruct (estimated_duration task) as [m|]; simpl; [|reflexivity].
    rewrite !Z.gtb_ltb.
    destruct (Z.eqb_spec m 0) as [->|]; simpl; [reflexivity|].
    repeat case_match; lia. }
  cbv zeta in Hd. rewrite Hd. clear Hd.
  destruct (description task) as [text|]; [|lia].
  destruct (String.eqb_spec text EmptyString) as [->|Hne]; simpl; [lia|].
  rewrite !Z.gtb_ltb.
  destruct (Nat.ltb_spec 500 (String.length text));
    destruct (Nat.ltb_spec 200 (String.length text));
    destruct (Z.ltb_spec 500 (Z.of_nat (String.length text)));
    destruct (Z.ltb_spec 200 (Z.of_nat (String.length text))); lia.
Qed.

(** The row that [create_task] builds: the columns of the request, the
    caller as owner, the status [PENDING], and the two scores exactly when
    the request is [ai_generated]. It is built unless the request is
    [ai_generated] with an aware due date. *)
Lemma new_task_spec (now : datetime) (task_data : TaskCreate) (user : Z) :
  let aware_due :=
    match new_due_date task_data with
    | Some due => aware due
    | None => false
    end in
  if new_ai_generated task_data && aware_due
  then TaskService.new_task now task_data user = Py.Raise Py.TypeError
  else exists task,
      TaskService.new_task now task_data user = Py.Ok task
      /\ title task = Some (new_title task_data)
      /\ description task = new_description task_data
      /\ status task = Some PENDING
      /\ priority task = Some (new_priority task_data)
      /\ due_date task = new_due_date task_data
      /\ estimated_duration task = new_estimated_duration task_data
      /\ tags task = Some (new_tags task_data)
      /\ category task = new_category task_data
      /\ project task = new_project task_data
      /\ user_id task = user
      /\ parent_task_id task = new_parent_task_id task_data
      /\ created_at task = now
      /\ completed_at task = None
      /\ ai_generated task = new_ai_generated task_data
      /\ (if new_ai_generated task_data
          then exists score,
              TaskService._calculate_ai_priority_score now task = Py.Ok score
              /\ ai_priority_score task = Some score
              /\ ai_complexity_score task
                 = Some (TaskService._calculate_ai_complexity_score task)
          else ai_priority_score task = None /\ ai_complexity_score task = None).
Proof.
  cbv zeta. unfold TaskService.new_task.
  destruct (new_ai_generated task_data) eqn:Hai; simpl.
  - unfold TaskService._calculate_ai_priority_score at 1 2, datetime_sub.
    destruct (new_due_date task_data) as [[t [|]]|] eqn:Hdue; simpl;
      [reflexivity| |];
      (eexists; split; [reflexivity|]; repeat split; try reflexivity;
       eexists; repeat split; reflexivity).
  - eexists. split; [reflexivity|]. repeat split; reflexivity.
Qed.

(** The end-to-end example: an urgent task due tomorrow is created with
    priority score 100; once it is completed it has its timestamp, and the
    completion rate of the window is 100. *)
Lemma finish_report_example :
  let now := 40 * day_us in
  let task_data :=
    mkTaskCreate "finish report" None URGENT (Some (naive (now + day_us))) None
      None [] None None None true in
  let created :=
    TaskService.create_task now (Sample.empty as_written) task_data 7 in
  let completed := TaskService.complete_task (now + 1) (fst created) 1 7 in
  (resp_id <$> Py.result_option (snd created)) = Some 1
  /\ (ai_priority_score <$> db_tasks (fst created) !! 1) = Some (Some 100)
  /\ (completed_at <$> db_tasks (fst completed) !! 1) = Some (Some (now + 1))
  /\ (completion_rate <$>
        Py.result_option
          (TaskService.get_productivity_analytics (now + 2) (fst completed) 7 30))
     = Some (Py.Float 100).
Proof. cbv zeta. repeat split; vm_compute; reflexivity. Qed.

(** ** Ownership *)

Lemma find_task_foreign (db : DB) (id other : Z) (task : Task) :
  db_tasks db !! id = Some task -> user_id task <> other ->
  TaskService.find_task db id other = None.
Proof.
  intros Hrow Hother. unfold TaskService.find_task. rewrite Hrow.
  destruct (Z.eqb_spec (user_id task) other); congruence.
Qed.

Lemma find_task_missing (db : DB) (id user : Z) :
  db_tasks db !! id = None -> TaskService.find_task db id user = None.
Proof. intros Hrow. unfold TaskService.find_task. now rewrite Hrow. Qed.

Lemma find_task_Some (db : DB) (id user : Z) (task : Task) :
  TaskService.find_task db id user = Some task <->
  db_tasks db !! id = Some task /\ user_id task = user.
Proof.
  unfold TaskService.find_task.
  destruct (db_tasks db !! id) as [t|]; [|split; [congruence | intros []; congruence]].
  destruct (Z.eqb_spec (user_id t) user) as [He|He]; split.
  - intros [= ->]. auto.
  - intros [[= ->] _]. reflexivity.
  - congruence.
  - intros [[= ->] ?]. contradiction.
Qed.

(** C7. On the id of a task of another owner, [get_task], [update_task] and
    [delete_task] return [None], [None] and [False] and leave the store as it
    was, exactly as they do on an id that is in no row. *)
Theorem cross_owner_is_not_found
    (now : datetime) (db : DB) (id missing other : Z) (task : Task)
    (task_update : TaskUpdate) :
  db_tasks db !! id = Some task ->
  user_id task <> other ->
  db_tasks db !! missing = None ->
  TaskService.get_task now db id other = Py.Ok None
  /\ TaskService.get_task now db missing other = Py.Ok None
  /\ TaskService.update_task now db id task_update other = (db, Py.Ok None)
  /\ TaskService.update_task now db missing task_update other = (db, Py.Ok None)
  /\ TaskService.delete_task db id other = (db, false)
  /\ TaskService.delete_task db missing other = (db, false).
Proof.
  intros Hrow Hother Hmissing.
  unfold TaskService.get_task, TaskService.update_task, TaskService.delete_task.
  rewrite (find_task_foreign db id other task Hrow Hother).
  rewrite (find_task_missing db missing other Hmissing).
  repeat split.
Qed.

Lemma cross_owner_is_not_found_witness :
  TaskService.get_task 0 Sample.store 4 7 = Py.Ok None
  /\ TaskService.get_task 0 Sample.store 9 7 = Py.Ok None
  /\ TaskService.update_task 0 Sample.store 4 (Sample.rename "mine") 7
     = (Sample.store, Py.Ok None)
  /\ TaskService.update_task 0 Sample.store 9 (Sample.rename "mine") 7
     = (Sample.store, Py.Ok None)
  /\ TaskService.delete_task Sample.store 4 7 = (Sample.store, false)
  /\ TaskService.delete_task Sample.store 9 7 = (Sample.store, false).
Proof.
  apply (cross_owner_is_not_found 0 Sample.store 4 9 7 (Sample.task 8 URGENT None)).
  - reflexivity.
  - simpl. lia.
  - reflexivity.
Defined.

(** ** Completion timestamp *)

(** An update by the owner that leaves the row with a title writes the
    row; the call returns the response of the row that it has written, or
    raises what the response raises. *)
Lemma update_task_found (now : datetime) (db : DB) (id user : Z)
    (task : Task) (u : TaskUpdate) :
  TaskService.find_task db id user = Some task ->
  is_Some (default (title task) (upd_title u)) ->
  let task' :=
    refresh db
      (set_updated_at (Some now)
         (TaskService.update_completion now u (TaskService.apply_update_data u task))) in
  let db' := with_tasks db (<[id := task']> (db_tasks db)) in
  TaskService.update_task now db id u user
  = (db', let! response := TaskService._task_to_response now db' id task' in
          Py.Ok (Some response)).
Proof.
  intros Hfind [name Hname]. cbv zeta.
  unfold TaskService.update_task, TaskService.commit_task. rewrite Hfind.
  assert (Ht : title (set_updated_at (Some now)
                 (TaskService.update_completion now u
                    (TaskService.apply_update_data u task))) = Some name).
  { unfold TaskService.update_completion.
    repeat case_match; simpl; exact Hname. }
  rewrite Ht. reflexivity.
Qed.

(** When the update sets the status, the row that it writes has a completion
    timestamp exactly when its status is [COMPLETED]. *)
Lemma update_with_status_timestamp (now : datetime) (u : TaskUpdate)
    (task : Task) (s : option TaskStatus) :
  upd_status u = Some s ->
  let task' :=
    set_updated_at (Some now)
      (TaskService.update_completion now u (TaskService.apply_update_data u task)) in
  status task' = s /\ (is_Some (completed_at task') <-> s = Some COMPLETED).
Proof.
  intros Hs. cbv zeta. unfold TaskService.update_completion. rewrite Hs. simpl.
  destruct (decide (s = Some COMPLETED)) as [->|Hne].
  - rewrite bool_decide_eq_true_2 by reflexivity. simpl.
    destruct (completed_at task) as [d|] eqn:Hc.
    + rewrite bool_decide_eq_true_2 by eauto. simpl. rewrite Hs, Hc. simpl.
      split; [reflexivity|]. split; eauto.
    + rewrite bool_decide_eq_false_2 by (intros [? ?]; congruence). simpl.
      rewrite Hs. split; [reflexivity|]. split; eauto.
  - rewrite !bool_decide_eq_false_2 by assumption. simpl. rewrite Hs. simpl.
    split; [reflexivity|]. split; [intros [? ?]; congruence | contradiction].
Qed.

(** C2 fails on the code. An update that leaves the status unset reads
    [task_update.status] as [None], takes the branch for a status other than
    [COMPLETED] and clears the timestamp: a completed task stays completed
    and loses [completed_at]. The row is committed before the response is
    built; the call returns the response of the row as committed, and a
    row that the response schema accepts, with a due date that is absent or
    naive, has one. *)
Theorem update_without_status_clears_completed_at
    (now : datetime) (db : DB) (id user : Z) (task : Task) (u : TaskUpdate) :
  TaskService.find_task db id user = Some task ->
  status task = Some COMPLETED ->
  is_Some (completed_at task) ->
  upd_status u = None ->
  is_Some (default (title task) (upd_title u)) ->
  exists db' task',
    TaskService.update_task now db id u user
    = (db', let! response := TaskService._task_to_response now db' id task' in
            Py.Ok (Some response))
    /\ db_tasks db' !! id = Some task'
    /\ status task' = Some COMPLETED
    /\ completed_at task' = None
    /\ (Row.naive_due task' = true -> TaskResponse_validates task' = true ->
        exists response,
          TaskService.update_task now db id u user = (db', Py.Ok (Some response))
          /\ resp_task response = task').
Proof.
  intros Hfind Hstatus Hdone Hunset Htitle.
  eexists _, _. split; [apply update_task_found; eassumption|].
  split; [simpl; apply lookup_insert_eq|].
  split; [|split].
  - unfold TaskService.update_completion. rewrite Hunset. simpl.
    rewrite Hunset. simpl. exact Hstatus.
  - unfold TaskService.update_completion. rewrite Hunset. reflexivity.
  - intros Hnaive Hvalid. eexists. split.
    + rewrite (update_task_found now db id user task u Hfind Htitle). cbv zeta.
      rewrite task_to_response_spec, Hnaive, Hvalid. reflexivity.
    + reflexivity.
Qed.

Lemma update_without_status_clears_completed_at_witness :
  exists db' task',
    TaskService.update_task 9 Sample.done_store 1 (Sample.rename "final report") 7
    = (db', let! response := TaskService._task_to_response 9 db' 1 task' in
            Py.Ok (Some response))
    /\ db_tasks db' !! 1 = Some task'
    /\ status task' = Some COMPLETED
    /\ completed_at task' = None
    /\ (Row.naive_due task' = true -> TaskResponse_validates task' = true ->
        exists response,
          TaskService.update_task 9 Sample.done_store 1
            (Sample.rename "final report") 7
          = (db', Py.Ok (Some response))
          /\ resp_task response = task').
Proof.
  apply (update_without_status_clears_completed_at 9 Sample.done_store 1 7
           (Sample.completed_task 7) (Sample.rename "final report")).
  - reflexivity.
  - reflexivity.
  - simpl. eauto.
  - reflexivity.
  - simpl. eauto.
Defined.

(** On the sample store the update returns its response, which shows a
    completed task without a completion timestamp. *)
Lemma update_without_status_example :
  (fun r => (status (resp_task r), completed_at (resp_task r),
             completion_percentage r))
    <$> (Py.result_option
           (snd (TaskService.update_task 9 Sample.done_store 1
                   (Sample.rename "final report") 7))
         ≫= id)
  = Some (Some COMPLETED, None, 100%float).
Proof. vm_compute. reflexivity. Qed.

(** ** Dependencies *)

Lemma edge_app_r (deps : list TaskDependency) (d : TaskDependency) :
  Graph.edge (deps ++ [d]) (dep_task_id d) (dep_depends_on_id d).
Proof. exists d. rewrite in_app_iff. simpl. auto. Qed.

(** Three tasks of one owner and no edge: the calls for the edges 1 -> 2,
    2 -> 3 and 3 -> 1 all succeed, since the check for the last one looks
    for the row 1 -> 3 only, and the store ends with the cycle
    1 -> 2 -> 3 -> 1. *)
Lemma cycle_through_intermediate_task_is_accepted :
  let '(db, answers) := Graph.add_all Sample.store 7 [(1, 2); (2, 3); (3, 1)] in
  answers = [ Py.Ok (Some (mkDep 1 1 2 "finish_to_start"));
              Py.Ok (Some (mkDep 2 2 3 "finish_to_start"));
              Py.Ok (Some (mkDep 3 3 1 "finish_to_start")) ]
  /\ Graph.path (db_dependencies db) 1 1
  /\ ~ Graph.acyclic (db_dependencies db).
Proof.
  vm_compute Graph.add_all.
  assert (Hcycle : Graph.path
            [mkDep 1 1 2 "finish_to_start"; mkDep 2 2 3 "finish_to_start";
             mkDep 3 3 1 "finish_to_start"] 1 1).
  { apply Graph.path_step with 2; [eexists; simpl; eauto|].
    apply Graph.path_step with 3; [eexists; simpl; eauto 6|].
    apply Graph.path_edge. eexists; simpl; eauto 6. }
  split; [reflexivity|]. split; [exact Hcycle|].
  intros Hacyclic. exact (Hacyclic 1 Hcycle).
Qed.

Lemma filter_length_perm {A} (f : A -> bool) (l l' : list A) :
  Permutation l l' -> length (List.filter f l) = length (List.filter f l').
Proof.
  induction 1 as [|x l l' _ IH|x y l|l l' l'' _ IH1 _ IH2]; simpl.
  - reflexivity.
  - destruct (f x); simpl; congruence.
  - destruct (f x), (f y); reflexivity.
  - congruence.
Qed.

(** The number of rows that the ownership query of [add_task_dependency]
    returns. *)
Lemma owned_pair_count (m : gmap Z Task) (a b user : Z) :
  let owns id := match m !! id with
                 | Some t => user_id t =? user
                 | None => false
                 end in
  length (List.filter
            (fun row : Z * Task =>
               ((fst row =? a) || (fst row =? b)) && (user_id (snd row) =? user))
            (map_to_list m))
  = Nat.add (if owns a then 1%nat else 0%nat)
            (if negb (a =? b) && owns b then 1%nat else 0%nat).
Proof.
  cbv zeta. induction m as [|i x m Hnone IH] using map_ind.
  - rewrite map_to_list_empty, !lookup_empty. simpl. now rewrite andb_false_r.
  - rewrite (filter_length_perm _ _ _ (map_to_list_insert m i x Hnone)).
    simpl.
    destruct (((i =? a) || (i =? b)) && (user_id x =? user)) eqn:E;
      simpl; rewrite IH; clear IH; rewrite !lookup_insert;
      destruct (Z.eqb_spec i a), (Z.eqb_spec i b), (Z.eqb_spec a b);
      subst; try congruence; repeat case_decide; try congruence;
      simpl in *; rewrite ?Hnone; simpl;
      try rewrite E; simpl; try lia.
    all: try (destruct (match m !! _ with Some _ => _ | None => _ end); simpl; lia).
    all: try (destruct (match m !! _ with Some _ => _ | None => _ end);
              destruct (match m !! _ with Some _ => _ | None => _ end); simpl; lia).
Qed.

Lemma owns_find_task (db : DB) (id user : Z) :
  match db_tasks db !! id with
  | Some t => user_id t =? user
  | None => false
  end = bool_decide (is_Some (TaskService.find_task db id user)).
Proof.
  unfold TaskService.find_task.
  destruct (db_tasks db !! id) as [t|].
  - destruct (user_id t =? user).
    + now rewrite bool_decide_eq_true_2 by eauto.
    + now rewrite bool_decide_eq_false_2 by (intros [? ?]; congruence).
  - now rewrite bool_decide_eq_false_2 by (intros [? ?]; congruence).
Qed.

(** The ownership query has two rows exactly when the two ids differ and
    both tasks belong to the caller. *)
Lemma ownership_check (db : DB) (a b user : Z) :
  Nat.eqb
    (length (select_tasks
               (fun id t => ((id =? a) || (id =? b)) && (user_id t =? user)) db))
    2%nat
  = negb (a =? b)
    && bool_decide (is_Some (TaskService.find_task db a user))
    && bool_decide (is_Some (TaskService.find_task db b user)).
Proof.
  unfold select_tasks. simpl.
  rewrite (owned_pair_count (db_tasks db) a b user). cbv zeta.
  rewrite !owns_find_task.
  destruct (a =? b); simpl;
    destruct (bool_decide (is_Some (TaskService.find_task db a user)));
    destruct (bool_decide (is_Some (TaskService.find_task db b user)));
    reflexivity.
Qed.

(** A task cannot be made to depend on itself: the ownership query finds one
    row at most. *)
Lemma self_dependency_is_rejected (db : DB) (a user : Z) :
  TaskService.add_task_dependency db a a user = (db, Py.Ok None).
Proof.
  unfold TaskService.add_task_dependency.
  rewrite ownership_check, Z.eqb_refl. reflexivity.
Qed.

(** The direct reverse edge is found: with a row [b -> a] in the table, the
    call for [a -> b] writes nothing and returns no dependency. *)
Lemma direct_reverse_edge_is_rejected
    (db : DB) (a b user : Z) (d : TaskDependency) :
  In d (db_dependencies db) -> dep_task_id d = b -> dep_depends_on_id d = a ->
  fst (TaskService.add_task_dependency db a b user) = db
  /\ forall dep, snd (TaskService.add_task_dependency db a b user)
                 <> Py.Ok (Some dep).
Proof.
  intros Hin Hb Ha. unfold TaskService.add_task_dependency.
  destruct (negb _); [split; [reflexivity | discriminate]|].
  unfold TaskService._would_create_circular_dependency.
  assert (Hrev : In d (List.filter
                         (fun d => (dep_task_id d =? b) && (dep_depends_on_id d =? a))
                         (db_dependencies db))).
  { apply filter_In. split; [assumption|]. rewrite Hb, Ha, !Z.eqb_refl. reflexivity. }
  destruct (List.filter _ (db_dependencies db)) as [|r [|r' rest]]; simpl.
  - contradiction.
  - split; [reflexivity | discriminate].
  - split; [reflexivity | discriminate].
Qed.

(** Without a row [b -> a], the call for [a -> b] between two distinct
    tasks of the caller appends the edge, whatever else the table holds. *)
Lemma add_task_dependency_accepts (db : DB) (a b user : Z) :
  is_Some (TaskService.find_task db a user) ->
  is_Some (TaskService.find_task db b user) ->
  a <> b ->
  (forall d, In d (db_dependencies db) ->
             ~ (dep_task_id d = b /\ dep_depends_on_id d = a)) ->
  let dep := mkDep (TaskService.fresh_dep_id (db_dependencies db)) a b
               "finish_to_start" in
  TaskService.add_task_dependency db a b user
  = (with_dependencies db (db_dependencies db ++ [dep]), Py.Ok (Some dep)).
Proof.
  intros Ha Hb Hab Hnone. cbv zeta. unfold TaskService.add_task_dependency.
  rewrite ownership_check.
  rewrite !bool_decide_eq_true_2 by assumption.
  destruct (Z.eqb_spec a b); [contradiction|]. simpl.
  unfold TaskService._would_create_circular_dependency.
  assert (Hrev : List.filter
                   (fun d => (dep_task_id d =? b) && (dep_depends_on_id d =? a))
                   (db_dependencies db) = []).
  { destruct (List.filter _ _) as [|d rest] eqn:E; [reflexivity|].
    assert (Hd : In d (d :: rest)) by (left; reflexivity).
    rewrite <- E in Hd. apply filter_In in Hd as [Hin Hd].
    apply andb_true_iff in Hd as [H1 H2].
    exfalso. apply (Hnone d Hin). split; lia. }
  rewrite Hrev. reflexivity.
Qed.

Lemma path_app (deps more : list TaskDependency) (a b : Z) :
  Graph.path deps a b -> Graph.path (deps ++ more) a b.
Proof.
  induction 1 as [a b [d (Hin & Ha & Hb)] | a b c [d (Hin & Ha & Hb)] _ IH].
  - apply Graph.path_edge. exists d. rewrite in_app_iff. auto.
  - apply Graph.path_step with b; [|exact IH].
    exists d. rewrite in_app_iff. auto.
Qed.

(** C1 fails on the code. Let [a] reach [c] through the edges of the table
    without a direct edge [a -> c]. The call that makes [c] depend on [a]
    succeeds, although the new edge closes a cycle, and the edge set is
    cyclic afterwards. *)
Theorem edge_closing_a_longer_cycle_is_accepted (db : DB) (a c user : Z) :
  is_Some (TaskService.find_task db a user) ->
  is_Some (TaskService.find_task db c user) ->
  a <> c ->
  (forall d, In d (db_dependencies db) ->
             ~ (dep_task_id d = a /\ dep_depends_on_id d = c)) ->
  Graph.path (db_dependencies db) a c ->
  exists db' dep,
    TaskService.add_task_dependency db c a user = (db', Py.Ok (Some dep))
    /\ db_dependencies db' = db_dependencies db ++ [dep]
    /\ ~ Graph.acyclic (db_dependencies db').
Proof.
  intros Ha Hc Hac Hdirect Hpath.
  eexists _, _. split.
  - apply add_task_dependency_accepts; auto.
  - split; [reflexivity|]. simpl. intros Hacyclic. apply (Hacyclic c).
    apply Graph.path_step with a.
    + apply (edge_app_r (db_dependencies db)
               (mkDep (TaskService.fresh_dep_id (db_dependencies db)) c a
                  "finish_to_start")).
    + apply path_app. exact Hpath.
Qed.

Lemma edge_closing_a_longer_cycle_is_accepted_witness :
  exists db' dep,
    TaskService.add_task_dependency Sample.chain_store 3 1 7
    = (db', Py.Ok (Some dep))
    /\ db_dependencies db' = db_dependencies Sample.chain_store ++ [dep]
    /\ ~ Graph.acyclic (db_dependencies db').
Proof.
  apply (edge_closing_a_longer_cycle_is_accepted Sample.chain_store 1 3 7).
  - simpl. eauto.
  - simpl. eauto.
  - lia.
  - simpl. intros d [<-|[<-|[]]]; simpl; lia.
  - apply Graph.path_step with 2.
    + eexists. simpl. eauto.
    + apply Graph.path_edge. eexists. simpl. eauto.
Defined.

(** ** Natural-language parsing *)

(** C3 fails on [GrokService], the service that the endpoints call. Its
    handler names [JSONDecodeError] and [KeyError] only: a failed request
    leaves the function as an exception, and so does a response without a
    choice. Where it does fall back, the dict has a title and a priority and
    no confidence. *)
Theorem grok_parse_propagates_request_failure
    (json_loads : string -> option Py.json) (task_input : string) :
  GrokService.parse_natural_language_task json_loads task_input HttpError
  = Py.Raise Py.ServiceUnavailable
  /\ GrokService.parse_natural_language_task json_loads task_input
       (HttpJson (Py.JDict [("choices"%string, Py.JList [])]))
     = Py.Raise Py.IndexError
  /\ GrokService.parse_natural_language_task json_loads task_input HttpNotJson
     = Py.Ok (GrokService.fallback_task task_input)
  /\ Py.get (GrokService.fallback_task task_input) "title" Py.JNull
     = Py.Ok (Py.JStr (Py.prefix 100 task_input))
  /\ Py.get (GrokService.fallback_task task_input) "priority" Py.JNull
     = Py.Ok (Py.JStr "medium")
  /\ Py.get (GrokService.fallback_task task_input) "confidence" Py.JNull
     = Py.Ok Py.JNull.
Proof. repeat split. Qed.

(** With a completion text that is not JSON, [GrokService] falls back. *)
Lemma grok_parse_malformed_completion
    (json_loads : string -> option Py.json) (task_input content : string) :
  json_loads content = None ->
  GrokService.parse_natural_language_task json_loads task_input
    (completion_reply content)
  = Py.Ok (GrokService.fallback_task task_input).
Proof.
  intros Hbad. unfold GrokService.parse_natural_language_task,
    GrokService.request_and_parse. simpl. now rewrite Hbad.
Qed.

(** [EnhancedGrokService] does what C3 says: whatever exception the body
    raises, the caller receives the fallback, whose title is the first 100
    characters of the input, whose priority is medium and whose confidence
    is 0.3. *)
Lemma enhanced_parse_falls_back
    (json_loads : string -> option Py.json)
    (fromisoformat : string -> option pydatetime)
    (strptime : string -> string -> option datetime)
    (task_input : string) (reply : http_outcome) :
  Py.is_ok (EnhancedGrokService.parse_body json_loads fromisoformat strptime
              task_input reply) = false ->
  let parsed :=
    EnhancedGrokService.parse_natural_language_task json_loads fromisoformat
      strptime task_input reply in
  EnhancedGrokService.tp_title parsed = Py.JStr (Py.prefix 100 task_input)
  /\ EnhancedGrokService.tp_priority parsed = Py.JStr "medium"
  /\ EnhancedGrokService.tp_ai_confidence parsed = Py.JFloat (Py.FFinite (3 # 10))
  /\ EnhancedGrokService.tp_reasoning parsed
     = Py.JStr "Fallback parsing due to AI service error".
Proof.
  intros Hraise. cbv zeta.
  unfold EnhancedGrokService.parse_natural_language_task.
  destruct (EnhancedGrokService.parse_body _ _ _ _ _); [discriminate|].
  repeat split.
Qed.

Lemma enhanced_parse_failures
    (json_loads : string -> option Py.json)
    (fromisoformat : string -> option pydatetime)
    (strptime : string -> string -> option datetime)
    (task_input content : string) :
  Py.is_ok (EnhancedGrokService.parse_body json_loads fromisoformat strptime
              task_input HttpError) = false
  /\ Py.is_ok (EnhancedGrokService.parse_body json_loads fromisoformat strptime
                 task_input HttpNotJson) = false
  /\ (json_loads content = None ->
      Py.is_ok (EnhancedGrokService.parse_body json_loads fromisoformat strptime
                  task_input (completion_reply content)) = false).
Proof.
  repeat split. intros Hbad.
  unfold EnhancedGrokService.parse_body. simpl. now rewrite Hbad.
Qed.

(** The length of the fallback title: the whole input, up to 100 characters. *)
Lemma prefix_length (n : nat) (s : string) :
  String.length (Py.prefix n s) = Nat.min n (String.length s).
Proof.
  unfold Py.prefix. revert s.
  induction n as [|n IH]; intros [|c s]; simpl; try reflexivity.
  now rewrite IH.
Qed.

(** ** Schedule optimisation of one task *)



(** What [GrokService.generate_schedule_optimization] returns when the
    request or the parsing fails carries no slot; and when its context
    cannot be serialised, the exception that leaves it carries none. *)
Lemma grok_failure_has_no_slot
    (json_loads : string -> option Py.json) (user : Z)
    (context : option string) (reply : http_outcome) :
  Py.is_ok (GrokService.request_and_parse json_loads reply) = false ->
  Spec.response_has_slot
    (snd (GrokService.generate_schedule_optimization json_loads user context reply))
  = false.
Proof.
  intros Hfail. unfold GrokService.generate_schedule_optimization.
  destruct context; [|reflexivity].
  destruct (GrokService.request_and_parse json_loads reply); [discriminate|].
  reflexivity.
Qed.

(** X14. The write-back builds [TaskUpdate(ai_suggested_time_slot=...)],
    and the schema has no such field: the update sets nothing. Whatever the
    response of the AI layer is, and whoever calls, no row has another
    suggested time slot after [optimize_task_scheduling] than before. *)
Lemma optimize_stores_no_slot
    (ilike : string -> string -> bool) (now : datetime) (db : DB)
    (task_id user id : Z) (optimization : Py.result Py.json) :
  ai_suggested_time_slot <$>
    (db_tasks (fst (TaskService.optimize_task_scheduling ilike now db task_id user
                      optimization)) !! id)
  = ai_suggested_time_slot <$> (db_tasks db !! id).
Proof.
  unfold TaskService.optimize_task_scheduling, TaskService.optimize_body,
    TaskService.get_task.
  destruct (TaskService.find_task db task_id user) as [task|] eqn:Hfind;
    [|reflexivity].
  destruct (TaskService._task_to_response now db task_id task); [|reflexivity].
  simpl.
  destruct (TaskService.get_user_tasks ilike now db user 0 50 None);
    [|reflexivity].
  destruct optimization as [data|e]; [|reflexivity].
  destruct (Py.get data "suggested_time_slot" Py.JNull) as [slot|e]; [|reflexivity].
  destruct (Py.truthy slot); [|reflexivity].
  unfold TaskService.update_task, TaskService.commit_task. rewrite Hfind.
  apply find_task_Some in Hfind as [Hrow _].
  repeat case_match; simplify_eq; simpl; try reflexivity.
  all: destruct (decide (task_id = id)) as [->|Hne];
    [rewrite lookup_insert_eq, Hrow | rewrite lookup_insert_ne by assumption];
    try reflexivity.
  all: simpl; unfold TaskService.update_completion; simpl; reflexivity.
Qed.

(** With a slot in the response, the only effect on a completed task is that
    it loses its completion timestamp. *)
Lemma optimize_with_slot_on_completed_task :
  let slot := Py.JDict [("suggested_time_slot"%string, Py.JStr "2030-01-01T09:00:00")] in
  let db' :=
    fst (TaskService.optimize_task_scheduling (fun _ _ => false) 9
           Sample.done_store 1 7 (Py.Ok slot)) in
  (ai_suggested_time_slot <$> db_tasks db' !! 1) = Some None
  /\ (completed_at <$> db_tasks db' !! 1) = Some None
  /\ (status <$> db_tasks db' !! 1) = Some (Some COMPLETED).
Proof. cbv zeta. repeat split; vm_compute; reflexivity. Qed.

(** ** Analytics *)

Lemma count_complement {A} (p : A -> bool) (l : list A) :
  TaskService.count p l + TaskService.count (fun x => negb (p x)) l
  = Z.of_nat (length l).
Proof.
  unfold TaskService.count.
  induction l as [|x l IH]; simpl; [reflexivity|].
  destruct (p x); simpl; lia.
Qed.


Lemma count_nonneg {A} (p : A -> bool) (l : list A) :
  0 <= TaskService.count p l <= Z.of_nat (length l).
Proof.
  unfold TaskService.count. pose proof (filter_length_le p l). lia.
Qed.

(** The overdue count raises at a task with an aware due date; else it
    keeps the tasks that are past their due date and not completed. *)
Lemma overdue_list_spec (now : datetime) (tasks : list (Z * Task)) :
  TaskService.overdue_list now tasks
  = if forallb (fun row => Row.naive_due (snd row)) tasks
    then Py.Ok (List.filter
                  (fun row =>
                     match due_instant (snd row) with
                     | Some due => (due <? now) && py_ne (status (snd row)) COMPLETED
                     | None => false
                     end) tasks)
    else Py.Raise Py.TypeError.
Proof.
  induction tasks as [|[id t] tasks IH]; simpl; [reflexivity|].
  unfold Row.naive_due at 1, due_instant at 1, datetime_lt. simpl.
  destruct (due_date t) as [[due [|]]|]; simpl; [reflexivity| |];
    rewrite IH; destruct (forallb _ tasks); reflexivity.
Qed.


(** One completed task out of one gives a rate of 100.0; a window with a
    cancelled task and a task on hold counts two pending and a rate of 0.0;
    a window without a task gives the int 0. The rate is a float: 7
    completed tasks out of 25 give 28.000000000000004, which the score
    repeats. A task with an aware due date in the window makes the call
    raise. *)
Lemma analytics_examples :
  let report db user :=
    Py.result_option (TaskService.get_productivity_analytics 9 db user 30) in
  let b :=
    mkDB (<[1 := Sample.with_status (Some CANCELLED) (Sample.task 7 LOW None)]>
            (<[2 := Sample.with_status (Some ON_HOLD) (Sample.task 7 LOW None)]> ∅))
         [] as_written in
  ((fun a => (pending_tasks a, completion_rate a)) <$> report Sample.done_store 7)
  = Some (0, Py.Float 100)
  /\ ((fun a => (pending_tasks a, completion_rate a)) <$> report b 7)
     = Some (2, Py.Float 0)
  /\ (completion_rate <$> report Sample.done_store 8) = Some (Py.Int 0)
  /\ ((fun a => (total_tasks a, completed_tasks a, completion_rate a,
                 productivity_score a)) <$> report Sample.quarter_store 7)
     = Some (25, 7, Py.Float 0x1.c000000000001p+4, Py.Float 0x1.c000000000001p+4)
  /\ PrimFloat.eqb 0x1.c000000000001p+4 28 = false
  /\ TaskService.get_productivity_analytics 9
       (mkDB (<[1 := Sample.aware_task 7 LOW 5]> ∅) [] always_aware) 7 30
     = Py.Raise Py.TypeError.
Proof. cbv zeta. repeat split; vm_compute; reflexivity. Qed.

(** ** Listings *)

Lemma select_tasks_In (cond : Z -> Task -> bool) (db : DB) (id : Z) (t : Task) :
  In (id, t) (select_tasks cond db) <->
  db_tasks db !! id = Some t /\ cond id t = true.
Proof.
  unfold select_tasks. rewrite filter_In. simpl.
  rewrite <- list_elem_of_In, elem_of_map_to_list. reflexivity.
Qed.

Lemma insert_row_perm (x : Z * Task) (l : list (Z * Task)) :
  Permutation (insert_row x l) (x :: l).
Proof.
  induction l as [|y l IH]; simpl; [reflexivity|].
  destruct (row_leb x y); [reflexivity|].
  rewrite IH. apply perm_swap.
Qed.

Lemma order_rows_perm (l : list (Z * Task)) : Permutation (order_rows l) l.
Proof.
  induction l as [|x l IH]; simpl; [reflexivity|].
  rewrite insert_row_perm. now constructor.
Qed.

Lemma page_In {A} (skip limit : nat) (l : list A) (x : A) :
  In x (firstn limit (skipn skip l)) -> In x l.
Proof.
  intros H.
  assert (Hskip : In x (skipn skip l)).
  { rewrite <- (firstn_skipn limit (skipn skip l)). apply in_or_app. now left. }
  rewrite <- (firstn_skipn skip l). apply in_or_app. now right.
Qed.

(** A listing returns when every row of its page has a response; the
    page then holds the responses of these rows, in their order, and the
    total is the number of matching rows. *)
Lemma get_user_tasks_Ok
    (ilike : string -> string -> bool) (now : datetime) (db : DB) (user : Z)
    (skip limit : nat) (filters : option Filters)
    (page : list TaskResponse) (total : nat) :
  TaskService.get_user_tasks ilike now db user skip limit filters
  = Py.Ok (page, total) <->
  let rows :=
    firstn limit (skipn skip (order_rows (TaskService.matching ilike now db user filters))) in
  Forall (fun row => Row.naive_due (snd row) = true
                     /\ TaskResponse_validates (snd row) = true) rows
  /\ page = map (fun row => Row.response now db (fst row) (snd row)) rows
  /\ total = length (TaskService.matching ilike now db user filters).
Proof.
  cbv zeta. unfold TaskService.get_user_tasks.
  set (rows := firstn limit _).
  destruct (TaskService.task_responses now db rows) as [rs|e] eqn:Hrs; simpl.
  - apply task_responses_spec in Hrs as [Hall ->]. split.
    + intros [= <- <-]. auto.
    + intros (_ & -> & ->). reflexivity.
  - split; [discriminate|]. intros (Hall & -> & ->).
    destruct (task_responses_spec now db rows
                (map (fun row => Row.response now db (fst row) (snd row)) rows))
      as [_ H].
    rewrite H in Hrs by auto. discriminate.
Qed.

(** Every response of a listing, on any page, is the response of a row of
    the owner that satisfies the conditions. *)
Lemma get_user_tasks_sound
    (ilike : string -> string -> bool) (now : datetime) (db : DB) (user : Z)
    (skip limit : nat) (filters : option Filters)
    (page : list TaskResponse) (total : nat) (r : TaskResponse) :
  TaskService.get_user_tasks ilike now db user skip limit filters
  = Py.Ok (page, total) ->
  In r page ->
  In (resp_id r, resp_task r) (TaskService.matching ilike now db user filters)
  /\ r = Row.response now db (resp_id r) (resp_task r).
Proof.
  intros Hcall Hin. apply get_user_tasks_Ok in Hcall as (_ & -> & _).
  apply in_map_iff in Hin as ([id t] & <- & Hin). simpl.
  split; [|reflexivity].
  apply page_In in Hin.
  now apply (Permutation_in _ (order_rows_perm _)) in Hin.
Qed.

(** A page from the start that is long enough for all matching rows has
    the response of each of them. *)
Lemma get_user_tasks_complete
    (ilike : string -> string -> bool) (now : datetime) (db : DB) (user : Z)
    (limit : nat) (filters : option Filters)
    (page : list TaskResponse) (total : nat) (id : Z) (t : Task) :
  TaskService.get_user_tasks ilike now db user 0 limit filters
  = Py.Ok (page, total) ->
  (total <= limit)%nat ->
  In (id, t) (TaskService.matching ilike now db user filters) ->
  exists r, In r page /\ resp_id r = id /\ resp_task r = t.
Proof.
  intros Hcall Hlen Hin. apply get_user_tasks_Ok in Hcall as (_ & -> & ->).
  exists (Row.response now db id t). split; [|split; reflexivity].
  apply in_map_iff. exists (id, t). split; [reflexivity|].
  rewrite skipn_O, firstn_all2.
  - apply (Permutation_in _ (Permutation_sym (order_rows_perm _))). exact Hin.
  - rewrite (Permutation_length (order_rows_perm _)). exact Hlen.
Qed.

(** It returns when every matching row has a response. *)
Lemma get_user_tasks_returns
    (ilike : string -> string -> bool) (now : datetime) (db : DB) (user : Z)
    (skip limit : nat) (filters : option Filters) :
  Forall (fun row => Row.naive_due (snd row) = true
                     /\ TaskResponse_validates (snd row) = true)
    (TaskService.matching ilike now db user filters) ->
  exists page,
    TaskService.get_user_tasks ilike now db user skip limit filters
    = Py.Ok (page, length (TaskService.matching ilike now db user filters)).
Proof.
  intros Hall. eexists. apply get_user_tasks_Ok. cbv zeta.
  split; [|split; reflexivity].
  apply List.Forall_forall. intros row Hin.
  apply page_In in Hin.
  apply (Permutation_in _ (order_rows_perm _)) in Hin.
  rewrite List.Forall_forall in Hall. auto.
Qed.

Lemma sql_ne_spec (col : option TaskStatus) (v : TaskStatus) :
  sql_ne col v = true <-> exists s, col = Some s /\ s <> v.
Proof.
  unfold sql_ne. destruct col as [s|].
  - rewrite negb_true_iff, bool_decide_eq_false. split.
    + intros H. exists s. auto.
    + intros (s' & [= <-] & H). exact H.
  - split; [discriminate | intros (s & H & _); discriminate].
Qed.

(** The rows that the query with the overdue filter selects: the tasks of
    the owner whose due date is set and before [now] and whose status is a
    value other than [COMPLETED]. *)
Lemma overdue_filter_selects
    (ilike : string -> string -> bool) (now : datetime) (db : DB) (user : Z)
    (id : Z) (task : Task) :
  In (id, task) (TaskService.matching ilike now db user (Some overdue_filter)) <->
  (db_tasks db !! id = Some task /\ user_id task = user
   /\ exists due s, due_instant task = Some due /\ due < now
                    /\ status task = Some s /\ s <> COMPLETED).
Proof.
  unfold TaskService.matching. rewrite select_tasks_In. simpl.
  rewrite !andb_true_iff, Z.eqb_eq.
  destruct (due_instant task) as [due|].
  - rewrite andb_true_iff, Z.ltb_lt, sql_ne_spec. split.
    + intros (? & ? & (? & s & ? & ?) & _). eauto 10.
    + intros (? & ? & d & s & [= <-] & ? & ? & ?). eauto 10.
  - split; [intros (_ & _ & [=] & _) | intros (_ & _ & ? & ? & [=] & _)].
Qed.

(** The rows that the query with the due-soon filter selects: those whose
    due date is set and at most seven days after [now], with such a
    status. The condition has no lower bound. *)
Lemma due_soon_filter_selects
    (ilike : string -> string -> bool) (now : datetime) (db : DB) (user : Z)
    (id : Z) (task : Task) :
  In (id, task) (TaskService.matching ilike now db user (Some due_soon_filter)) <->
  (db_tasks db !! id = Some task /\ user_id task = user
   /\ exists due s, due_instant task = Some due /\ due <= now + 7 * day_us
                    /\ status task = Some s /\ s <> COMPLETED).
Proof.
  unfold TaskService.matching. rewrite select_tasks_In. simpl.
  rewrite !andb_true_iff, Z.eqb_eq.
  destruct (due_instant task) as [due|].
  - rewrite andb_true_iff, Z.leb_le, sql_ne_spec. unfold timedelta_of_days. split.
    + intros (? & ? & (? & s & ? & ?) & _). eauto 10.
    + intros (? & ? & d & s & [= <-] & ? & ? & ?). eauto 10.
  - split; [intros (_ & _ & [=] & _) | intros (_ & _ & ? & ? & [=] & _)].
Qed.

(** C6 fails on the code. A task of the owner that is past its due date,
    by whatever time, and not completed is not due within seven days of
    [now]; the query with the due-soon filter selects it, and counts it.
    Every listing with that filter that returns a page for all matching
    rows has the task on the page, and the listing does return when every
    matching row has a response. *)
Theorem due_soon_lists_overdue_tasks
    (ilike : string -> string -> bool) (now : datetime) (db : DB) (user : Z)
    (limit : nat) (id : Z) (task : Task) (due : datetime) (s : TaskStatus) :
  db_tasks db !! id = Some task ->
  user_id task = user ->
  due_instant task = Some due ->
  due < now ->
  status task = Some s ->
  s <> COMPLETED ->
  let matching := TaskService.matching ilike now db user (Some due_soon_filter) in
  let listing :=
    TaskService.get_user_tasks ilike now db user 0 limit (Some due_soon_filter) in
  Spec.within_days now due 7 = false
  /\ In (id, task) matching
  /\ (forall page total,
        listing = Py.Ok (page, total) -> (total <= limit)%nat ->
        exists r, In r page /\ resp_id r = id /\ resp_task r = task)
  /\ (Forall (fun row => Row.naive_due (snd row) = true
                         /\ TaskResponse_validates (snd row) = true) matching ->
      exists page, listing = Py.Ok (page, length matching)).
Proof.
  intros Hrow Huser Hdue Hpast Hstatus Hopen. cbv zeta.
  assert (Hin : In (id, task)
                  (TaskService.matching ilike now db user (Some due_soon_filter))).
  { apply due_soon_filter_selects. split; [exact Hrow|]. split; [exact Huser|].
    exists due, s. unfold day_us. repeat split; auto; lia. }
  split; [|split; [exact Hin|split]].
  - unfold Spec.within_days. destruct (Z.leb_spec now due); [lia | reflexivity].
  - intros page total Hcall Hlen.
    exact (get_user_tasks_complete ilike now db user limit (Some due_soon_filter)
             page total id task Hcall Hlen Hin).
  - apply get_user_tasks_returns.
Qed.

Lemma due_soon_lists_overdue_tasks_witness :
  let now := 40 * day_us in
  let task := Sample.task 7 LOW (Some (10 * day_us)) in
  let matching :=
    TaskService.matching (fun _ _ => false) now Sample.overdue_store 7
      (Some due_soon_filter) in
  let listing :=
    TaskService.get_user_tasks (fun _ _ => false) now Sample.overdue_store 7 0 100
      (Some due_soon_filter) in
  Spec.within_days now (10 * day_us) 7 = false
  /\ In (1, task) matching
  /\ (forall page total,
        listing = Py.Ok (page, total) -> (total <= 100)%nat ->
        exists r, In r page /\ resp_id r = 1 /\ resp_task r = task)
  /\ (Forall (fun row => Row.naive_due (snd row) = true
                         /\ TaskResponse_validates (snd row) = true) matching ->
      exists page, listing = Py.Ok (page, length matching)).
Proof.
  apply (due_soon_lists_overdue_tasks (fun _ _ => false) (40 * day_us)
           Sample.overdue_store 7 100 1 (Sample.task 7 LOW (Some (10 * day_us)))
           (10 * day_us) PENDING).
  - reflexivity.
  - reflexivity.
  - reflexivity.
  - unfold day_us. lia.
  - reflexivity.
  - discriminate.
Defined.

(** The listing with the due-soon filter at the end of day 40, on a store
    whose one task was due at the end of day 10: the task is returned, and
    counted. *)
Lemma due_soon_lists_a_long_overdue_task :
  let now := 40 * day_us in
  (fun listing =>
     (map (fun r => (resp_id r, due_instant (resp_task r), is_overdue r))
        (fst listing),
      snd listing))
    <$> Py.result_option
          (TaskService.get_user_tasks (fun _ _ => false) now Sample.overdue_store
             7 0 100 (Some due_soon_filter))
  = Some ([(1, Some (10 * day_us), true)], 1%nat)
  /\ Spec.within_days now (10 * day_us) 7 = false.
Proof. cbv zeta. split; vm_compute; reflexivity. Qed.

(** The two listings on the sample store, in the order of the page: the
    overdue task is in both, the completed one, the one without a due date,
    the one due in thirty days and the one of the other owner in neither. *)
Lemma listings_on_sample_store :
  let ids filters :=
    (fun listing => map resp_id (fst listing))
      <$> Py.result_option
            (TaskService.get_user_tasks (fun _ _ => false) 10 Sample.due_store 7 0
               100 filters) in
  ids (Some overdue_filter) = Some [1]
  /\ ids (Some due_soon_filter) = Some [1; 2]
  /\ ids None = Some [4; 3; 1; 2; 5].
Proof. cbv zeta. repeat split; vm_compute; reflexivity. Qed.

(** A listing raises when a row of its page has no response. *)
Lemma get_user_tasks_raises
    (ilike : string -> string -> bool) (now : datetime) (db : DB) (user : Z)
    (limit : nat) (filters : option Filters) (id : Z) (task : Task) :
  In (id, task) (TaskService.matching ilike now db user filters) ->
  (length (TaskService.matching ilike now db user filters) <= limit)%nat ->
  Row.naive_due task = false \/ TaskResponse_validates task = false ->
  Py.is_ok (TaskService.get_user_tasks ilike now db user 0 limit filters) = false.
Proof.
  intros Hin Hlen Hbad.
  destruct (TaskService.get_user_tasks ilike now db user 0 limit filters)
    as [[page total]|e] eqn:Hcall; [|reflexivity].
  exfalso. apply get_user_tasks_Ok in Hcall as (Hall & _ & _).
  rewrite skipn_O, firstn_all2 in Hall
    by (rewrite (Permutation_length (order_rows_perm _)); exact Hlen).
  rewrite List.Forall_forall in Hall.
  destruct (Hall (id, task)) as [Hn Hv].
  - apply (Permutation_in _ (Permutation_sym (order_rows_perm _))). exact Hin.
  - simpl in *. destruct Hbad; congruence.
Qed.

(** On a store that gives every value back with a time zone: a task that
    is created with a due date is written, and read back with an aware due
    date; from then on [get_task] raises on it, and so does every listing
    that has it on its page, while the query of the listing selects it. *)
Lemma listings_on_aware_store :
  let request :=
    mkTaskCreate "finish report" None LOW (Some (naive (10 * day_us))) None None
      [] None None None false in
  let created :=
    TaskService.create_task (9 * day_us) (Sample.empty always_aware) request 7 in
  let db := fst created in
  let now := 40 * day_us in
  snd created = Py.Raise Py.TypeError
  /\ (due_date <$> db_tasks db !! 1) = Some (Some (mkDatetime (10 * day_us) true))
  /\ TaskService.get_task now db 1 7 = Py.Raise Py.TypeError
  /\ map fst (TaskService.matching (fun _ _ => false) now db 7 (Some due_soon_filter))
     = [1]
  /\ TaskService.get_user_tasks (fun _ _ => false) now db 7 0 100
       (Some due_soon_filter) = Py.Raise Py.TypeError
  /\ TaskService.get_user_tasks (fun _ _ => false) now db 7 0 100
       (Some overdue_filter) = Py.Raise Py.TypeError.
Proof. cbv zeta. repeat split; vm_compute; reflexivity. Qed.

(** ** The schedule job *)

(** The keys of the table come in an order that its domain fixes. *)
Lemma map_to_list_keys_same_dom (m1 m2 : gmap Z Task) :
  (forall j, is_Some (m1 !! j) <-> is_Some (m2 !! j)) ->
  map fst (map_to_list m1) = map fst (map_to_list m2).
Proof.
  intros Hdom.
  assert (Hunit : (fun _ : Task => tt) <$> m1 = (fun _ : Task => tt) <$> m2).
  { apply map_eq. intros j. rewrite !lookup_fmap.
    destruct (Hdom j) as [H1 H2].
    destruct (m1 !! j) as [x1|], (m2 !! j) as [x2|]; simpl; try reflexivity.
    - destruct H1 as [? ?]; [eauto | discriminate].
    - destruct H2 as [? ?]; [eauto | discriminate]. }
  apply (f_equal map_to_list) in Hunit. rewrite !map_to_list_fmap in Hunit.
  apply (f_equal (map fst)) in Hunit.
  change (@fmap list _) with (@map) in Hunit.
  rewrite !map_map in Hunit. simpl in Hunit. exact Hunit.
Qed.

Lemma filter_same_keys (f : Z * Task -> bool) (l1 l2 : list (Z * Task)) :
  map fst l1 = map fst l2 ->
  (forall k x1 x2, In (k, x1) l1 -> In (k, x2) l2 ->
                   f (k, x1) = f (k, x2) /\ (f (k, x1) = true -> x1 = x2)) ->
  List.filter f l1 = List.filter f l2.
Proof.
  revert l2. induction l1 as [|[k x1] l1 IH]; intros [|[k' x2] l2] Hkeys Hrows;
    simpl in *; try discriminate; [reflexivity|].
  injection Hkeys as -> Hkeys.
  destruct (Hrows k' x1 x2) as [Hf Heq]; [auto | auto |].
  rewrite <- Hf.
  assert (Htail : List.filter f l1 = List.filter f l2).
  { apply IH; [exact Hkeys|]. intros; apply Hrows; auto. }
  destruct (f (k', x1)); [|exact Htail].
  rewrite (Heq eq_refl), Htail. reflexivity.
Qed.

(** The rows selected for a user are the same in two tables that have the
    same owners and the same rows of that user. *)
Lemma user_tasks_same (user : Z) (m1 m2 : gmap Z Task) :
  (forall j, user_id <$> m1 !! j = user_id <$> m2 !! j) ->
  (forall j x, m1 !! j = Some x -> user_id x = user -> m2 !! j = Some x) ->
  AiTasks.user_tasks user m1 = AiTasks.user_tasks user m2.
Proof.
  intros Howner Hrows. unfold AiTasks.user_tasks. f_equal.
  apply filter_same_keys.
  - apply map_to_list_keys_same_dom. intros j. specialize (Howner j).
    destruct (m1 !! j), (m2 !! j); simpl in *; try discriminate;
      split; intros [? ?]; eauto; discriminate.
  - intros k x1 x2 H1 H2.
    apply list_elem_of_In, elem_of_map_to_list in H1.
    apply list_elem_of_In, elem_of_map_to_list in H2.
    simpl. pose proof (Howner k) as Hk. rewrite H1, H2 in Hk. simpl in Hk.
    injection Hk as Hk.
    destruct (decide (user_id x1 = user)) as [Hu|Hu].
    + pose proof (Hrows k x1 H1 Hu) as H3.
      assert (x1 = x2) as -> by congruence.
      split; reflexivity.
    + assert (Hu' : user_id x2 <> user) by congruence.
      rewrite (proj2 (Z.eqb_neq _ _) Hu), (proj2 (Z.eqb_neq _ _) Hu').
      simpl. split; [reflexivity | discriminate].
Qed.

Lemma user_tasks_In (user : Z) (m : gmap Z Task) (i : Z) :
  In i (map fst (AiTasks.user_tasks user m)) ->
  exists t, m !! i = Some t /\ user_id t = user.
Proof.
  unfold AiTasks.user_tasks. rewrite in_map_iff.
  intros ([k t] & <- & Hin). simpl.
  assert (Hfull : In (k, t) (List.filter
                      (fun row : Z * Task =>
                         (user_id (snd row) =? user)
                         && (sql_eq (status (snd row)) PENDING
                             || sql_eq (status (snd row)) IN_PROGRESS)
                         && bool_decide (is_Some (due_date (snd row))))
                      (map_to_list m))).
  { rewrite <- (firstn_skipn 20 (List.filter _ _)). apply in_or_app. now left. }
  apply filter_In in Hfull as [Hrow Hcond].
  apply list_elem_of_In, elem_of_map_to_list in Hrow.
  exists t. split; [exact Hrow|]. simpl in Hcond.
  apply andb_true_iff in Hcond as [Hcond _].
  apply andb_true_iff in Hcond as [Hcond _]. lia.
Qed.

Lemma load_stored (ids : list Z) (s : AiTasks.session) :
  AiTasks.stored (AiTasks.load ids s) = AiTasks.stored s.
Proof. reflexivity. Qed.

Lemma load_lookup (ids : list Z) (s : AiTasks.session) (i : Z) :
  AiTasks.loaded (AiTasks.load ids s) !! i
  = match AiTasks.loaded s !! i with
    | Some t => Some t
    | None => if bool_decide (i ∈ ids) then AiTasks.stored s !! i else None
    end.
Proof.
  unfold AiTasks.load. simpl.
  induction ids as [|id ids IH]; simpl.
  - destruct (AiTasks.loaded s !! i); reflexivity.
  - set (m := fold_right _ (AiTasks.loaded s) ids) in *.
    destruct (decide (id = i)) as [->|Hne].
    + rewrite (bool_decide_eq_true_2 (i ∈ i :: ids)) by (apply elem_of_cons; auto).
      destruct (m !! i) as [t|] eqn:Hm.
      * rewrite Hm. destruct (AiTasks.loaded s !! i); [exact IH|].
        destruct (bool_decide (i ∈ ids)); [exact IH | discriminate].
      * destruct (AiTasks.stored s !! i) as [row|] eqn:Hs.
        -- rewrite lookup_insert_eq.
           destruct (AiTasks.loaded s !! i); [discriminate|]. reflexivity.
        -- rewrite Hm. destruct (AiTasks.loaded s !! i); [discriminate|]. reflexivity.
    + assert (Hsame : (match m !! id, AiTasks.stored s !! id with
                       | None, Some row => <[id := row]> m
                       | _, _ => m
                       end) !! i = m !! i).
      { destruct (m !! id), (AiTasks.stored s !! id); try reflexivity.
        now rewrite lookup_insert_ne. }
      rewrite Hsame, IH.
      destruct (AiTasks.loaded s !! i); [reflexivity|].
      destruct (decide (i ∈ ids)) as [Hin|Hin].
      * now rewrite !bool_decide_eq_true_2 by (try apply elem_of_cons; auto).
      * rewrite !bool_decide_eq_false_2; [reflexivity | | assumption].
        intros [?|?]%elem_of_cons; congruence.
Qed.

Lemma commit_lookup (s : AiTasks.session) (i : Z) :
  AiTasks.stored (AiTasks.commit s) !! i
  = match AiTasks.loaded s !! i with
    | Some t => Some t
    | None => AiTasks.stored s !! i
    end.
Proof.
  unfold AiTasks.commit. simpl. rewrite lookup_union.
  destruct (AiTasks.loaded s !! i), (AiTasks.stored s !! i); reflexivity.
Qed.

Lemma assign_slot_lookup (id i : Z) (d : datetime) (s : AiTasks.session) :
  AiTasks.loaded (AiTasks.assign_slot id d s) !! i
  = if decide (id = i)
    then set_ai_suggested_time_slot (Some d) <$> AiTasks.loaded s !! i
    else AiTasks.loaded s !! i.
Proof.
  unfold AiTasks.assign_slot. simpl. rewrite lookup_alter.
  destruct (decide (id = i)) as [->|]; reflexivity.
Qed.

Lemma find_elem_of (p : Z -> bool) (l : list Z) (x : Z) :
  List.find p l = Some x -> x ∈ l.
Proof. intros H. apply find_some in H as [H _]. now apply list_elem_of_In. Qed.

Section ScheduleJob.

Variable json_loads : string -> option Py.json.
Variable fromisoformat : string -> option datetime.

Import JobPlan.

Local Abbreviation plan_of := (JobPlan.plan_of json_loads).
Local Abbreviation run := (JobPlan.run fromisoformat).

(** The loop over the suggestions writes to loaded rows of the selection
    only, commits nothing and never changes the owner of a row. *)
Lemma apply_suggestions_frame (ids : list Z) (suggestions : list Py.json) :
  forall s : AiTasks.session,
    let s' := fst (AiTasks.apply_suggestions fromisoformat ids suggestions s) in
    AiTasks.stored s' = AiTasks.stored s
    /\ (forall i, i ∉ ids -> AiTasks.loaded s' !! i = AiTasks.loaded s !! i)
    /\ (forall i, user_id <$> AiTasks.loaded s' !! i
                  = user_id <$> AiTasks.loaded s !! i).
Proof.
  induction suggestions as [|x rest IH]; intros s; simpl; [auto|].
  destruct (Py.get x "task_id" Py.JNull) as [task_id|e]; [|simpl; auto].
  destruct (Py.get x "suggested_time" Py.JNull) as [suggested_time|e]; [|simpl; auto].
  destruct (Py.truthy task_id && Py.truthy suggested_time); [|apply IH].
  destruct (List.find _ ids) as [id|] eqn:Hfind; [|apply IH].
  destruct (AiTasks.parse_time fromisoformat suggested_time) as [d|e]; [|simpl; auto].
  apply find_elem_of in Hfind.
  destruct (IH (AiTasks.assign_slot id d s)) as (H1 & H2 & H3).
  split; [exact H1|]. split.
  - intros i Hi. rewrite (H2 i Hi), assign_slot_lookup.
    destruct (decide (id = i)) as [->|]; [contradiction | reflexivity].
  - intros i. rewrite H3, assign_slot_lookup.
    destruct (decide (id = i)) as [->|]; [|reflexivity].
    destruct (AiTasks.loaded s !! i); reflexivity.
Qed.

(** Two sessions that hold the same rows of the selection go through the
    loop alike. *)
Lemma apply_suggestions_sim (ids : list Z) (suggestions : list Py.json) :
  forall s z : AiTasks.session,
    (forall i, i ∈ ids -> AiTasks.loaded s !! i = AiTasks.loaded z !! i) ->
    snd (AiTasks.apply_suggestions fromisoformat ids suggestions s)
    = snd (AiTasks.apply_suggestions fromisoformat ids suggestions z)
    /\ (forall i, i ∈ ids ->
          AiTasks.loaded (fst (AiTasks.apply_suggestions fromisoformat ids suggestions s)) !! i
          = AiTasks.loaded (fst (AiTasks.apply_suggestions fromisoformat ids suggestions z)) !! i).
Proof.
  induction suggestions as [|x rest IH]; intros s z Hsame; simpl; [auto|].
  destruct (Py.get x "task_id" Py.JNull) as [task_id|e]; [|simpl; auto].
  destruct (Py.get x "suggested_time" Py.JNull) as [suggested_time|e]; [|simpl; auto].
  destruct (Py.truthy task_id && Py.truthy suggested_time); [|apply IH; exact Hsame].
  destruct (List.find _ ids) as [id|]; [|apply IH; exact Hsame].
  destruct (AiTasks.parse_time fromisoformat suggested_time) as [d|e]; [|simpl; auto].
  apply IH. intros i Hi. rewrite !assign_slot_lookup, (Hsame i Hi). reflexivity.
Qed.

(** *** One user *)

Lemma optimize_user_plan (user : User) (reply : http_outcome) (s : AiTasks.session) :
  let ids := map fst (AiTasks.user_tasks (uid user) (AiTasks.stored s)) in
  let s1 := AiTasks.load ids s in
  AiTasks.optimize_user json_loads fromisoformat user reply s
  = run user ids (plan_of user reply ids (missing_priority ids (AiTasks.loaded s1))) s1.
Proof.
  cbv zeta. unfold AiTasks.optimize_user, plan_of, run, missing_priority.
  destruct (map fst (AiTasks.user_tasks (uid user) (AiTasks.stored s)))
    as [|id ids]; [reflexivity|].
  destruct (existsb _ (id :: ids)); [reflexivity|].
  destruct (GrokService.generate_schedule_optimization _ _ _ _) as [logs [o|e]];
    [|reflexivity].
  destruct (Py.get o _ _) as [schedule|e]; [|reflexivity].
  destruct (Py.iter schedule) as [suggestions|e]; reflexivity.
Qed.

Lemma run_frame (user : User) (ids : list Z) (p : plan) (s : AiTasks.session) :
  let s' := fst (fst (run user ids p s)) in
  (forall i, i ∉ ids -> AiTasks.loaded s' !! i = AiTasks.loaded s !! i)
  /\ (forall i, user_id <$> AiTasks.loaded s' !! i = user_id <$> AiTasks.loaded s !! i)
  /\ (forall i, AiTasks.stored s' !! i
                = if counted (snd (run user ids p s))
                  then match AiTasks.loaded s' !! i with
                       | Some t => Some t
                       | None => AiTasks.stored s !! i
                       end
                  else AiTasks.stored s !! i).
Proof.
  destruct p as [|logs e|logs suggestions]; simpl; [auto | auto |].
  pose proof (apply_suggestions_frame ids suggestions s) as (H1 & H2 & H3).
  destruct (AiTasks.apply_suggestions fromisoformat ids suggestions s) as [s' [[]|e]];
    simpl in *.
  - split; [exact H2|]. split; [exact H3|].
    intros i. rewrite lookup_union, H1.
    destruct (AiTasks.loaded s' !! i), (AiTasks.stored s !! i); reflexivity.
  - split; [exact H2|]. split; [exact H3|]. intros i. now rewrite H1.
Qed.

Lemma run_sim (user : User) (ids : list Z) (p : plan) (s z : AiTasks.session) :
  (forall i, i ∈ ids -> AiTasks.loaded s !! i = AiTasks.loaded z !! i) ->
  snd (run user ids p s) = snd (run user ids p z)
  /\ snd (fst (run user ids p s)) = snd (fst (run user ids p z))
  /\ (forall i, i ∈ ids ->
        AiTasks.loaded (fst (fst (run user ids p s))) !! i
        = AiTasks.loaded (fst (fst (run user ids p z))) !! i).
Proof.
  intros Hsame. destruct p as [|logs e|logs suggestions]; simpl; [auto | auto |].
  pose proof (apply_suggestions_sim ids suggestions s z Hsame) as [Hout Hrows].
  destruct (AiTasks.apply_suggestions fromisoformat ids suggestions s) as [s' [[]|e]];
    destruct (AiTasks.apply_suggestions fromisoformat ids suggestions z) as [z' [[]|e']];
    simpl in *; simplify_eq; auto.
Qed.

(** *** The loop over the users *)

Variable replies : Z -> http_outcome.
Variable db0 : gmap Z Task.

Local Abbreviation fresh_session := (JobPlan.fresh_session db0).
Local Abbreviation alone := (JobPlan.alone json_loads fromisoformat replies db0).
Local Abbreviation Inv := (JobPlan.Inv db0).
Local Abbreviation inv_owner := (JobPlan.inv_owner db0).
Local Abbreviation inv_loaded := (JobPlan.inv_loaded db0).
Local Abbreviation inv_rest := (JobPlan.inv_rest db0).
Local Abbreviation settled := (JobPlan.settled db0).
Local Abbreviation settled_alone :=
  (JobPlan.settled_alone json_loads fromisoformat replies db0).

Lemma Inv_fresh : Inv [] fresh_session.
Proof.
  split; simpl.
  - reflexivity.
  - intros j t H. rewrite lookup_empty in H. discriminate.
  - auto.
Qed.

Lemma Inv_selection (U : list Z) (s : AiTasks.session) (user : Z) :
  Inv U s -> ~ In user U ->
  AiTasks.user_tasks user (AiTasks.stored s) = AiTasks.user_tasks user db0.
Proof.
  intros HI Hfresh. apply user_tasks_same; [apply (inv_owner U s HI)|].
  intros j x Hx Hu.
  pose proof (inv_owner U s HI j) as Ho. rewrite Hx in Ho. simpl in Ho.
  destruct (db0 !! j) as [t0|] eqn:H0; [|discriminate].
  simpl in Ho. injection Ho as Ho.
  assert (Hs : AiTasks.stored s !! j = Some t0).
  { apply (inv_rest U s HI j t0 H0). congruence. }
  congruence.
Qed.

Lemma Inv_not_loaded (U : list Z) (s : AiTasks.session) (j : Z) (t0 : Task) :
  Inv U s -> db0 !! j = Some t0 -> ~ In (user_id t0) U ->
  AiTasks.loaded s !! j = None.
Proof.
  intros HI H0 Hfresh.
  destruct (AiTasks.loaded s !! j) as [t|] eqn:Hl; [|reflexivity].
  destruct (inv_loaded U s HI j t Hl) as [Hin Ho].
  rewrite H0 in Ho. simpl in Ho. injection Ho as Ho. congruence.
Qed.

Lemma missing_priority_ext (ids : list Z) (m1 m2 : gmap Z Task) :
  (forall i, i ∈ ids -> m1 !! i = m2 !! i) ->
  missing_priority ids m1 = missing_priority ids m2.
Proof.
  intros H. unfold missing_priority.
  induction ids as [|id ids IH]; simpl; [reflexivity|].
  rewrite (H id) by (apply elem_of_cons; auto).
  rewrite IH; [reflexivity|]. intros i Hi. apply H, elem_of_cons. auto.
Qed.

(** The rows that the body loads for a user not handled before are those
    of the store as it was. *)
Lemma load_selection (U : list Z) (s : AiTasks.session) (user : Z) (i : Z) :
  Inv U s -> ~ In user U ->
  let ids := map fst (AiTasks.user_tasks user db0) in
  (i ∈ ids ->
   AiTasks.loaded (AiTasks.load ids s) !! i = db0 !! i
   /\ AiTasks.loaded (AiTasks.load ids fresh_session) !! i = db0 !! i)
  /\ (i ∉ ids ->
      AiTasks.loaded (AiTasks.load ids s) !! i = AiTasks.loaded s !! i
      /\ AiTasks.loaded (AiTasks.load ids fresh_session) !! i = None).
Proof.
  intros HI Hfresh ids. rewrite !load_lookup. simpl. rewrite lookup_empty. split.
  - intros Hi. rewrite !bool_decide_eq_true_2 by assumption.
    destruct (user_tasks_In user db0 i) as (t0 & H0 & Hu);
      [now apply list_elem_of_In|].
    rewrite (Inv_not_loaded U s i t0 HI H0) by congruence.
    split; [|reflexivity].
    rewrite H0. apply (inv_rest U s HI i t0 H0). congruence.
  - intros Hi. rewrite !bool_decide_eq_false_2 by assumption.
    split; [|reflexivity]. destruct (AiTasks.loaded s !! i); reflexivity.
Qed.

(** One turn of the loop, for a user not handled before: the outcome, the
    log lines and the rows of the user are those of the body run alone;
    every other row keeps what the session holds for it. *)
Lemma step_spec (U : list Z) (s : AiTasks.session) (user : User) :
  Inv U s -> ~ In (uid user) U ->
  let r := AiTasks.optimize_user json_loads fromisoformat user
             (replies (uid user)) s in
  let a := alone user in
  Inv (uid user :: U) (fst (fst r))
  /\ snd r = snd a
  /\ snd (fst r) = snd (fst a)
  /\ (forall j t0, db0 !! j = Some t0 -> user_id t0 = uid user ->
        AiTasks.loaded (fst (fst r)) !! j = AiTasks.loaded (fst (fst a)) !! j
        /\ AiTasks.stored (fst (fst r)) !! j = AiTasks.stored (fst (fst a)) !! j)
  /\ (forall j, user_id <$> db0 !! j <> Some (uid user) ->
        AiTasks.loaded (fst (fst r)) !! j = AiTasks.loaded s !! j
        /\ AiTasks.stored (fst (fst r)) !! j
           = if counted (snd r)
             then match AiTasks.loaded s !! j with
                  | Some t => Some t
                  | None => AiTasks.stored s !! j
                  end
             else AiTasks.stored s !! j).
Proof.
  intros HI Hfresh. cbv zeta. unfold alone.
  rewrite !optimize_user_plan. cbv zeta.
  change (AiTasks.stored fresh_session) with db0.
  rewrite (Inv_selection U s (uid user) HI Hfresh).
  set (ids := map fst (AiTasks.user_tasks (uid user) db0)).
  set (s1 := AiTasks.load ids s). set (a1 := AiTasks.load ids fresh_session).
  assert (Hload : forall i,
            (i ∈ ids -> AiTasks.loaded s1 !! i = db0 !! i
                        /\ AiTasks.loaded a1 !! i = db0 !! i)
            /\ (i ∉ ids -> AiTasks.loaded s1 !! i = AiTasks.loaded s !! i
                           /\ AiTasks.loaded a1 !! i = None)).
  { intros i. exact (load_selection U s (uid user) i HI Hfresh). }
  assert (Hagree : forall i, i ∈ ids ->
            AiTasks.loaded s1 !! i = AiTasks.loaded a1 !! i).
  { intros i Hi. destruct (proj1 (Hload i) Hi) as [-> ->]. reflexivity. }
  assert (Hids : forall i, i ∈ ids ->
            exists t0, db0 !! i = Some t0 /\ user_id t0 = uid user).
  { intros i Hi. apply user_tasks_In. now apply list_elem_of_In. }
  rewrite (missing_priority_ext ids _ _ Hagree).
  set (p := plan_of user (replies (uid user)) ids
              (missing_priority ids (AiTasks.loaded a1))).
  destruct (run_sim user ids p s1 a1 Hagree) as (Hout & Hlogs & Hrows).
  destruct (run_frame user ids p s1) as (Fs1 & Fs2 & Fs3).
  destruct (run_frame user ids p a1) as (Fa1 & Fa2 & Fa3).
  change (AiTasks.stored s1) with (AiTasks.stored s) in Fs3.
  change (AiTasks.stored a1) with db0 in Fa3.
  set (r := run user ids p s1) in *. set (a := run user ids p a1) in *.
  assert (Hloaded : forall j t, AiTasks.loaded (fst (fst r)) !! j = Some t ->
            In (user_id t) (uid user :: U)
            /\ user_id <$> db0 !! j = Some (user_id t)).
  { intros j t Hj. pose proof (Fs2 j) as Ho. rewrite Hj in Ho.
    symmetry in Ho. apply fmap_Some in Ho as (t1 & H1 & Ho). rewrite Ho.
    destruct (decide (j ∈ ids)) as [Hin|Hin].
    - destruct (proj1 (Hload j) Hin) as [Hs1 _].
      destruct (Hids j Hin) as (t0 & H0 & Hu).
      assert (t1 = t0) as -> by congruence.
      rewrite H0. simpl. split; [left; congruence | reflexivity].
    - destruct (proj2 (Hload j) Hin) as [Hs1 _].
      rewrite H1 in Hs1. symmetry in Hs1.
      destruct (inv_loaded U s HI j t1 Hs1) as [HU Hdb]. split; [right|]; assumption. }
  split; [|split; [exact Hout | split; [exact Hlogs | split]]].
  - split.
    + intros j. rewrite Fs3. destruct (counted (snd r)); [|apply (inv_owner U s HI)].
      destruct (AiTasks.loaded (fst (fst r)) !! j) as [t|] eqn:Hj;
        [|apply (inv_owner U s HI)].
      destruct (Hloaded j t Hj) as [_ Ho]. rewrite Ho. reflexivity.
    + exact Hloaded.
    + intros j t0 H0 Hnot.
      assert (Hnone : AiTasks.loaded (fst (fst r)) !! j = None).
      { destruct (AiTasks.loaded (fst (fst r)) !! j) as [t|] eqn:Hj; [|reflexivity].
        destruct (Hloaded j t Hj) as [Hin Ho]. rewrite H0 in Ho. simpl in Ho.
        injection Ho as Ho. rewrite <- Ho in Hin. contradiction. }
      rewrite Fs3, Hnone.
      assert (Hs : AiTasks.stored s !! j = Some t0).
      { apply (inv_rest U s HI j t0 H0). intros Hin. apply Hnot. now right. }
      destruct (counted (snd r)); exact Hs.
  - intros j t0 H0 Hu.
    assert (Hl : AiTasks.loaded (fst (fst r)) !! j
                 = AiTasks.loaded (fst (fst a)) !! j).
    { destruct (decide (j ∈ ids)) as [Hin|Hin]; [exact (Hrows j Hin)|].
      rewrite (Fs1 j Hin), (Fa1 j Hin).
      destruct (proj2 (Hload j) Hin) as [-> ->].
      apply (Inv_not_loaded U s j t0 HI H0). congruence. }
    split; [exact Hl|].
    rewrite Fs3, Fa3, Hout, Hl.
    rewrite (inv_rest U s HI j t0 H0) by congruence. rewrite H0. reflexivity.
  - intros j Hother.
    assert (Hin : j ∉ ids).
    { intros Hin. destruct (Hids j Hin) as (t0 & H0 & Hu).
      apply Hother. rewrite H0. simpl. congruence. }
    assert (Hl : AiTasks.loaded (fst (fst r)) !! j = AiTasks.loaded s !! j).
    { rewrite (Fs1 j Hin). exact (proj1 (proj2 (Hload j) Hin)). }
    split; [exact Hl|]. rewrite Fs3, Hl. reflexivity.
Qed.

Lemma optimize_loop_cons (user : User) (rest : list User)
    (s : AiTasks.session) (n : nat) :
  AiTasks.optimize_loop json_loads fromisoformat replies (user :: rest) s n
  = let r := AiTasks.optimize_user json_loads fromisoformat user
               (replies (uid user)) s in
    let l := AiTasks.optimize_loop json_loads fromisoformat replies rest
               (fst (fst r)) (if counted (snd r) then S n else n) in
    (fst (fst l), snd (fst l),
     (snd (fst r) ++ match snd r with
                     | Py.Raise _ => [error_line user]
                     | Py.Ok _ => []
                     end) ++ snd l).
Proof.
  cbv zeta. simpl.
  destruct (AiTasks.optimize_user json_loads fromisoformat user (replies (uid user)) s)
    as [[s' logs] [[]|e]]; simpl;
    destruct (AiTasks.optimize_loop json_loads fromisoformat replies rest s' _)
      as [[s'' n'] later]; simpl; rewrite ?app_nil_r; reflexivity.
Qed.

Lemma settled_step (U : list Z) (s : AiTasks.session) (user : User)
    (v : Z) (target : gmap Z Task) :
  Inv U s -> ~ In (uid user) U -> uid user <> v ->
  settled v target s ->
  settled v target
    (fst (fst (AiTasks.optimize_user json_loads fromisoformat user
                 (replies (uid user)) s))).
Proof.
  intros HI Hfresh Hne Hset j t0 H0 Hv.
  destruct (step_spec U s user HI Hfresh) as (_ & _ & _ & _ & Hother).
  cbv zeta in Hother.
  destruct (Hother j) as [Hl Hs].
  { rewrite H0. simpl. congruence. }
  destruct (Hset j t0 H0 Hv) as [Htarget Hwrite].
  assert (Hsame : AiTasks.stored
                    (fst (fst (AiTasks.optimize_user json_loads fromisoformat user
                                 (replies (uid user)) s))) !! j
                  = AiTasks.stored s !! j).
  { rewrite Hs. destruct (counted _); [|reflexivity].
    destruct (AiTasks.loaded s !! j) as [t|] eqn:Ht; [|reflexivity].
    symmetry. now apply Hwrite. }
  rewrite Hsame, Hl. split; assumption.
Qed.

Lemma loop_settled (v : Z) (target : gmap Z Task) (users : list User) :
  forall (U : list Z) (s : AiTasks.session) (n : nat),
    (forall u, In u users -> ~ In (uid u) U) ->
    NoDup (map uid users) ->
    ~ In v (map uid users) ->
    Inv U s ->
    settled v target s ->
    settled v target
      (fst (fst (AiTasks.optimize_loop json_loads fromisoformat replies users s n))).
Proof.
  induction users as [|user rest IH]; intros U s n Hfresh Hnodup Hv HI Hset;
    [exact Hset|].
  rewrite optimize_loop_cons. cbv zeta. simpl fst.
  apply NoDup_cons in Hnodup as [Hhead Hnodup]. simpl in Hv.
  assert (HU : ~ In (uid user) U) by (apply Hfresh; now left).
  destruct (step_spec U s user HI HU) as (HI' & _).
  apply (IH (uid user :: U)); auto.
  - intros u Hu [Heq|Hin].
    + apply Hhead. rewrite Heq. apply list_elem_of_In, in_map, Hu.
    + apply (Hfresh u); [now right | exact Hin].
  - apply (settled_step U); auto.
Qed.

Lemma fresh_tail (U : list Z) (user : User) (rest : list User) :
  (forall u, In u (user :: rest) -> ~ In (uid u) U) ->
  NoDup (map uid (user :: rest)) ->
  forall u, In u rest -> ~ In (uid u) (uid user :: U).
Proof.
  intros Hfresh Hnodup u Hu [Heq|Hin].
  - apply NoDup_cons in Hnodup as [Hhead _].
    apply Hhead. rewrite Heq. apply list_elem_of_In, in_map, Hu.
  - apply (Hfresh u); [now right | exact Hin].
Qed.

Lemma loop_own_rows (v : User) (users : list User) :
  forall (U : list Z) (s : AiTasks.session) (n : nat),
    (forall u, In u users -> ~ In (uid u) U) ->
    NoDup (map uid users) ->
    Inv U s ->
    In v users ->
    settled_alone v ->
    settled (uid v) (AiTasks.stored (fst (fst (alone v))))
      (fst (fst (AiTasks.optimize_loop json_loads fromisoformat replies users s n))).
Proof.
  induction users as [|user rest IH]; intros U s n Hfresh Hnodup HI Hin Halone;
    [destruct Hin|].
  rewrite optimize_loop_cons. cbv zeta. simpl fst.
  assert (HU : ~ In (uid user) U) by (apply Hfresh; now left).
  destruct (step_spec U s user HI HU) as (HI' & _ & _ & Hown & _).
  cbv zeta in Hown.
  pose proof (fresh_tail U user rest Hfresh Hnodup) as Hfresh'.
  apply NoDup_cons in Hnodup as [Hhead Hnodup].
  destruct Hin as [->|Hin].
  - apply (loop_settled (uid v) _ rest (uid v :: U)); auto.
    + intros Hv. apply Hhead. now apply list_elem_of_In.
    + intros j t0 H0 Hv. destruct (Hown j t0 H0 Hv) as [Hl Hs].
      split; [exact Hs|]. intros t Ht. rewrite Hs. rewrite Hl in Ht.
      exact (Halone j t0 H0 Hv t Ht).
  - apply (IH (uid user :: U)); auto.
Qed.

Lemma loop_count (users : list User) :
  forall (U : list Z) (s : AiTasks.session) (n : nat),
    (forall u, In u users -> ~ In (uid u) U) ->
    NoDup (map uid users) ->
    Inv U s ->
    snd (fst (AiTasks.optimize_loop json_loads fromisoformat replies users s n))
    = (n + length (List.filter (fun u => counted (snd (alone u))) users))%nat.
Proof.
  induction users as [|user rest IH]; intros U s n Hfresh Hnodup HI;
    [simpl; lia|].
  rewrite optimize_loop_cons. cbv zeta. simpl fst. simpl snd.
  assert (HU : ~ In (uid user) U) by (apply Hfresh; now left).
  destruct (step_spec U s user HI HU) as (HI' & Hout & _).
  cbv zeta in Hout.
  pose proof (fresh_tail U user rest Hfresh Hnodup) as Hfresh'.
  apply NoDup_cons in Hnodup as [_ Hnodup].
  rewrite (IH (uid user :: U)) by auto.
  rewrite Hout. simpl. destruct (counted (snd (alone user))); simpl; lia.
Qed.

Lemma loop_logs (v : User) (users : list User) :
  forall (U : list Z) (s : AiTasks.session) (n : nat),
    (forall u, In u users -> ~ In (uid u) U) ->
    NoDup (map uid users) ->
    Inv U s ->
    In v users ->
    (forall e, In e (snd (fst (alone v))) ->
       In e (snd (AiTasks.optimize_loop json_loads fromisoformat replies users s n)))
    /\ (Py.is_ok (snd (alone v)) = false ->
        In (error_line v)
          (snd (AiTasks.optimize_loop json_loads fromisoformat replies users s n))).
Proof.
  induction users as [|user rest IH]; intros U s n Hfresh Hnodup HI Hin;
    [destruct Hin|].
  rewrite optimize_loop_cons. cbv zeta. simpl snd.
  assert (HU : ~ In (uid user) U) by (apply Hfresh; now left).
  destruct (step_spec U s user HI HU) as (HI' & Hout & Hlogs & _).
  cbv zeta in Hout, Hlogs.
  pose proof (fresh_tail U user rest Hfresh Hnodup) as Hfresh'.
  apply NoDup_cons in Hnodup as [_ Hnodup].
  destruct Hin as [->|Hin].
  - rewrite Hout, Hlogs. split.
    + intros e He. apply in_or_app. left. apply in_or_app. now left.
    + intros Hraise. apply in_or_app. left. apply in_or_app. right.
      destruct (snd (alone v)); [discriminate | now left].
  - destruct (IH (uid user :: U) (fst (fst (AiTasks.optimize_user json_loads
                 fromisoformat user (replies (uid user)) s)))
                (if counted (snd (AiTasks.optimize_user json_loads fromisoformat
                                    user (replies (uid user)) s))
                 then S n else n) Hfresh' Hnodup HI' Hin) as [H1 H2].
    split.
    + intros e He. apply in_or_app. right. now apply H1.
    + intros Hraise. apply in_or_app. right. now apply H2.
Qed.

Lemma alone_plan (user : User) :
  let ids := map fst (AiTasks.user_tasks (uid user) db0) in
  let a1 := AiTasks.load ids fresh_session in
  alone user
  = run user ids
      (plan_of user (replies (uid user)) ids (missing_priority ids (AiTasks.loaded a1)))
      a1.
Proof. apply optimize_user_plan. Qed.

(** A body that reaches its commit leaves the rows of the user settled. *)
Lemma alone_counted_settled (user : User) :
  counted (snd (alone user)) = true -> settled_alone user.
Proof.
  intros Hcount. unfold settled_alone. rewrite alone_plan in *. cbv zeta in *.
  set (ids := map fst (AiTasks.user_tasks (uid user) db0)) in *.
  set (p := plan_of user (replies (uid user)) ids _) in *.
  intros j t0 _ _ t Ht.
  destruct (run_frame user ids p (AiTasks.load ids fresh_session))
    as (_ & _ & Hstored).
  cbv zeta in Hstored. rewrite Hstored, Hcount, Ht. reflexivity.
Qed.

(** When the request fails, the AI layer returns its fallback, which has no
    schedule: the plan holds no suggestion. *)
Lemma failed_request_plan (user : User) (ids : list Z) (missing : bool) :
  Py.is_ok (GrokService.request_and_parse json_loads (replies (uid user))) = false ->
  plan_of user (replies (uid user)) ids missing = Skip
  \/ plan_of user (replies (uid user)) ids missing = Raises [] Py.AttributeError
  \/ plan_of user (replies (uid user)) ids missing
     = Apply (fst (GrokService._make_request (replies (uid user)))
              ++ [mkLog ERROR "Schedule optimization failed"
                    [("user_id"%string, uid user)]]) [].
Proof.
  intros Hfail. unfold plan_of, GrokService.generate_schedule_optimization.
  destruct ids as [|id ids]; [now left|].
  destruct missing; [right; now left|].
  destruct (GrokService.request_and_parse json_loads (replies (uid user)));
    [discriminate|].
  right. right. reflexivity.
Qed.

(** Then the rows of the user are stored as they were, settled. *)
Lemma alone_failed_request (user : User) :
  Py.is_ok (GrokService.request_and_parse json_loads (replies (uid user))) = false ->
  settled_alone user
  /\ (forall j t0, db0 !! j = Some t0 -> user_id t0 = uid user ->
        AiTasks.stored (fst (fst (alone user))) !! j = Some t0).
Proof.
  intros Hfail.
  set (ids := map fst (AiTasks.user_tasks (uid user) db0)).
  assert (Hload : forall j, AiTasks.loaded (AiTasks.load ids fresh_session) !! j
                            = if bool_decide (j ∈ ids) then db0 !! j else None).
  { intros j. rewrite load_lookup. simpl. now rewrite lookup_empty. }
  assert (Hrows : forall j,
            AiTasks.loaded (fst (fst (alone user))) !! j
            = AiTasks.loaded (AiTasks.load ids fresh_session) !! j
            /\ (AiTasks.stored (fst (fst (alone user))) !! j = db0 !! j
                \/ AiTasks.stored (fst (fst (alone user))) !! j
                   = match AiTasks.loaded (AiTasks.load ids fresh_session) !! j with
                     | Some t => Some t
                     | None => db0 !! j
                     end)).
  { intros j. rewrite alone_plan. cbv zeta. fold ids.
    destruct (failed_request_plan user ids
                (missing_priority ids (AiTasks.loaded (AiTasks.load ids fresh_session)))
                Hfail) as [-> | [-> | ->]]; simpl.
    - split; [reflexivity | now left].
    - split; [reflexivity | now left].
    - split; [reflexivity|]. right. rewrite lookup_union.
      destruct (_ !! j), (db0 !! j); reflexivity. }
  assert (Hstored : forall j, AiTasks.stored (fst (fst (alone user))) !! j = db0 !! j).
  { intros j. destruct (Hrows j) as [_ [H|H]]; [exact H|].
    rewrite H, Hload. destruct (bool_decide (j ∈ ids)); [|reflexivity].
    destruct (db0 !! j); reflexivity. }
  split.
  - intros j t0 H0 Hu t Ht. rewrite Hstored.
    destruct (Hrows j) as [Hl _]. rewrite Hl, Hload in Ht.
    destruct (bool_decide (j ∈ ids)); [exact Ht | discriminate].
  - intros j t0 H0 _. now rewrite Hstored.
Qed.

Lemma find_the_id (ids : list Z) (i : Z) :
  i ∈ ids -> List.find (fun id => id =? i) ids = Some i.
Proof.
  induction ids as [|id ids IH]; simpl; intros Hin.
  - now apply elem_of_nil in Hin.
  - destruct (Z.eqb_spec id i) as [->|Hne]; [reflexivity|].
    apply elem_of_cons in Hin as [->|Hin]; [contradiction | auto].
Qed.

(** A user who is answered with one suggestion for one of the selected
    tasks: the body commits and the row holds the suggested time. *)
Lemma alone_single_suggestion (user : User) (content text : string)
    (i : Z) (d : datetime) (t : Task) :
  replies (uid user) = completion_reply content ->
  json_loads content = Some (single_suggestion i text) ->
  fromisoformat text = Some d ->
  i <> 0 -> text <> EmptyString ->
  i ∈ map fst (AiTasks.user_tasks (uid user) db0) ->
  (forall j t', j ∈ map fst (AiTasks.user_tasks (uid user) db0) ->
                db0 !! j = Some t' -> is_Some (priority t')) ->
  db0 !! i = Some t ->
  snd (alone user) = Py.Ok true
  /\ AiTasks.stored (fst (fst (alone user))) !! i
     = Some (set_ai_suggested_time_slot (Some d) t).
Proof.
  intros Hreply Hjson Htime Hi Htext Hin Hprio Hrow.
  rewrite alone_plan. cbv zeta.
  set (ids := map fst (AiTasks.user_tasks (uid user) db0)) in *.
  assert (Hload : forall j, AiTasks.loaded (AiTasks.load ids fresh_session) !! j
                            = if bool_decide (j ∈ ids) then db0 !! j else None).
  { intros j. rewrite load_lookup. simpl. now rewrite lookup_empty. }
  assert (Hmissing : missing_priority ids
                       (AiTasks.loaded (AiTasks.load ids fresh_session)) = false).
  { destruct (missing_priority _ _) eqn:E; [|reflexivity].
    apply existsb_exists in E as (j & Hj & Hf).
    apply list_elem_of_In in Hj.
    rewrite Hload, bool_decide_eq_true_2 in Hf by exact Hj.
    destruct (db0 !! j) as [t'|] eqn:Ht'; [|discriminate].
    rewrite bool_decide_eq_true_2 in Hf by (apply (Hprio j t'); auto).
    discriminate. }
  rewrite Hmissing.
  assert (Hplan : plan_of user (replies (uid user)) ids false
                  = Apply [mkLog INFO "Schedule optimized"
                             [("user_id"%string, uid user)]]
                      [Py.JDict [("task_id"%string, Py.JInt i);
                                 ("suggested_time"%string, Py.JStr text)]]).
  { unfold JobPlan.plan_of, GrokService.generate_schedule_optimization,
      GrokService.request_and_parse.
    rewrite Hreply. simpl. rewrite Hjson. simpl.
    destruct ids; [now apply elem_of_nil in Hin | reflexivity]. }
  rewrite Hplan. simpl.
  assert (Htruthy : negb (i =? 0) && negb (String.eqb text EmptyString) = true).
  { destruct (Z.eqb_spec i 0); [contradiction|].
    destruct (String.eqb_spec text EmptyString); [contradiction | reflexivity]. }
  rewrite Htruthy, (find_the_id ids i Hin), Htime. simpl.
  split; [reflexivity|].
  rewrite lookup_union, lookup_alter_eq, Hload, bool_decide_eq_true_2 by exact Hin.
  rewrite Hrow. reflexivity.
Qed.

(** A failed request is absorbed by the AI layer, which logs it; the body
    goes on with the fallback, commits and is counted. *)
Lemma alone_failed_request_is_counted (user : User) :
  Py.is_ok (GrokService.request_and_parse json_loads (replies (uid user))) = false ->
  map fst (AiTasks.user_tasks (uid user) db0) <> [] ->
  (forall j t', j ∈ map fst (AiTasks.user_tasks (uid user) db0) ->
                db0 !! j = Some t' -> is_Some (priority t')) ->
  snd (alone user) = Py.Ok true
  /\ In (mkLog ERROR "Schedule optimization failed" [("user_id"%string, uid user)])
        (snd (fst (alone user)))
  /\ (replies (uid user) = HttpError ->
      In (mkLog ERROR "Grok API request failed" []) (snd (fst (alone user)))).
Proof.
  intros Hfail Hsome Hprio. rewrite alone_plan. cbv zeta.
  set (ids := map fst (AiTasks.user_tasks (uid user) db0)) in *.
  assert (Hmissing : missing_priority ids
                       (AiTasks.loaded (AiTasks.load ids fresh_session)) = false).
  { destruct (missing_priority _ _) eqn:E; [|reflexivity].
    apply existsb_exists in E as (j & Hj & Hf).
    apply list_elem_of_In in Hj.
    rewrite load_lookup in Hf. simpl in Hf.
    rewrite lookup_empty, bool_decide_eq_true_2 in Hf by exact Hj.
    destruct (db0 !! j) as [t'|] eqn:Ht'; [|discriminate].
    rewrite bool_decide_eq_true_2 in Hf by (apply (Hprio j t'); auto).
    discriminate. }
  rewrite Hmissing.
  assert (Hplan : plan_of user (replies (uid user)) ids false
                  = Apply (fst (GrokService._make_request (replies (uid user)))
                           ++ [mkLog ERROR "Schedule optimization failed"
                                 [("user_id"%string, uid user)]]) []).
  { unfold JobPlan.plan_of, GrokService.generate_schedule_optimization.
    destruct ids; [contradiction|].
    destruct (GrokService.request_and_parse json_loads (replies (uid user)));
      [discriminate | reflexivity]. }
  rewrite Hplan. simpl. split; [reflexivity|]. split.
  - rewrite !in_app_iff. simpl. auto.
  - intros ->. simpl. auto.
Qed.

End ScheduleJob.

Lemma NoDup_map_filter {A B} (f : A -> B) (p : A -> bool) (l : list A) :
  NoDup (map f l) -> NoDup (map f (List.filter p l)).
Proof.
  induction l as [|x l IH]; simpl; intros Hnodup; [constructor|].
  apply NoDup_cons in Hnodup as [Hx Hl].
  destruct (p x); simpl; [|auto].
  apply NoDup_cons. split; [|auto].
  intros Hin. apply Hx. apply list_elem_of_In in Hin. apply list_elem_of_In.
  apply in_map_iff in Hin as (y & Hy & Hin). apply filter_In in Hin as [Hin _].
  apply in_map_iff. eauto.
Qed.

(** The loop as it is written, on a list of users with distinct ids: the
    rows of a user whose own run is settled are, after the loop, what that
    run stores. *)
Lemma loop_own_rows_stored
    (json_loads : string -> option Py.json)
    (fromisoformat : string -> option datetime)
    (replies : Z -> http_outcome) (users : list User) (db : DB)
    (user : User) :
  NoDup (map uid users) ->
  In user users ->
  JobPlan.settled_alone json_loads fromisoformat replies (db_tasks db) user ->
  forall j t0, db_tasks db !! j = Some t0 -> user_id t0 = uid user ->
    db_tasks (fst (AiTasks.optimize_users json_loads fromisoformat
                     replies users db)) !! j
    = AiTasks.stored
        (fst (fst (JobPlan.alone json_loads fromisoformat replies (db_tasks db)
                     user))) !! j.
Proof.
  intros Hnodup Hin Hset j t0 H0 Hu.
  unfold AiTasks.optimize_users.
  assert (Hfresh : forall u, In u users -> ~ In (uid u) []) by (intros u _ []).
  pose proof (loop_own_rows json_loads fromisoformat replies (db_tasks db)
                user users [] _ 0%nat Hfresh Hnodup (Inv_fresh (db_tasks db))
                Hin Hset j t0 H0 Hu) as [Hown _].
  unfold JobPlan.fresh_session in Hown.
  destruct (AiTasks.optimize_loop json_loads fromisoformat replies users
              (AiTasks.mkSession ∅ (db_tasks db)) 0) as [[sF nF] logsF].
  exact Hown.
Qed.

(** A user of the loop who is answered with one suggestion for one of the
    selected tasks has the suggested time, as [datetime.fromisoformat]
    reads it, in the stored row after the loop, whatever the requests of
    the other users come to. *)
Lemma answered_user_receives_slot
    (json_loads : string -> option Py.json)
    (fromisoformat : string -> option datetime)
    (replies : Z -> http_outcome) (users : list User) (db : DB)
    (user : User) (content text : string) (i : Z) (d : datetime) (t : Task) :
  NoDup (map uid users) ->
  In user users ->
  replies (uid user) = completion_reply content ->
  json_loads content = Some (single_suggestion i text) ->
  fromisoformat text = Some d ->
  i <> 0 -> text <> EmptyString ->
  i ∈ map fst (AiTasks.user_tasks (uid user) (db_tasks db)) ->
  (forall j t', j ∈ map fst (AiTasks.user_tasks (uid user) (db_tasks db)) ->
                db_tasks db !! j = Some t' -> is_Some (priority t')) ->
  db_tasks db !! i = Some t ->
  db_tasks (fst (AiTasks.optimize_users json_loads fromisoformat
                   replies users db)) !! i
  = Some (set_ai_suggested_time_slot (Some d) t).
Proof.
  intros Hnodup Hin Hreply Hjson Htime Hi Htext Hsel Hprio Hrow.
  destruct (alone_single_suggestion json_loads fromisoformat replies (db_tasks db)
              user content text i d t Hreply Hjson Htime Hi Htext Hsel Hprio Hrow)
    as [Hok Hstored].
  rewrite <- Hstored.
  destruct (user_tasks_In (uid user) (db_tasks db) i) as (t' & Ht' & Hu);
    [now apply list_elem_of_In|].
  apply (loop_own_rows_stored json_loads fromisoformat replies users db user
           Hnodup Hin) with t'; auto.
  apply alone_counted_settled. now rewrite Hok.
Qed.

(** The loop isolates its users. Let the users have distinct ids, and take
    one of them. Whatever the requests of the other users come to:
    - if the body of the loop, run for this user alone on the store as it
      was, reaches its commit, the loop leaves the rows of the user exactly
      as that run does, suggested time slots included;
    - if the request of the user fails, the loop leaves the rows of the
      user as they were;
    - the log lines of the user's own run are in the log, with the line of
      the handler when that run raises;
    - the last line reports the number of users and the number of them
      whose body reached the count, and the dependency table is
      untouched. *)
Lemma loop_isolates_users
    (json_loads : string -> option Py.json)
    (fromisoformat : string -> option datetime)
    (replies : Z -> http_outcome) (users : list User) (db : DB)
    (user : User) :
  NoDup (map uid users) ->
  In user users ->
  let job :=
    AiTasks.optimize_users json_loads fromisoformat replies users db in
  let own u :=
    AiTasks.optimize_user json_loads fromisoformat u (replies (uid u))
      (AiTasks.mkSession ∅ (db_tasks db)) in
  (snd (own user) = Py.Ok true ->
   forall j t0, db_tasks db !! j = Some t0 -> user_id t0 = uid user ->
     db_tasks (fst job) !! j = AiTasks.stored (fst (fst (own user))) !! j)
  /\ (Py.is_ok (GrokService.request_and_parse json_loads (replies (uid user))) = false ->
      forall j t0, db_tasks db !! j = Some t0 -> user_id t0 = uid user ->
        db_tasks (fst job) !! j = Some t0)
  /\ (forall e, In e (snd (fst (own user))) -> In e (snd job))
  /\ (Py.is_ok (snd (own user)) = false -> In (JobPlan.error_line user) (snd job))
  /\ last (snd job)
     = Some (mkLog INFO "Schedule optimization completed"
               [("total_users"%string, Z.of_nat (length users));
                ("optimized_count"%string,
                 Z.of_nat
                   (length (List.filter (fun u => JobPlan.counted (snd (own u)))
                              users)))])
  /\ db_dependencies (fst job) = db_dependencies db.
Proof.
  intros Hnodup Hin. cbv zeta.
  pose proof (loop_own_rows_stored json_loads fromisoformat replies users db user
                Hnodup Hin) as Hown.
  assert (Hfresh : forall u, In u users -> ~ In (uid u) []) by (intros u _ []).
  pose proof (Inv_fresh (db_tasks db)) as HI.
  pose proof (loop_count json_loads fromisoformat replies (db_tasks db)
                users [] _ 0%nat Hfresh Hnodup HI) as Hcount.
  pose proof (loop_logs json_loads fromisoformat replies (db_tasks db)
                user users [] _ 0%nat Hfresh Hnodup HI Hin) as [Hlogs Herr].
  unfold AiTasks.optimize_users in *.
  unfold JobPlan.fresh_session, JobPlan.alone in *.
  destruct (AiTasks.optimize_loop json_loads fromisoformat replies users
              (AiTasks.mkSession ∅ (db_tasks db)) 0) as [[sF nF] logsF].
  simpl in *. repeat split.
  - intros Hok. apply Hown.
    apply alone_counted_settled. unfold JobPlan.alone, JobPlan.fresh_session.
    now rewrite Hok.
  - intros Hfail j t0 H0 Hu.
    destruct (alone_failed_request json_loads fromisoformat replies (db_tasks db)
                user Hfail) as [Hset Hrows].
    rewrite (Hown Hset j t0 H0 Hu). exact (Hrows j t0 H0 Hu).
  - intros e He. apply in_or_app. left. now apply Hlogs.
  - intros Hraise. apply in_or_app. left. now apply Herr.
  - rewrite last_snoc, Hcount. reflexivity.
Qed.

(** C9 fails on the code. The job builds the query for its users with
    [User.ai_preferences["auto_scheduling"].astext], and the column is of
    the generic JSON type, whose elements have no such attribute: the
    [AttributeError] is raised inside the outer [try], before any user is
    looked at. Whatever the users, the store and the answers of the AI
    endpoint: the job leaves the store as it was, logs the one line of the
    outer handler, and the exception leaves the job. *)
Theorem schedule_job_raises_before_its_loop
    (json_loads : string -> option Py.json)
    (fromisoformat : string -> option datetime)
    (replies : Z -> http_outcome) (all_users : list User) (db : DB) :
  AiTasks.auto_scheduling_users all_users = Py.Raise Py.AttributeError
  /\ AiTasks.optimize_user_schedules json_loads fromisoformat replies all_users db
     = (db, [mkLog ERROR "Failed to optimize schedules" []],
        Py.Raise Py.AttributeError)
  /\ (forall j,
        ai_suggested_time_slot <$>
          db_tasks (fst (fst (AiTasks.optimize_user_schedules json_loads
                                fromisoformat replies all_users db))) !! j
        = ai_suggested_time_slot <$> db_tasks db !! j)
  /\ (forall total optimized,
        ~ In (mkLog INFO "Schedule optimization completed"
                [("total_users"%string, total);
                 ("optimized_count"%string, optimized)])
             (snd (fst (AiTasks.optimize_user_schedules json_loads fromisoformat
                          replies all_users db)))).
Proof.
  split; [reflexivity|]. split; [reflexivity|]. split; [reflexivity|].
  intros total optimized [H|[]]. discriminate.
Qed.

(** The job on the sample store, where three users with automatic
    scheduling have a pending task each and the request of user 2 fails: no
    task receives a slot, and no count is reported. *)
Lemma schedule_job_on_sample_store :
  let job :=
    AiTasks.optimize_user_schedules Sample.json_loads Sample.fromisoformat
      Sample.replies Sample.users Sample.schedule_store in
  fst (fst job) = Sample.schedule_store
  /\ snd (fst job) = [mkLog ERROR "Failed to optimize schedules" []]
  /\ snd job = Py.Raise Py.AttributeError
  /\ (ai_suggested_time_slot <$> db_tasks (fst (fst job)) !! 11) = Some None
  /\ (ai_suggested_time_slot <$> db_tasks (fst (fst job)) !! 13) = Some None.
Proof. cbv zeta. repeat split. Qed.

(** The loop alone on the sample store: the tasks of users 1 and 3 receive
    their slots, the task of user 2 is as it was, the failure is logged
    inside the AI layer, and the last line counts user 2 among the
    optimized: 3 of 3. *)
Lemma loop_on_sample_store :
  let job :=
    AiTasks.optimize_users Sample.json_loads Sample.fromisoformat
      Sample.replies Sample.users Sample.schedule_store in
  (ai_suggested_time_slot <$> db_tasks (fst job) !! 11) = Some (Some 1000)
  /\ db_tasks (fst job) !! 12 = db_tasks Sample.schedule_store !! 12
  /\ (ai_suggested_time_slot <$> db_tasks (fst job) !! 13) = Some (Some 3000)
  /\ In (mkLog ERROR "Schedule optimization failed" [("user_id"%string, 2)]) (snd job)
  /\ last (snd job)
     = Some (mkLog INFO "Schedule optimization completed"
               [("total_users"%string, 3); ("optimized_count"%string, 3)]).
Proof.
  cbv zeta. repeat split; try (vm_compute; reflexivity).
  vm_compute. auto 10.
Qed.

(** The handler of the loop does not roll the session back. When the body
    of user 1 raises after its first assignment, nothing is committed for
    user 1 and the user is not counted; the commit of the next user then
    writes the assignment. With user 1 alone, it is lost. *)
Lemma assignment_of_a_failed_body :
  let job users :=
    AiTasks.optimize_users Sample.json_loads Sample.fromisoformat
      Sample.replies_with_bad_time users Sample.schedule_store in
  (ai_suggested_time_slot <$> db_tasks (fst (job Sample.users)) !! 11)
  = Some (Some 1000)
  /\ In (JobPlan.error_line (mkUser 1 true (Some true) Py.JNull)) (snd (job Sample.users))
  /\ last (snd (job Sample.users))
     = Some (mkLog INFO "Schedule optimization completed"
               [("total_users"%string, 3); ("optimized_count"%string, 2)])
  /\ (ai_suggested_time_slot <$>
        db_tasks (fst (job [mkUser 1 true (Some true) Py.JNull])) !! 11)
     = Some None.
Proof.
  cbv zeta. repeat split; try (vm_compute; reflexivity).
  vm_compute. auto 10.
Qed.

(** ** The task table under the operations of the service *)

Lemma fresh_id_above (m : gmap Z Task) (k : Z) :
  is_Some (m !! k) -> k < TaskService.fresh_id m.
Proof.
  unfold TaskService.fresh_id. revert k.
  apply (map_fold_weak_ind
           (fun r (m : gmap Z Task) => forall k, is_Some (m !! k) -> k < r + 1)).
  - intros k [x Hx]. rewrite lookup_empty in Hx. discriminate.
  - intros i x m' r Hnone IH k Hk.
    destruct (decide (i = k)) as [->|Hne]; [lia|].
    rewrite lookup_insert_ne in Hk by assumption.
    specialize (IH k Hk). lia.
Qed.

Lemma fresh_id_fresh (m : gmap Z Task) : m !! TaskService.fresh_id m = None.
Proof.
  destruct (m !! TaskService.fresh_id m) eqn:E; [|reflexivity].
  assert (H : is_Some (m !! TaskService.fresh_id m)) by eauto.
  apply fresh_id_above in H. lia.
Qed.

(** The insertion of a new row: under an id that the table does not have,
    unless the row names a parent that is in no row. *)
Lemma insert_task_spec (db : DB) (task : Task) :
  let id := TaskService.fresh_id (db_tasks db) in
  db_tasks db !! id = None
  /\ TaskService.insert_task db task
     = if Row.parent_known (db_tasks db) task
       then (with_tasks db (<[id := refresh db task]> (db_tasks db)), Py.Ok id)
       else (db, Py.Raise Py.IntegrityError).
Proof.
  cbv zeta. pose proof (fresh_id_fresh (db_tasks db)) as Hfresh.
  split; [exact Hfresh|].
  unfold TaskService.insert_task, Row.parent_known.
  destruct (parent_task_id task) as [p|]; [|reflexivity].
  destruct (decide (p = TaskService.fresh_id (db_tasks db))) as [->|Hne].
  - rewrite lookup_insert_eq, bool_decide_eq_true_2 by eauto.
    rewrite (bool_decide_eq_true_2 (_ = _)) by reflexivity.
    now rewrite orb_true_r.
  - rewrite lookup_insert_ne by congruence.
    rewrite (bool_decide_eq_false_2 (p = _)) by assumption.
    now rewrite orb_false_r.
Qed.

(** X1. [create_task] either raises before it writes, and leaves the store
    as it was, or adds one row under an id that the table did not have and
    touches nothing else. It raises before it writes in two cases: with
    [TypeError] when the request is [ai_generated] and its due date is
    aware, and with [IntegrityError] when the request names a parent that
    is in no row. The new row belongs to the caller, is pending and carries
    the title and the parent of the request, and it has the two scores
    exactly when the request is [ai_generated]; it is written as the
    session reads it back from the store. Once the row is written, the call
    returns the response of the row, or raises what that response raises,
    and [get_task] by the caller at the same clock reading does the
    same. *)
Theorem create_task_adds_one_row (now : datetime) (db : DB)
    (task_data : TaskCreate) (user : Z) :
  let id := TaskService.fresh_id (db_tasks db) in
  let call := TaskService.create_task now db task_data user in
  let aware_due :=
    match new_due_date task_data with
    | Some due => aware due
    | None => false
    end in
  db_tasks db !! id = None
  /\ db_dependencies (fst call) = db_dependencies db
  /\ (forall j, j <> id -> db_tasks (fst call) !! j = db_tasks db !! j)
  /\ Py.is_ok (TaskService.new_task now task_data user)
     = negb (new_ai_generated task_data && aware_due)
  /\ match TaskService.new_task now task_data user with
     | Py.Raise e => e = Py.TypeError /\ call = (db, Py.Raise Py.TypeError)
     | Py.Ok task =>
         user_id task = user
         /\ status task = Some PENDING
         /\ title task = Some (new_title task_data)
         /\ parent_task_id task = new_parent_task_id task_data
         /\ (is_Some (ai_priority_score task) <-> new_ai_generated task_data = true)
         /\ (is_Some (ai_complexity_score task) <-> new_ai_generated task_data = true)
         /\ if Row.parent_known (db_tasks db) task
            then fst call = with_tasks db (<[id := refresh db task]> (db_tasks db))
                 /\ snd call
                    = TaskService._task_to_response now (fst call) id (refresh db task)
                 /\ TaskService.get_task now (fst call) id user
                    = (let! response := snd call in Py.Ok (Some response))
            else call = (db, Py.Raise Py.IntegrityError)
     end.
Proof.
  cbv zeta.
  pose proof (fresh_id_fresh (db_tasks db)) as Hfresh.
  pose proof (new_task_spec now task_data user) as Hnew. cbv zeta in Hnew.
  unfold TaskService.create_task.
  destruct (new_ai_generated task_data
            && match new_due_date task_data with
               | Some due => aware due
               | None => false
               end) eqn:Hbad.
  - rewrite Hnew. simpl. repeat split; auto.
  - destruct Hnew as (task & -> & Ht & _ & Hs & _ & _ & _ & _ & _ & _ & Hu & Hp
                      & _ & _ & Hai & Hscores).
    destruct (insert_task_spec db task) as [_ ->].
    assert (Hmarks : (is_Some (ai_priority_score task)
                      <-> new_ai_generated task_data = true)
                     /\ (is_Some (ai_complexity_score task)
                         <-> new_ai_generated task_data = true)).
    { destruct (new_ai_generated task_data).
      - destruct Hscores as (score & _ & -> & ->). split; split; eauto.
      - destruct Hscores as [-> ->].
        split; (split; [intros [? ?]; discriminate | discriminate]). }
    destruct Hmarks as [Hm1 Hm2].
    destruct (Row.parent_known (db_tasks db) task); simpl.
    + split; [exact Hfresh|]. split; [reflexivity|].
      split; [intros j Hj; now rewrite lookup_insert_ne by congruence|].
      split; [reflexivity|].
      repeat (split; [assumption|]).
      split; [reflexivity|]. split; [reflexivity|].
      unfold TaskService.get_task, TaskService.find_task. simpl.
      rewrite lookup_insert_eq. simpl. rewrite Hu, Z.eqb_refl. reflexivity.
    + split; [exact Hfresh|]. split; [reflexivity|]. split; [reflexivity|].
      split; [reflexivity|].
      repeat (split; [assumption|]). reflexivity.
Qed.

Lemma update_completion_columns (now : datetime) (u : TaskUpdate) (t : Task) :
  let t' := TaskService.update_completion now u t in
  title t' = title t /\ status t' = status t /\ user_id t' = user_id t
  /\ created_at t' = created_at t /\ parent_task_id t' = parent_task_id t
  /\ ai_generated t' = ai_generated t
  /\ ai_priority_score t' = ai_priority_score t
  /\ ai_complexity_score t' = ai_complexity_score t
  /\ ai_suggested_time_slot t' = ai_suggested_time_slot t.
Proof.
  cbv zeta. unfold TaskService.update_completion.
  repeat case_match; repeat split.
Qed.

(** X2. An update by the owner that sets the status to [s], on a row that
    keeps a title: the row is written, its status is [s], its [updated_at]
    is the clock reading, and it has a completion timestamp exactly when
    [s] is [COMPLETED]; the timestamp is then the one that the row had, or
    the clock reading if it had none. The call returns the response of the
    row as written, or raises what that response raises, and [get_task]
    afterwards does the same. When the request sets the status to null, the
    row is written without a status and the call raises. *)
Theorem update_task_sets_status
    (now : datetime) (db : DB) (id user : Z) (task : Task) (u : TaskUpdate)
    (s : option TaskStatus) :
  TaskService.find_task db id user = Some task ->
  upd_status u = Some s ->
  is_Some (default (title task) (upd_title u)) ->
  exists db' task',
    TaskService.update_task now db id u user
    = (db', let! response := TaskService._task_to_response now db' id task' in
            Py.Ok (Some response))
    /\ db_tasks db' !! id = Some task'
    /\ status task' = s
    /\ updated_at task' = Some now
    /\ (is_Some (completed_at task') <-> s = Some COMPLETED)
    /\ (s = Some COMPLETED ->
        completed_at task' = Some (default now (completed_at task)))
    /\ TaskService.get_task now db' id user
       = snd (TaskService.update_task now db id u user)
    /\ (s = None ->
        Py.is_ok (snd (TaskService.update_task now db id u user)) = false).
Proof.
  intros Hfind Hs Htitle.
  pose proof (update_task_found now db id user task u Hfind Htitle) as Hcall.
  cbv zeta in Hcall.
  eexists _, _. split; [exact Hcall|].
  split; [simpl; apply lookup_insert_eq|].
  pose proof (update_with_status_timestamp now u task s Hs) as [Hst Hdone].
  cbv zeta in Hst, Hdone.
  split; [exact Hst|]. split; [reflexivity|]. split; [exact Hdone|].
  split; [|split].
  - intros ->. unfold TaskService.update_completion. rewrite Hs. simpl.
    destruct (completed_at task) as [d|] eqn:Hc; simpl.
    + exact Hc.
    + reflexivity.
  - rewrite Hcall. unfold TaskService.get_task, TaskService.find_task. simpl.
    rewrite lookup_insert_eq. simpl.
    destruct (update_completion_columns now u (TaskService.apply_update_data u task))
      as (_ & _ & Hu & _).
    cbv zeta in Hu. rewrite Hu. simpl.
    apply find_task_Some in Hfind as [_ Howner]. rewrite Howner, Z.eqb_refl.
    reflexivity.
  - intros ->. rewrite Hcall. simpl. rewrite task_to_response_spec.
    destruct (Row.naive_due _); [|reflexivity].
    assert (Hinvalid : forall t, status t = None -> TaskResponse_validates t = false).
    { intros t Ht. unfold TaskResponse_validates. rewrite Ht.
      rewrite (bool_decide_eq_false_2 (is_Some None)) by (intros [? ?]; discriminate).
      now rewrite !andb_false_r. }
    rewrite Hinvalid by exact Hst. reflexivity.
Qed.

Lemma update_task_sets_status_witness :
  exists db' task',
    TaskService.update_task 9 Sample.store 1
      (mkTaskUpdate None None (Some (Some IN_PROGRESS)) None None None None None
         None None None) 7
    = (db', let! response := TaskService._task_to_response 9 db' 1 task' in
            Py.Ok (Some response))
    /\ db_tasks db' !! 1 = Some task'
    /\ status task' = Some IN_PROGRESS
    /\ updated_at task' = Some 9
    /\ (is_Some (completed_at task') <-> Some IN_PROGRESS = Some COMPLETED)
    /\ (Some IN_PROGRESS = Some COMPLETED ->
        completed_at task'
        = Some (default 9 (completed_at (Sample.task 7 LOW None))))
    /\ TaskService.get_task 9 db' 1 7
       = snd (TaskService.update_task 9 Sample.store 1
                (mkTaskUpdate None None (Some (Some IN_PROGRESS)) None None None
                   None None None None None) 7)
    /\ (Some IN_PROGRESS = None ->
        Py.is_ok (snd (TaskService.update_task 9 Sample.store 1
                         (mkTaskUpdate None None (Some (Some IN_PROGRESS)) None
                            None None None None None None None) 7)) = false).
Proof.
  apply (update_task_sets_status 9 Sample.store 1 7 (Sample.task 7 LOW None)
           (mkTaskUpdate None None (Some (Some IN_PROGRESS)) None None None None
              None None None None) (Some IN_PROGRESS)).
  - reflexivity.
  - reflexivity.
  - simpl. eauto.
Defined.

(** On the sample store: setting the status to [IN_PROGRESS] returns a
    response; setting it to null writes the row and raises. *)
Lemma update_status_examples :
  let set s :=
    TaskService.update_task 9 Sample.store 1
      (mkTaskUpdate None None (Some s) None None None None None None None None) 7 in
  (fun r => status (resp_task r))
    <$> (Py.result_option (snd (set (Some IN_PROGRESS))) ≫= id)
  = Some (Some IN_PROGRESS)
  /\ snd (set None) = Py.Raise Py.ValueError
  /\ (status <$> db_tasks (fst (set None)) !! 1) = Some None.
Proof. cbv zeta. repeat split; vm_compute; reflexivity. Qed.

(** X3. Whatever the request and the caller, [update_task] creates no row
    and removes none, leaves every row other than the one addressed as it
    was, leaves the dependency table as it was, and never changes the
    owner, the creation time, the parent, the [ai_generated] mark, the two
    scores or the suggested time slot of a row. *)
Theorem update_task_frame
    (now : datetime) (db : DB) (id : Z) (u : TaskUpdate) (user : Z) :
  let db' := fst (TaskService.update_task now db id u user) in
  db_dependencies db' = db_dependencies db
  /\ (forall j, j <> id -> db_tasks db' !! j = db_tasks db !! j)
  /\ (forall j, is_Some (db_tasks db' !! j) <-> is_Some (db_tasks db !! j))
  /\ (forall j,
        (fun t => (user_id t, created_at t, parent_task_id t, ai_generated t,
                   ai_priority_score t, ai_complexity_score t,
                   ai_suggested_time_slot t)) <$> db_tasks db' !! j
        = (fun t => (user_id t, created_at t, parent_task_id t, ai_generated t,
                     ai_priority_score t, ai_complexity_score t,
                     ai_suggested_time_slot t)) <$> db_tasks db !! j).
Proof.
  cbv zeta. unfold TaskService.update_task, TaskService.commit_task.
  destruct (TaskService.find_task db id user) as [task|] eqn:Hfind;
    [|simpl; repeat split; auto].
  apply find_task_Some in Hfind as [Hrow _].
  destruct (title _) eqn:Ht; simpl; [|repeat split; auto].
  split; [reflexivity|]. split; [intros j Hj; now rewrite lookup_insert_ne|].
  split.
  - intros j. destruct (decide (id = j)) as [<-|Hne].
    + rewrite lookup_insert_eq, Hrow. split; eauto.
    + now rewrite lookup_insert_ne.
  - intros j. destruct (decide (id = j)) as [<-|Hne].
    + rewrite lookup_insert_eq, Hrow. simpl.
      destruct (update_completion_columns now u (TaskService.apply_update_data u task))
        as (_ & _ & H1 & H2 & H3 & H4 & H5 & H6 & H7).
      cbv zeta in *. rewrite H1, H2, H3, H4, H5, H6, H7. reflexivity.
    + now rewrite lookup_insert_ne.
Qed.

(** X5. Completing a task that has a title and no completion timestamp
    writes the row with the status [COMPLETED] and the clock reading as
    timestamp; completing it again later keeps the first timestamp, and
    moves [updated_at] only. Each call returns the response of the row that
    it has written, or raises what that response raises; a response of a
    completion shows 100 percent and is neither overdue nor due soon. *)
Theorem complete_task_keeps_first_timestamp
    (now1 now2 : datetime) (db : DB) (id user : Z) (task : Task) :
  TaskService.find_task db id user = Some task ->
  is_Some (title task) ->
  completed_at task = None ->
  exists db1 task1 db2 task2,
    TaskService.complete_task now1 db id user
    = (db1, let! response := TaskService._task_to_response now1 db1 id task1 in
            Py.Ok (Some response))
    /\ TaskService.complete_task now2 db1 id user
       = (db2, let! response := TaskService._task_to_response now2 db2 id task2 in
               Py.Ok (Some response))
    /\ db_tasks db1 !! id = Some task1
    /\ db_tasks db2 !! id = Some task2
    /\ status task1 = Some COMPLETED
    /\ status task2 = Some COMPLETED
    /\ completed_at task1 = Some now1
    /\ completed_at task2 = Some now1
    /\ updated_at task2 = Some now2
    /\ (forall r1,
          snd (TaskService.complete_task now1 db id user) = Py.Ok (Some r1) ->
          resp_task r1 = task1 /\ completion_percentage r1 = 100%float
          /\ is_overdue r1 = false /\ is_due_soon r1 = false).
Proof.
  intros Hfind Htitle Hnone.
  unfold TaskService.complete_task.
  set (u := mkTaskUpdate None None (Some (Some COMPLETED)) None None None None
              None None None None).
  pose proof (update_task_found now1 db id user task u Hfind Htitle) as Hcall1.
  cbv zeta in Hcall1.
  set (task1 := refresh db
                  (set_updated_at (Some now1)
                     (TaskService.update_completion now1 u
                        (TaskService.apply_update_data u task)))) in *.
  set (db1 := with_tasks db (<[id := task1]> (db_tasks db))) in *.
  assert (Hdone1 : completed_at task1 = Some now1).
  { unfold task1, TaskService.update_completion. simpl. rewrite Hnone. reflexivity. }
  assert (Hst1 : status task1 = Some COMPLETED).
  { unfold task1, TaskService.update_completion. simpl. rewrite Hnone. reflexivity. }
  assert (Hcols : title task1 = title task /\ user_id task1 = user_id task).
  { unfold task1, TaskService.update_completion. simpl. rewrite Hnone. split; reflexivity. }
  destruct Hcols as [Htitle1 Howner1].
  assert (Hfind1 : TaskService.find_task db1 id user = Some task1).
  { apply find_task_Some. split; [apply lookup_insert_eq|].
    rewrite Howner1. apply find_task_Some in Hfind as [_ H]. exact H. }
  assert (Ht1 : is_Some (default (title task1) (upd_title u))).
  { change (is_Some (title task1)). rewrite Htitle1. exact Htitle. }
  pose proof (update_task_found now2 db1 id user task1 u Hfind1 Ht1) as Hcall2.
  cbv zeta in Hcall2.
  set (task2 := refresh db1
                  (set_updated_at (Some now2)
                     (TaskService.update_completion now2 u
                        (TaskService.apply_update_data u task1)))) in *.
  set (db2 := with_tasks db1 (<[id := task2]> (db_tasks db1))) in *.
  assert (Hdone2 : completed_at task2 = Some now1 /\ status task2 = Some COMPLETED).
  { assert (Hagain : forall t, completed_at t = Some now1 ->
              completed_at (refresh db1
                              (set_updated_at (Some now2)
                                 (TaskService.update_completion now2 u
                                    (TaskService.apply_update_data u t)))) = Some now1
              /\ status (refresh db1
                           (set_updated_at (Some now2)
                              (TaskService.update_completion now2 u
                                 (TaskService.apply_update_data u t))))
                 = Some COMPLETED).
    { intros t Ht. unfold TaskService.update_completion. simpl. rewrite Ht. simpl.
      split; [exact Ht | reflexivity]. }
    exact (Hagain task1 Hdone1). }
  destruct Hdone2 as [Hdone2 Hst2].
  exists db1, task1, db2, task2.
  split; [exact Hcall1|]. split; [exact Hcall2|].
  split; [apply lookup_insert_eq|]. split; [apply lookup_insert_eq|].
  split; [exact Hst1|]. split; [exact Hst2|].
  split; [exact Hdone1|]. split; [exact Hdone2|].
  split; [reflexivity|].
  intros r1. rewrite Hcall1. simpl.
  destruct (TaskService._task_to_response now1 db1 id task1) as [r|e] eqn:Hr;
    simpl; [|discriminate].
  intros [= <-]. apply task_to_response_Ok in Hr as (_ & _ & ->).
  unfold Row.response, resp_task, completion_percentage, is_overdue,
    is_due_soon, py_ne.
  rewrite !Hst1.
  rewrite !(bool_decide_eq_true_2 (Some COMPLETED = Some COMPLETED)) by reflexivity.
  split; [reflexivity|]. split; [reflexivity|].
  destruct (due_instant task1); simpl; rewrite ?andb_false_r; auto.
Qed.

Lemma complete_task_keeps_first_timestamp_witness :
  exists db1 task1 db2 task2,
    TaskService.complete_task 9 Sample.store 1 7
    = (db1, let! response := TaskService._task_to_response 9 db1 1 task1 in
            Py.Ok (Some response))
    /\ TaskService.complete_task 20 db1 1 7
       = (db2, let! response := TaskService._task_to_response 20 db2 1 task2 in
               Py.Ok (Some response))
    /\ db_tasks db1 !! 1 = Some task1
    /\ db_tasks db2 !! 1 = Some task2
    /\ status task1 = Some COMPLETED
    /\ status task2 = Some COMPLETED
    /\ completed_at task1 = Some 9
    /\ completed_at task2 = Some 9
    /\ updated_at task2 = Some 20
    /\ (forall r1,
          snd (TaskService.complete_task 9 Sample.store 1 7) = Py.Ok (Some r1) ->
          resp_task r1 = task1 /\ completion_percentage r1 = 100%float
          /\ is_overdue r1 = false /\ is_due_soon r1 = false).
Proof.
  apply (complete_task_keeps_first_timestamp 9 20 Sample.store 1 7
           (Sample.task 7 LOW None)).
  - reflexivity.
  - simpl. eauto.
  - reflexivity.
Defined.

(** X4. A task of the caller to which no dependency row and no subtask
    refers: [delete_task] answers [True] and removes the row, every other
    row stays as it was; afterwards [get_task] finds nothing under the id
    and a second [delete_task] answers [False] and changes nothing. *)
Theorem delete_task_removes_the_row
    (now : datetime) (db : DB) (id user : Z) (task : Task) :
  TaskService.find_task db id user = Some task ->
  (forall d, In d (db_dependencies db) ->
             dep_task_id d <> id /\ dep_depends_on_id d <> id) ->
  (forall j t, db_tasks db !! j = Some t -> parent_task_id t <> Some id) ->
  exists db',
    TaskService.delete_task db id user = (db', true)
    /\ db_tasks db' !! id = None
    /\ (forall j, j <> id -> db_tasks db' !! j = db_tasks db !! j)
    /\ TaskService.get_task now db' id user = Py.Ok None
    /\ TaskService.delete_task db' id user = (db', false).
Proof.
  intros Hfind _ _. unfold TaskService.delete_task. rewrite Hfind.
  eexists. split; [reflexivity|]. simpl.
  split; [apply lookup_delete_eq|].
  split; [intros j Hj; now apply lookup_delete_ne|].
  unfold TaskService.get_task, TaskService.find_task. simpl.
  rewrite lookup_delete_eq. split; reflexivity.
Qed.

Lemma delete_task_removes_the_row_witness :
  exists db',
    TaskService.delete_task Sample.store 1 7 = (db', true)
    /\ db_tasks db' !! 1 = None
    /\ (forall j, j <> 1 -> db_tasks db' !! j = db_tasks Sample.store !! j)
    /\ TaskService.get_task 9 db' 1 7 = Py.Ok None
    /\ TaskService.delete_task db' 1 7 = (db', false).
Proof.
  apply (delete_task_removes_the_row 9 Sample.store 1 7 (Sample.task 7 LOW None)).
  - reflexivity.
  - intros d [].
  - intros j t Hrow Hparent.
    assert (Hall : map_Forall (fun _ t => parent_task_id t = None)
                     (db_tasks Sample.store)).
    { unfold Sample.store. simpl.
      repeat (apply map_Forall_insert_2; [reflexivity|]).
      apply map_Forall_empty. }
    specialize (Hall j t Hrow). simpl in Hall. congruence.
Defined.

(** ** Dependency rows *)

Lemma fresh_dep_id_above (deps : list TaskDependency) (d : TaskDependency) :
  In d deps -> dep_id d < TaskService.fresh_dep_id deps.
Proof.
  unfold TaskService.fresh_dep_id.
  induction deps as [|x deps IH]; simpl; [contradiction|].
  intros [->|Hin]; [lia|]. specialize (IH Hin). lia.
Qed.

(** The two ways in which [add_task_dependency] ends without raising on
    more than one reverse row: it refuses and changes nothing, or it
    appends the row. *)
Lemma add_task_dependency_outcome (db : DB) (a b user : Z) :
  let new := mkDep (TaskService.fresh_dep_id (db_dependencies db)) a b
               "finish_to_start" in
  (fst (TaskService.add_task_dependency db a b user) = db
   /\ forall dep, snd (TaskService.add_task_dependency db a b user)
                  <> Py.Ok (Some dep))
  \/ (a <> b
      /\ is_Some (TaskService.find_task db a user)
      /\ is_Some (TaskService.find_task db b user)
      /\ (forall d, In d (db_dependencies db) ->
                    ~ (dep_task_id d = b /\ dep_depends_on_id d = a))
      /\ TaskService.add_task_dependency db a b user
         = (with_dependencies db (db_dependencies db ++ [new]), Py.Ok (Some new))).
Proof.
  cbv zeta.
  destruct (decide (a = b)) as [->|Hab].
  { left. rewrite self_dependency_is_rejected. split; [reflexivity | discriminate]. }
  destruct (TaskService.find_task db a user) as [ta|] eqn:Ha.
  2:{ left. unfold TaskService.add_task_dependency. rewrite ownership_check, Ha.
      rewrite (bool_decide_eq_false_2 (is_Some None)) by (intros [? ?]; congruence).
      rewrite andb_false_r. simpl. split; [reflexivity | discriminate]. }
  destruct (TaskService.find_task db b user) as [tb|] eqn:Hb.
  2:{ left. unfold TaskService.add_task_dependency. rewrite ownership_check, Hb.
      rewrite (bool_decide_eq_false_2 (is_Some None)) by (intros [? ?]; congruence).
      rewrite andb_false_r. simpl. split; [reflexivity | discriminate]. }
  destruct (List.filter
              (fun d => (dep_task_id d =? b) && (dep_depends_on_id d =? a))
              (db_dependencies db)) as [|d rest] eqn:Hrev.
  - right. split; [exact Hab|]. rewrite <- Ha, <- Hb.
    assert (Hnone : forall d, In d (db_dependencies db) ->
                              ~ (dep_task_id d = b /\ dep_depends_on_id d = a)).
    { intros d Hin [H1 H2].
      assert (Hd : In d (List.filter
                           (fun d => (dep_task_id d =? b) && (dep_depends_on_id d =? a))
                           (db_dependencies db))).
      { apply filter_In. split; [exact Hin|]. rewrite H1, H2, !Z.eqb_refl. reflexivity. }
      rewrite Hrev in Hd. exact Hd. }
    rewrite Ha, Hb. split; [eauto|]. split; [eauto|]. split; [exact Hnone|].
    apply add_task_dependency_accepts; try rewrite Ha; try rewrite Hb; eauto.
  - left.
    assert (Hd : In d (db_dependencies db)
                 /\ dep_task_id d = b /\ dep_depends_on_id d = a).
    { assert (H : In d (d :: rest)) by now left.
      rewrite <- Hrev in H. apply filter_In in H as [Hin H].
      apply andb_true_iff in H as [H1 H2]. split; [exact Hin|]. split; lia. }
    destruct Hd as (Hin & H1 & H2).
    exact (direct_reverse_edge_is_rejected db a b user d Hin H1 H2).
Qed.

(** X6. [add_task_dependency] returns a dependency exactly when the two
    ids differ, both tasks belong to the caller and the table has no row
    for the reverse edge; the row is then appended to the table under an id
    that no row had, with the type [finish_to_start]. In every other case
    the dependency table stays as it was. The task table is never
    touched. *)
Theorem add_task_dependency_characterised (db : DB) (a b user : Z) :
  let r := TaskService.add_task_dependency db a b user in
  let new := mkDep (TaskService.fresh_dep_id (db_dependencies db)) a b
               "finish_to_start" in
  (forall dep,
     snd r = Py.Ok (Some dep) <->
     (a <> b
      /\ is_Some (TaskService.find_task db a user)
      /\ is_Some (TaskService.find_task db b user)
      /\ (forall d, In d (db_dependencies db) ->
                    ~ (dep_task_id d = b /\ dep_depends_on_id d = a))
      /\ dep = new))
  /\ db_tasks (fst r) = db_tasks db
  /\ db_dependencies (fst r)
     = match snd r with
       | Py.Ok (Some dep) => db_dependencies db ++ [dep]
       | _ => db_dependencies db
       end
  /\ (forall d, In d (db_dependencies db) -> dep_id d <> dep_id new).
Proof.
  cbv zeta.
  destruct (add_task_dependency_outcome db a b user)
    as [[Hdb Hno] | (Hab & Ha & Hb & Hnone & Hcall)]; cbv zeta in *.
  - split; [|split; [|split]].
    + intros dep. split; [intros H; now apply Hno in H|].
      intros (Hab & Ha & Hb & Hnone & ->).
      rewrite (add_task_dependency_accepts db a b user Ha Hb Hab Hnone) in Hno.
      exfalso. exact (Hno _ eq_refl).
    + now rewrite Hdb.
    + rewrite Hdb.
      destruct (snd (TaskService.add_task_dependency db a b user)) as [[dep|]|e];
        try reflexivity.
      exfalso. exact (Hno dep eq_refl).
    + intros d Hin. simpl. pose proof (fresh_dep_id_above _ d Hin). lia.
  - rewrite Hcall. simpl. split; [|split; [|split]].
    + intros dep. split.
      * intros [= <-]. auto.
      * intros (_ & _ & _ & _ & ->). reflexivity.
    + reflexivity.
    + reflexivity.
    + intros d Hin. pose proof (fresh_dep_id_above _ d Hin). lia.
Qed.

Lemma add_task_dependency_no_short_cycle (db : DB) (a b user : Z) :
  Graph.no_short_cycle (db_dependencies db) ->
  Graph.no_short_cycle
    (db_dependencies (fst (TaskService.add_task_dependency db a b user))).
Proof.
  intros Hinv.
  destruct (add_task_dependency_outcome db a b user)
    as [[Hdb _] | (Hab & _ & _ & Hnone & Hcall)]; cbv zeta in *.
  { now rewrite Hdb. }
  rewrite Hcall. simpl.
  intros d1 d2 H1 H2 [Hx Hy].
  apply in_app_iff in H1 as [H1|[<-|[]]]; apply in_app_iff in H2 as [H2|[<-|[]]];
    simpl in *.
  - exact (Hinv d1 d2 H1 H2 (conj Hx Hy)).
  - apply (Hnone d1 H1). split; congruence.
  - apply (Hnone d2 H2). split; congruence.
  - congruence.
Qed.

(** X7. What the check of [add_task_dependency] does keep out: if no edge
    of the table has its reverse in the table and no edge leads from a task
    to itself, then the same holds after any sequence of
    [add_task_dependency] calls, accepted or not. *)
Theorem dependency_table_keeps_no_short_cycle
    (db : DB) (user : Z) (requests : list (Z * Z)) :
  Graph.no_short_cycle (db_dependencies db) ->
  Graph.no_short_cycle (db_dependencies (fst (Graph.add_all db user requests))).
Proof.
  revert db. induction requests as [|[a b] rest IH]; intros db Hinv; [exact Hinv|].
  simpl.
  pose proof (add_task_dependency_no_short_cycle db a b user Hinv) as Hstep.
  destruct (TaskService.add_task_dependency db a b user) as [db' answer].
  specialize (IH db' Hstep).
  destruct (Graph.add_all db' user rest) as [db'' answers]. exact IH.
Qed.

Lemma dependency_table_keeps_no_short_cycle_witness :
  Graph.no_short_cycle
    (db_dependencies
       (fst (Graph.add_all Sample.chain_store 7 [(2, 1); (3, 1); (3, 3)]))).
Proof.
  apply (dependency_table_keeps_no_short_cycle Sample.chain_store 7
           [(2, 1); (3, 1); (3, 3)]).
  intros d1 d2 H1 H2 [Hx Hy]. simpl in H1, H2.
  destruct H1 as [<-|[<-|[]]]; destruct H2 as [<-|[<-|[]]]; simpl in *; lia.
Defined.

Lemma dependency_rows_app (tasks : gmap Z Task) (l1 l2 : list TaskDependency) :
  TaskService.dependency_rows tasks (l1 ++ l2)
  = let! r1 := TaskService.dependency_rows tasks l1 in
    let! r2 := TaskService.dependency_rows tasks l2 in
    Py.Ok (r1 ++ r2).
Proof.
  induction l1 as [|d l1 IH]; simpl.
  - destruct (TaskService.dependency_rows tasks l2); reflexivity.
  - destruct (tasks !! dep_depends_on_id d); [|reflexivity].
    rewrite IH.
    destruct (TaskService.dependency_rows tasks l1); [|reflexivity]. simpl.
    destruct (TaskService.dependency_rows tasks l2); reflexivity.
Qed.

Lemma dependency_rows_length (tasks : gmap Z Task) (deps : list TaskDependency)
    (infos : list TaskService.DependencyInfo) :
  TaskService.dependency_rows tasks deps = Py.Ok infos ->
  map TaskService.info_depends_on_id infos = map dep_depends_on_id deps.
Proof.
  revert infos. induction deps as [|d deps IH]; simpl; intros infos H.
  - injection H as <-. reflexivity.
  - destruct (tasks !! dep_depends_on_id d); [|discriminate].
    destruct (TaskService.dependency_rows tasks deps) as [r|]; [|discriminate].
    simpl in H. injection H as <-. simpl. now rewrite (IH r).
Qed.

(** X8. [get_task_dependencies] answers the empty list for a task that is
    missing or belongs to another user. For a task of the caller whose
    listing succeeds, the list names, in the order of the table, the
    targets of exactly the rows whose [task_id] is the task. Once
    [add_task_dependency] has returned a dependency for the pair, the
    listing of the task is the former listing followed by one entry for the
    new row, with the title and the status of the task depended on. *)
Theorem get_task_dependencies_lists_the_rows
    (db : DB) (a b user : Z) (foreign : Z) :
  (TaskService.find_task db foreign user = None ->
   TaskService.get_task_dependencies db foreign user = Py.Ok [])
  /\ (forall infos,
        is_Some (TaskService.find_task db a user) ->
        TaskService.get_task_dependencies db a user = Py.Ok infos ->
        map TaskService.info_depends_on_id infos
        = map dep_depends_on_id
            (List.filter (fun d => dep_task_id d =? a) (db_dependencies db)))
  /\ (forall db' dep infos target,
        TaskService.add_task_dependency db a b user = (db', Py.Ok (Some dep)) ->
        TaskService.get_task_dependencies db a user = Py.Ok infos ->
        db_tasks db !! b = Some target ->
        TaskService.get_task_dependencies db' a user
        = Py.Ok (infos ++ [TaskService.mkDependencyInfo (dep_id dep) b
                             (title target) (status target) "finish_to_start"])).
Proof.
  split; [|split].
  - intros Hnone. unfold TaskService.get_task_dependencies. now rewrite Hnone.
  - intros infos [t Hfind] Hget. unfold TaskService.get_task_dependencies in Hget.
    rewrite Hfind in Hget. now apply dependency_rows_length in Hget.
  - intros db' dep infos target Hadd Hget Hrow.
    destruct (add_task_dependency_outcome db a b user)
      as [[_ Hno] | (_ & [ta Ha] & _ & _ & Hcall)]; cbv zeta in *.
    { exfalso. apply (Hno dep). now rewrite Hadd. }
    rewrite Hcall in Hadd. injection Hadd as <- <-.
    assert (Htasks : db_tasks (with_dependencies db
                                 (db_dependencies db
                                  ++ [mkDep (TaskService.fresh_dep_id (db_dependencies db))
                                        a b "finish_to_start"]))
                     = db_tasks db) by reflexivity.
    assert (Hdeps : db_dependencies
                      (with_dependencies db
                         (db_dependencies db
                          ++ [mkDep (TaskService.fresh_dep_id (db_dependencies db))
                                a b "finish_to_start"]))
                    = db_dependencies db
                      ++ [mkDep (TaskService.fresh_dep_id (db_dependencies db))
                            a b "finish_to_start"]) by reflexivity.
    set (db' := with_dependencies db _) in *.
    unfold TaskService.get_task_dependencies in *.
    assert (Hfind' : TaskService.find_task db' a user = Some ta).
    { unfold TaskService.find_task in *. now rewrite Htasks. }
    rewrite Hfind'. rewrite Ha in Hget. rewrite Htasks, Hdeps.
    rewrite List.filter_app, dependency_rows_app, Hget. simpl.
    rewrite Z.eqb_refl. simpl. rewrite Hrow. reflexivity.
Qed.

(** ** Subtasks *)

Lemma select_tasks_insert_length (cond : Z -> Task -> bool) (db : DB) (id : Z)
    (t : Task) :
  db_tasks db !! id = None ->
  length (select_tasks cond (with_tasks db (<[id := t]> (db_tasks db))))
  = (length (select_tasks cond db) + (if cond id t then 1 else 0))%nat.
Proof.
  intros Hnone. unfold select_tasks. simpl.
  rewrite (filter_length_perm _ _ _ (map_to_list_insert (db_tasks db) id t Hnone)).
  simpl. destruct (cond id t); simpl; lia.
Qed.

(** [create_task] for a subtask whose title has 1 to 200 characters: the
    row that it writes, and the response that it returns, when the parent
    is in the table. *)
Lemma create_subtask (now : datetime) (db : DB) (title' : string) (parent user : Z) :
  (1 <= String.length title' <= 200)%nat ->
  let data := mkTaskCreate title' None MEDIUM None None None [] None None
                (Some parent) true in
  let row := mkTask (Some title') None (Some PENDING) (Some MEDIUM) None None
               None None (Some []) None None true (Some 50) (Some 30) None user
               (Some parent) now None None in
  let id := TaskService.fresh_id (db_tasks db) in
  let db' := with_tasks db (<[id := row]> (db_tasks db)) in
  TaskService.create_task now db data user
  = if bool_decide (is_Some (db_tasks db !! parent)) || bool_decide (parent = id)
    then (db', Py.Ok (Row.response now db' id row))
    else (db, Py.Raise Py.IntegrityError).
Proof.
  intros Hlen. cbv zeta. unfold TaskService.create_task.
  change (TaskService.new_task now
            (mkTaskCreate title' None MEDIUM None None None [] None None
               (Some parent) true) user)
    with (Py.Ok (mkTask (Some title') None (Some PENDING) (Some MEDIUM) None None
                   None None (Some []) None None true (Some 50) (Some 30) None user
                   (Some parent) now None None)).
  cbv iota beta.
  destruct (insert_task_spec db
              (mkTask (Some title') None (Some PENDING) (Some MEDIUM) None None
                 None None (Some []) None None true (Some 50) (Some 30) None user
                 (Some parent) now None None)) as [_ ->].
  unfold Row.parent_known. simpl parent_task_id. cbv iota beta.
  change (refresh db
            (mkTask (Some title') None (Some PENDING) (Some MEDIUM) None None
               None None (Some []) None None true (Some 50) (Some 30) None user
               (Some parent) now None None))
    with (mkTask (Some title') None (Some PENDING) (Some MEDIUM) None None
            None None (Some []) None None true (Some 50) (Some 30) None user
            (Some parent) now None None).
  destruct (_ || _); [|reflexivity].
  rewrite task_to_response_spec.
  assert (Hvalid : TaskResponse_validates
                     (mkTask (Some title') None (Some PENDING) (Some MEDIUM) None None
                        None None (Some []) None None true (Some 50) (Some 30) None
                        user (Some parent) now None None) = true).
  { unfold TaskResponse_validates. cbn [title].
    destruct (Nat.leb_spec 1 (String.length title'));
      destruct (Nat.leb_spec (String.length title') 200);
      try reflexivity; lia. }
  rewrite Hvalid. reflexivity.
Qed.

Lemma create_subtasks_known_parent (titles : list string) :
  forall (clock : nat -> datetime) (db : DB) (parent user : Z),
    Forall (fun t => (1 <= String.length t <= 200)%nat) titles ->
    is_Some (db_tasks db !! parent) ->
    exists db',
      TaskService.create_subtasks clock db parent titles user = (db', Py.Ok tt)
      /\ db_dependencies db' = db_dependencies db
      /\ (forall id t, db_tasks db !! id = Some t -> db_tasks db' !! id = Some t)
      /\ (forall id t, db_tasks db' !! id = Some t -> db_tasks db !! id = None ->
            exists title' k,
              In title' titles
              /\ t = mkTask (Some title') None (Some PENDING) (Some MEDIUM) None
                       None None None (Some []) None None true (Some 50) (Some 30)
                       None user (Some parent) (clock k) None None)
      /\ length (select_tasks (fun _ t => sql_eq (parent_task_id t) parent) db')
         = (length (select_tasks (fun _ t => sql_eq (parent_task_id t) parent) db)
            + length titles)%nat
      /\ (forall bad rest,
            (String.length bad < 1 \/ 200 < String.length bad)%nat ->
            TaskService.create_subtasks clock db parent (titles ++ bad :: rest) user
            = (db', Py.Raise Py.ValueError)).
Proof.
  induction titles as [|title' titles IH]; intros clock db parent user Hvalid Hparent.
  - exists db. simpl. split; [reflexivity|]. split; [reflexivity|].
    split; [auto|]. split; [intros id t H1 H2; congruence|].
    split; [lia|].
    intros bad rest Hbad. unfold TaskService.subtask_data.
    destruct (Nat.leb_spec 1 (String.length bad));
      destruct (Nat.leb_spec (String.length bad) 200); simpl; try reflexivity; lia.
  - apply Forall_cons in Hvalid as [Hhead Hvalid].
    assert (Hdata : TaskService.subtask_data title' parent
                    = Py.Ok (mkTaskCreate title' None MEDIUM None None None [] None
                               None (Some parent) true)).
    { unfold TaskService.subtask_data.
      destruct (Nat.leb_spec 1 (String.length title'));
        destruct (Nat.leb_spec (String.length title') 200); simpl;
        try reflexivity; lia. }
    pose proof (create_subtask (clock 0%nat) db title' parent user Hhead) as Hcreate.
    cbv zeta in Hcreate.
    rewrite (bool_decide_eq_true_2 _ Hparent) in Hcreate. simpl in Hcreate.
    pose proof (fresh_id_fresh (db_tasks db)) as Hfresh.
    set (id0 := TaskService.fresh_id (db_tasks db)) in *.
    set (row := mkTask (Some title') None (Some PENDING) (Some MEDIUM) None None
                  None None (Some []) None None true (Some 50) (Some 30) None user
                  (Some parent) (clock 0%nat) None None) in *.
    set (db1 := with_tasks db (<[id0 := row]> (db_tasks db))) in *.
    assert (Hparent1 : is_Some (db_tasks db1 !! parent)).
    { destruct Hparent as [t Ht]. exists t. simpl.
      rewrite lookup_insert_ne; [exact Ht | congruence]. }
    destruct (IH (fun k => clock (S k)) db1 parent user Hvalid Hparent1)
      as (db' & Hcall & Hdeps' & Hkeep' & Hnew' & Hcount' & Hbad').
    exists db'.
    split; [simpl; rewrite Hdata, Hcreate; exact Hcall|].
    split; [exact Hdeps'|]. split; [|split; [|split]].
    + intros id t Hid. apply Hkeep'. simpl.
      rewrite lookup_insert_ne; [exact Hid | congruence].
    + intros id t Hid Hnone.
      destruct (decide (id = id0)) as [->|Hne].
      * exists title', 0%nat. split; [now left|].
        assert (Hstored : db_tasks db' !! id0 = Some row).
        { apply Hkeep'. simpl. apply lookup_insert_eq. }
        rewrite Hstored in Hid. injection Hid as <-. reflexivity.
      * destruct (Hnew' id t Hid) as (title'' & k & Hin & ->).
        { simpl. now rewrite lookup_insert_ne by congruence. }
        exists title'', (S k). split; [now right | reflexivity].
    + rewrite Hcount'. unfold db1.
      rewrite select_tasks_insert_length by exact Hfresh.
      unfold row, sql_eq, parent_task_id.
      rewrite bool_decide_eq_true_2 by reflexivity. simpl length. lia.
    + intros bad rest Hbad. simpl. rewrite Hdata, Hcreate.
      exact (Hbad' bad rest Hbad).
Qed.

(** X9. [create_subtasks] for a parent that is in the table, with titles
    of 1 to 200 characters, returns normally. It leaves every row that was
    there as it was and adds one row for each title: a pending task of the
    caller under the given parent, of medium priority, marked
    [ai_generated], with priority score 50 and complexity score 30. The
    subtask count that a response shows for the parent grows by the number
    of titles; whether the parent belongs to the caller is not looked at. A
    title outside the bounds makes the call raise at that title, and the
    subtasks created before it stay. For a parent that is in no row, the
    first insertion raises [IntegrityError] and nothing is written. *)
Theorem create_subtasks_adds_children
    (titles : list string) (clock : nat -> datetime) (db : DB) (parent user : Z) :
  Forall (fun t => (1 <= String.length t <= 200)%nat) titles ->
  if bool_decide (is_Some (db_tasks db !! parent))
  then
    exists db',
      TaskService.create_subtasks clock db parent titles user = (db', Py.Ok tt)
      /\ db_dependencies db' = db_dependencies db
      /\ (forall id t, db_tasks db !! id = Some t -> db_tasks db' !! id = Some t)
      /\ (forall id t, db_tasks db' !! id = Some t -> db_tasks db !! id = None ->
            exists title' k,
              In title' titles
              /\ t = mkTask (Some title') None (Some PENDING) (Some MEDIUM) None
                       None None None (Some []) None None true (Some 50) (Some 30)
                       None user (Some parent) (clock k) None None)
      /\ (forall now task r r',
            TaskService._task_to_response now db parent task = Py.Ok r ->
            TaskService._task_to_response now db' parent task = Py.Ok r' ->
            subtask_count r' = (subtask_count r + length titles)%nat)
      /\ (forall bad rest,
            (String.length bad < 1 \/ 200 < String.length bad)%nat ->
            TaskService.create_subtasks clock db parent (titles ++ bad :: rest) user
            = (db', Py.Raise Py.ValueError))
  else
    titles <> [] -> parent <> TaskService.fresh_id (db_tasks db) ->
    TaskService.create_subtasks clock db parent titles user
    = (db, Py.Raise Py.IntegrityError).
Proof.
  intros Hvalid. case_bool_decide as Hparent.
  - destruct (create_subtasks_known_parent titles clock db parent user Hvalid Hparent)
      as (db' & Hcall & Hdeps & Hkeep & Hnew & Hcount & Hbad).
    exists db'. repeat (split; [assumption|]). split; [|exact Hbad].
    intros now task r r' Hr Hr'.
    apply task_to_response_Ok in Hr as (_ & _ & ->).
    apply task_to_response_Ok in Hr' as (_ & _ & ->).
    simpl. exact Hcount.
  - intros Hsome Hfresh. destruct titles as [|title' titles]; [contradiction|].
    apply Forall_cons in Hvalid as [Hhead _].
    simpl. unfold TaskService.subtask_data.
    destruct (Nat.leb_spec 1 (String.length title'));
      destruct (Nat.leb_spec (String.length title') 200); simpl; try lia.
    rewrite (create_subtask (clock 0%nat) db title' parent user Hhead).
    rewrite (bool_decide_eq_false_2 _ Hparent).
    rewrite (bool_decide_eq_false_2 _ Hfresh). reflexivity.
Qed.

Lemma create_subtasks_adds_children_witness :
  if bool_decide (is_Some (db_tasks Sample.store !! 1))
  then
    exists db',
      TaskService.create_subtasks (fun k => 10 + Z.of_nat k) Sample.store 1
        ["outline"; "draft"]%string 7
      = (db', Py.Ok tt)
      /\ db_dependencies db' = db_dependencies Sample.store
      /\ (forall id t, db_tasks Sample.store !! id = Some t ->
                       db_tasks db' !! id = Some t)
      /\ (forall id t, db_tasks db' !! id = Some t ->
                       db_tasks Sample.store !! id = None ->
            exists title' k,
              In title' ["outline"; "draft"]%string
              /\ t = mkTask (Some title') None (Some PENDING) (Some MEDIUM) None
                       None None None (Some []) None None true (Some 50) (Some 30)
                       None 7 (Some 1) (10 + Z.of_nat k) None None)
      /\ (forall now task r r',
            TaskService._task_to_response now Sample.store 1 task = Py.Ok r ->
            TaskService._task_to_response now db' 1 task = Py.Ok r' ->
            subtask_count r'
            = (subtask_count r + length ["outline"; "draft"]%string)%nat)
      /\ (forall bad rest,
            (String.length bad < 1 \/ 200 < String.length bad)%nat ->
            TaskService.create_subtasks (fun k => 10 + Z.of_nat k) Sample.store 1
              (["outline"; "draft"]%string ++ bad :: rest) 7
            = (db', Py.Raise Py.ValueError))
  else
    ["outline"; "draft"]%string <> [] ->
    1 <> TaskService.fresh_id (db_tasks Sample.store) ->
    TaskService.create_subtasks (fun k => 10 + Z.of_nat k) Sample.store 1
      ["outline"; "draft"]%string 7
    = (Sample.store, Py.Raise Py.IntegrityError).
Proof.
  apply (create_subtasks_adds_children ["outline"; "draft"]%string
           (fun k => 10 + Z.of_nat k) Sample.store 1 7).
  repeat constructor; simpl; lia.
Defined.

(** On the sample store: two subtasks under task 1 get the ids 5 and 6;
    under the id 9, which is in no row, the call raises and writes
    nothing. *)
Lemma create_subtasks_examples :
  let call parent :=
    TaskService.create_subtasks (fun k => 10 + Z.of_nat k) Sample.store parent
      ["outline"; "draft"]%string 7 in
  snd (call 1) = Py.Ok tt
  /\ (parent_task_id <$> db_tasks (fst (call 1)) !! 5) = Some (Some 1)
  /\ (parent_task_id <$> db_tasks (fst (call 1)) !! 6) = Some (Some 1)
  /\ call 9 = (Sample.store, Py.Raise Py.IntegrityError).
Proof. cbv zeta. repeat split; vm_compute; reflexivity. Qed.

(** ** Listings and the computed fields *)

(** X10. The flags of a response against the filters of a listing, at one
    clock reading. A response that is overdue is due soon. Every response
    of a listing with the overdue filter is flagged overdue, and due soon.
    A response of a listing with the due-soon filter, which reaches seven
    days ahead, is flagged due soon exactly when its due date is at most
    three days ahead. For a task without a status whose due date has
    passed, [get_task] raises instead of returning a response, and the
    query of the overdue listing does not select the task. *)
Theorem flags_and_filters
    (ilike : string -> string -> bool) (now : datetime) (db : DB) (user : Z)
    (skip limit : nat) :
  (forall id task r,
     TaskService._task_to_response now db id task = Py.Ok r ->
     is_overdue r = true -> is_due_soon r = true)
  /\ (forall page total r,
        TaskService.get_user_tasks ilike now db user skip limit
          (Some overdue_filter) = Py.Ok (page, total) ->
        In r page ->
        is_overdue r = true /\ is_due_soon r = true)
  /\ (forall page total r,
        TaskService.get_user_tasks ilike now db user skip limit
          (Some due_soon_filter) = Py.Ok (page, total) ->
        In r page ->
        (is_due_soon r = true <->
         exists due, due_instant (resp_task r) = Some due
                     /\ due <= now + 3 * day_us))
  /\ (forall id task due,
        db_tasks db !! id = Some task -> user_id task = user ->
        status task = None -> due_instant task = Some due -> due < now ->
        Py.is_ok (TaskService.get_task now db id user) = false
        /\ ~ In (id, task)
               (TaskService.matching ilike now db user (Some overdue_filter))).
Proof.
  assert (Hflag : forall id task,
            is_overdue (Row.response now db id task) = true ->
            is_due_soon (Row.response now db id task) = true).
  { intros id task. simpl. destruct (due_instant task) as [due|]; [|discriminate].
    rewrite !andb_true_iff, Z.ltb_lt, Z.leb_le. unfold timedelta_of_days, day_us.
    intros [H1 H2]. split; [lia | exact H2]. }
  split; [|split; [|split]].
  - intros id task r Hr. apply task_to_response_Ok in Hr as (_ & _ & ->).
    apply Hflag.
  - intros page total r Hcall Hin.
    destruct (get_user_tasks_sound ilike now db user skip limit _ page total r
                Hcall Hin) as [Hmatch Hr].
    remember (resp_id r) as id eqn:Hid. remember (resp_task r) as task eqn:Htask.
    clear Hid Htask. subst r.
    assert (Hover : is_overdue (Row.response now db id task) = true).
    { apply overdue_filter_selects in Hmatch
        as (_ & _ & due & s & Hdue & Hpast & Hs & Hne).
      simpl. rewrite Hdue, Hs. unfold py_ne.
      rewrite (proj2 (Z.ltb_lt due now) Hpast).
      apply negb_true_iff, bool_decide_eq_false_2. congruence. }
    split; [exact Hover | now apply Hflag].
  - intros page total r Hcall Hin.
    destruct (get_user_tasks_sound ilike now db user skip limit _ page total r
                Hcall Hin) as [Hmatch Hr].
    remember (resp_id r) as id eqn:Hid. remember (resp_task r) as task eqn:Htask.
    clear Hid Htask. subst r.
    apply due_soon_filter_selects in Hmatch
      as (_ & _ & due & s & Hdue & _ & Hs & Hne).
    simpl. rewrite Hdue, Hs. unfold py_ne.
    rewrite (bool_decide_eq_false_2 (Some s = Some COMPLETED)) by congruence.
    simpl. rewrite andb_true_r, Z.leb_le. unfold timedelta_of_days. split.
    + intros H. exists due. split; [reflexivity | lia].
    + intros (d & [= <-] & H). lia.
  - intros id task due Hrow Huser Hstatus Hdue Hpast. split.
    + unfold TaskService.get_task.
      rewrite (proj2 (find_task_Some db id user task) (conj Hrow Huser)).
      rewrite task_to_response_spec.
      destruct (Row.naive_due task); [|reflexivity].
      unfold TaskResponse_validates. rewrite Hstatus.
      rewrite (bool_decide_eq_false_2 (is_Some None)) by (intros [? ?]; discriminate).
      rewrite !andb_false_r. reflexivity.
    + intros Hin. apply overdue_filter_selects in Hin
        as (_ & _ & _ & s & _ & _ & Hs & _). congruence.
Qed.

Lemma NoDup_map_page {A B} (f : A -> B) (skip limit : nat) (l : list A) :
  NoDup (map f l) -> NoDup (map f (firstn limit (skipn skip l))).
Proof.
  intros Hnodup.
  apply (sublist_NoDup (f <$> take limit (drop skip l)) (f <$> l)); [exact Hnodup|].
  apply fmap_sublist. etransitivity; [apply sublist_take | apply sublist_drop].
Qed.

Lemma matching_NoDup
    (ilike : string -> string -> bool) (now : datetime) (db : DB) (user : Z)
    (filters : option Filters) :
  NoDup (map fst (TaskService.matching ilike now db user filters)).
Proof.
  unfold TaskService.matching, select_tasks.
  apply NoDup_map_filter. apply NoDup_fst_map_to_list.
Qed.

(** X11. A listing that returns. Its page has at most [limit] responses
    and shows no task twice; each response is the one that
    [_task_to_response] gives for a row of the caller that the query
    selects. The total that comes with the page is the number of rows that
    the query selects, so that every page of the listing comes with the
    same total. A page from the start that is long enough for the total
    shows every row that the query selects. *)
Theorem get_user_tasks_pages
    (ilike : string -> string -> bool) (now : datetime) (db : DB) (user : Z)
    (skip limit : nat) (filters : option Filters)
    (page : list TaskResponse) (total : nat) :
  TaskService.get_user_tasks ilike now db user skip limit filters
  = Py.Ok (page, total) ->
  let matching := TaskService.matching ilike now db user filters in
  (length page <= limit)%nat
  /\ NoDup (map resp_id page)
  /\ (forall r, In r page ->
        user_id (resp_task r) = user
        /\ db_tasks db !! resp_id r = Some (resp_task r)
        /\ In (resp_id r, resp_task r) matching
        /\ TaskService._task_to_response now db (resp_id r) (resp_task r) = Py.Ok r)
  /\ total = length matching
  /\ (forall skip' limit' page' total',
        TaskService.get_user_tasks ilike now db user skip' limit' filters
        = Py.Ok (page', total') -> total' = total)
  /\ (skip = 0%nat -> (total <= limit)%nat ->
      forall id task, In (id, task) matching ->
        exists r, In r page /\ resp_id r = id /\ resp_task r = task).
Proof.
  intros Hcall. cbv zeta.
  pose proof Hcall as Hspec. apply get_user_tasks_Ok in Hspec. cbv zeta in Hspec.
  destruct Hspec as (Hall & Hpage & Htotal).
  split; [|split; [|split; [|split; [|split]]]].
  - rewrite Hpage, length_map. apply firstn_le_length.
  - rewrite Hpage, map_map. simpl.
    apply NoDup_map_page.
    rewrite (order_rows_perm (TaskService.matching ilike now db user filters)).
    apply matching_NoDup.
  - intros r Hin.
    destruct (get_user_tasks_sound ilike now db user skip limit filters page total r
                Hcall Hin) as [Hmatch Hr].
    pose proof Hmatch as Hsel. unfold TaskService.matching in Hsel.
    apply select_tasks_In in Hsel as [Hrow Hcond].
    apply andb_true_iff in Hcond as [Hu _].
    split; [lia|]. split; [exact Hrow|]. split; [exact Hmatch|].
    apply task_to_response_Ok.
    assert (Hrows : In (resp_id r, resp_task r)
                      (firstn limit
                         (skipn skip
                            (order_rows (TaskService.matching ilike now db user filters))))).
    { rewrite Hpage in Hin. apply in_map_iff in Hin as ([i t] & <- & Hin).
      exact Hin. }
    rewrite List.Forall_forall in Hall.
    destruct (Hall _ Hrows) as [Hn Hv]. auto.
  - exact Htotal.
  - intros skip' limit' page' total' Hcall'.
    apply get_user_tasks_Ok in Hcall' as (_ & _ & ->). now rewrite Htotal.
  - intros -> Hlen id task Hin.
    exact (get_user_tasks_complete ilike now db user limit filters page total id
             task Hcall Hlen Hin).
Qed.

Lemma get_user_tasks_pages_witness :
  let page :=
    map (fun row => Row.response 10 Sample.due_store (fst row) (snd row))
      [(1, Sample.task 7 LOW (Some 5));
       (2, Sample.task 7 MEDIUM (Some (10 + 3 * day_us)))] in
  let matching :=
    TaskService.matching (fun _ _ => false) 10 Sample.due_store 7
      (Some due_soon_filter) in
  (length page <= 100)%nat
  /\ NoDup (map resp_id page)
  /\ (forall r, In r page ->
        user_id (resp_task r) = 7
        /\ db_tasks Sample.due_store !! resp_id r = Some (resp_task r)
        /\ In (resp_id r, resp_task r) matching
        /\ TaskService._task_to_response 10 Sample.due_store (resp_id r) (resp_task r)
           = Py.Ok r)
  /\ 2%nat = length matching
  /\ (forall skip' limit' page' total',
        TaskService.get_user_tasks (fun _ _ => false) 10 Sample.due_store 7 skip'
          limit' (Some due_soon_filter)
        = Py.Ok (page', total') -> total' = 2%nat)
  /\ (0%nat = 0%nat -> (2 <= 100)%nat ->
      forall id task, In (id, task) matching ->
        exists r, In r page /\ resp_id r = id /\ resp_task r = task).
Proof.
  apply (get_user_tasks_pages (fun _ _ => false) 10 Sample.due_store 7 0 100
           (Some due_soon_filter)).
  vm_compute. reflexivity.
Defined.

(** ** The order of a listing *)

Lemma row_compare_lex (a b : Z * Task) :
  row_compare a b = SortKey.lex (SortKey.row_keys a) (SortKey.row_keys b).
Proof.
  unfold row_compare, SortKey.row_keys. simpl.
  rewrite Z.compare_opp.
  destruct (desc_flag (priority (snd a)) URGENT ?= desc_flag (priority (snd b)) URGENT);
    destruct (desc_flag (priority (snd a)) HIGH ?= desc_flag (priority (snd b)) HIGH);
    destruct (created_at (snd b) ?= created_at (snd a));
    destruct (due_instant (snd a)) as [x|], (due_instant (snd b)) as [y|]; simpl;
    try reflexivity; destruct (x ?= y); reflexivity.
Qed.

Lemma lex_trans (k1 : list Z) :
  forall k2 k3, length k1 = length k2 -> length k2 = length k3 ->
    SortKey.lex k1 k2 <> Gt -> SortKey.lex k2 k3 <> Gt -> SortKey.lex k1 k3 <> Gt.
Proof.
  induction k1 as [|x k1 IH]; intros [|y k2] [|z k3] H12 H23; simpl in *;
    try discriminate; try congruence.
  injection H12 as H12. injection H23 as H23. specialize (IH k2 k3 H12 H23).
  destruct (Z.compare_spec x y), (Z.compare_spec y z), (Z.compare_spec x z);
    simpl; try congruence; try lia; auto.
Qed.

Lemma lex_total (k1 : list Z) :
  forall k2, length k1 = length k2 ->
    SortKey.lex k1 k2 = Gt -> SortKey.lex k2 k1 <> Gt.
Proof.
  induction k1 as [|x k1 IH]; intros [|y k2] H12; simpl in *; try discriminate.
  injection H12 as H12. specialize (IH k2 H12).
  destruct (Z.compare_spec x y), (Z.compare_spec y x); simpl;
    try congruence; try lia; auto.
Qed.

Lemma row_leb_trans (a b c : Z * Task) :
  row_leb a b = true -> row_leb b c = true -> row_leb a c = true.
Proof.
  unfold row_leb. rewrite !row_compare_lex. intros H1 H2.
  assert (H : SortKey.lex (SortKey.row_keys a) (SortKey.row_keys c) <> Gt).
  { apply (lex_trans _ (SortKey.row_keys b)); try reflexivity.
    - intros E. rewrite E in H1. discriminate.
    - intros E. rewrite E in H2. discriminate. }
  destruct (SortKey.lex (SortKey.row_keys a) (SortKey.row_keys c)); congruence.
Qed.

Lemma row_leb_total (a b : Z * Task) :
  row_leb a b = false -> row_leb b a = true.
Proof.
  unfold row_leb. rewrite !row_compare_lex. intros H1.
  assert (H : SortKey.lex (SortKey.row_keys b) (SortKey.row_keys a) <> Gt).
  { apply lex_total; [reflexivity|].
    destruct (SortKey.lex (SortKey.row_keys a) (SortKey.row_keys b)); congruence. }
  destruct (SortKey.lex (SortKey.row_keys b) _); congruence.
Qed.

Lemma insert_row_sorted (x : Z * Task) (l : list (Z * Task)) :
  StronglySorted (fun a b => row_leb a b = true) l ->
  StronglySorted (fun a b => row_leb a b = true) (insert_row x l).
Proof.
  induction 1 as [|y l Hl IH Hy]; simpl.
  - constructor; constructor.
  - destruct (row_leb x y) eqn:E.
    + constructor; [constructor; assumption|].
      constructor; [exact E|].
      apply List.Forall_forall. intros z Hz.
      rewrite List.Forall_forall in Hy.
      exact (row_leb_trans x y z E (Hy z Hz)).
    + constructor; [exact IH|].
      apply List.Forall_forall. intros z Hz.
      apply (Permutation_in _ (insert_row_perm x l)) in Hz as [<-|Hz].
      * now apply row_leb_total.
      * rewrite List.Forall_forall in Hy. now apply Hy.
Qed.

Lemma order_rows_sorted (l : list (Z * Task)) :
  StronglySorted (fun a b => row_leb a b = true) (order_rows l).
Proof.
  induction l as [|x l IH]; simpl; [constructor|].
  now apply insert_row_sorted.
Qed.

Lemma StronglySorted_skipn {A} (R : A -> A -> Prop) (n : nat) (l : list A) :
  StronglySorted R l -> StronglySorted R (skipn n l).
Proof.
  revert l. induction n as [|n IH]; intros l Hl; [exact Hl|].
  destruct l as [|x l]; [constructor|]. simpl. apply IH.
  now inversion Hl.
Qed.

Lemma StronglySorted_firstn {A} (R : A -> A -> Prop) (n : nat) (l : list A) :
  StronglySorted R l -> StronglySorted R (firstn n l).
Proof.
  revert l. induction n as [|n IH]; intros l Hl; [constructor|].
  destruct l as [|x l]; [constructor|]. simpl.
  inversion Hl as [|? ? Hl' Hx]; subst. constructor; [now apply IH|].
  apply List.Forall_forall. intros y Hy.
  rewrite List.Forall_forall in Hx. apply Hx.
  rewrite <- (firstn_skipn n l). apply in_or_app. now left.
Qed.

Lemma StronglySorted_map {A B} (R : A -> A -> Prop) (R' : B -> B -> Prop)
    (f : A -> B) (l : list A) :
  (forall a b, R a b -> R' (f a) (f b)) ->
  StronglySorted R l -> StronglySorted R' (map f l).
Proof.
  intros Hf. induction 1 as [|x l Hl IH Hx]; simpl; constructor; [exact IH|].
  apply List.Forall_forall. intros y Hy. apply in_map_iff in Hy as (a & <- & Ha).
  rewrite List.Forall_forall in Hx. auto.
Qed.

(** X12. Every page that a listing returns is in the order of the query:
    of two responses of a page, the earlier one is not behind the later
    one. Not behind means: its priority ranks no later, where a row without
    priority ranks first, then urgent, then high, then medium and low
    together; at equal rank its due date is no later, a missing due date
    counting as the latest; and at equal rank and due date it was created no
    earlier. *)
Theorem get_user_tasks_ordered
    (ilike : string -> string -> bool) (now : datetime) (db : DB) (user : Z)
    (skip limit : nat) (filters : option Filters) :
  (forall page total,
     TaskService.get_user_tasks ilike now db user skip limit filters
     = Py.Ok (page, total) ->
     StronglySorted SortKey.not_behind page)
  /\ (forall a b,
        SortKey.not_behind a b ->
        let ra := SortKey.rank (priority (resp_task a)) in
        let rb := SortKey.rank (priority (resp_task b)) in
        ra <= rb
        /\ (ra = rb ->
            match due_instant (resp_task a), due_instant (resp_task b) with
            | Some x, Some y => x <= y
            | None, Some _ => False
            | _, None => True
            end
            /\ (due_instant (resp_task a) = due_instant (resp_task b) ->
                created_at (resp_task b) <= created_at (resp_task a)))).
Proof.
  split.
  - intros page total Hcall. apply get_user_tasks_Ok in Hcall as (_ & -> & _).
    apply (StronglySorted_map (fun a b => row_leb a b = true)).
    + intros a b Hab. unfold SortKey.not_behind, row_leb in *. simpl.
      unfold row_compare in *. simpl. destruct (then_by _ _); congruence.
    + apply StronglySorted_firstn, StronglySorted_skipn, order_rows_sorted.
  - intros a b. unfold SortKey.not_behind, row_compare, SortKey.rank. simpl.
    destruct (priority (resp_task a)) as [[]|], (priority (resp_task b)) as [[]|];
      simpl; try (intros H; exfalso; apply H; reflexivity);
      try (intros _; split; [lia | intros; lia]);
      destruct (due_instant (resp_task a)) as [x|], (due_instant (resp_task b)) as [y|];
      simpl; intros H; (split; [lia|]); intros _;
      try (exfalso; apply H; reflexivity);
      try (destruct (Z.compare_spec x y); simpl in H);
      try (split; [lia | intros [= ->]; try lia]);
      try (split; [exact I | intros; try discriminate]);
      try (exfalso; apply H; reflexivity);
      try (destruct (Z.compare_spec (created_at (resp_task b)) (created_at (resp_task a)));
           try lia; exfalso; apply H; reflexivity).
Qed.

(** ** Bounds of the analytics *)

Lemma count_le {A} (p q : A -> bool) (l : list A) :
  (forall x, p x = true -> q x = true) ->
  TaskService.count p l <= TaskService.count q l.
Proof.
  intros Hpq. unfold TaskService.count.
  induction l as [|x l IH]; simpl; [lia|].
  specialize (Hpq x). destruct (p x), (q x); simpl;
    try (specialize (Hpq eq_refl); discriminate); lia.
Qed.

(** X13. In a report of [get_productivity_analytics] the completed count
    lies between 0 and the total, the pending and the completed count add
    up to the total, and the overdue count lies between 0 and the pending
    count: a task that is counted as overdue is counted as pending.
    [period_days] is the argument, and the productivity score is the
    smaller of the completion rate and 100. *)
Theorem analytics_bounds (now : datetime) (db : DB) (user days : Z) (a : Analytics) :
  TaskService.get_productivity_analytics now db user days = Py.Ok a ->
  0 <= completed_tasks a <= total_tasks a
  /\ pending_tasks a + completed_tasks a = total_tasks a
  /\ 0 <= overdue_tasks a <= pending_tasks a
  /\ productivity_score a = Py.min_int (completion_rate a) 100
  /\ period_days a = days.
Proof.
  unfold TaskService.get_productivity_analytics.
  set (window := select_tasks _ db).
  rewrite overdue_list_spec.
  destruct (forallb _ window); simpl; [|discriminate].
  intros [= <-]. simpl.
  set (completed := TaskService.count _ window).
  pose proof (count_nonneg
                (fun row : Z * Task => bool_decide (status (snd row) = Some COMPLETED))
                window) as Hc.
  fold completed in Hc.
  split; [exact Hc|]. split; [lia|]. split; [|split; reflexivity].
  split; [lia|].
  pose proof (count_complement
                (fun row : Z * Task => bool_decide (status (snd row) = Some COMPLETED))
                window) as Hsum.
  fold completed in Hsum.
  assert (Hle : TaskService.count
                  (fun row : Z * Task =>
                     match due_instant (snd row) with
                     | Some due => (due <? now) && py_ne (status (snd row)) COMPLETED
                     | None => false
                     end) window
                <= TaskService.count
                     (fun row : Z * Task =>
                        negb (bool_decide (status (snd row) = Some COMPLETED)))
                     window).
  { apply count_le. intros [i t]. simpl. destruct (due_instant t); [|discriminate].
    unfold py_ne. intros H. apply andb_true_iff in H as [_ H]. exact H. }
  unfold TaskService.count in Hle at 1. lia.
Qed.

Lemma analytics_bounds_witness :
  let a :=
    mkAnalytics 25 7 18 0 (Py.Float 0x1.c000000000001p+4)
      (Py.Float 0x1.c000000000001p+4) 30 in
  0 <= completed_tasks a <= total_tasks a
  /\ pending_tasks a + completed_tasks a = total_tasks a
  /\ 0 <= overdue_tasks a <= pending_tasks a
  /\ productivity_score a = Py.min_int (completion_rate a) 100
  /\ period_days a = 30.
Proof.
  apply (analytics_bounds 9 Sample.quarter_store 7 30).
  vm_compute. reflexivity.
Defined.

(** ** The write-back of [optimize_task_scheduling] *)

(** X15. The context that [optimize_task_scheduling] hands to the AI layer
    is [task.dict()], which holds [datetime] values, so that [json.dumps]
    raises before any request is made. With a context that cannot be
    serialised, whatever the endpoint would answer: the AI layer logs
    nothing, the store stays as it was, and the log of
    [optimize_task_scheduling] is its error line when the task is found and
    empty when it is not. [ai_optimize_task] is the same call. *)
Theorem optimize_with_unserialisable_context
    (ilike : string -> string -> bool) (json_loads : string -> option Py.json)
    (now : datetime) (db : DB) (task_id user : Z) (reply : http_outcome) :
  let ai := GrokService.generate_schedule_optimization json_loads user None reply in
  fst ai = []
  /\ TaskService.optimize_task_scheduling ilike now db task_id user (snd ai)
     = (db, if bool_decide (is_Some (TaskService.find_task db task_id user))
            then [mkLog ERROR "Task optimization failed" [("task_id"%string, task_id)]]
            else [])
  /\ TaskService.ai_optimize_task ilike now db task_id user (snd ai)
     = TaskService.optimize_task_scheduling ilike now db task_id user (snd ai).
Proof.
  cbv zeta. split; [reflexivity|]. split; [|reflexivity].
  unfold TaskService.optimize_task_scheduling, TaskService.optimize_body,
    TaskService.get_task. simpl.
  destruct (TaskService.find_task db task_id user) as [task|].
  - rewrite bool_decide_eq_true_2 by eauto.
    destruct (TaskService._task_to_response now db task_id task); [|reflexivity].
    simpl.
    destruct (TaskService.get_user_tasks ilike now db user 0 50 None); reflexivity.
  - rewrite bool_decide_eq_false_2 by (intros [? ?]; congruence). reflexivity.
Qed.

(** ** The parser of [EnhancedGrokService] *)

(** X17. [EnhancedGrokService.parse_natural_language_task], whose user
    context can be serialised, returns a [TaskParsing] for every outcome of
    the request. When the body of its [try] raises, the result is the
    fallback: the first 100 characters of the input as title, the whole
    input as description if it is longer than that, priority medium, no due
    date, confidence 0.3. The body raises when the request fails, when the
    response or the completion is not JSON, and when the completion is JSON
    but no object. When the completion is an object, each field of the
    result is the value under its key, or the default of the field, and the
    due date is what [_parse_datetime] makes of the value. *)
Theorem enhanced_parse_always_answers
    (json_loads : string -> option Py.json)
    (fromisoformat : string -> option pydatetime)
    (strptime : string -> string -> option datetime)
    (task_input : string) :
  let parse :=
    EnhancedGrokService.parse_natural_language_task json_loads fromisoformat
      strptime task_input in
  let body :=
    EnhancedGrokService.parse_body json_loads fromisoformat strptime task_input in
  let fallback := EnhancedGrokService.fallback_parsing task_input in
  (forall reply, Py.is_ok (body reply) = false -> parse reply = fallback)
  /\ (EnhancedGrokService.tp_title fallback = Py.JStr (Py.prefix 100 task_input)
      /\ (String.length (Py.prefix 100 task_input) <= 100)%nat
      /\ EnhancedGrokService.tp_description fallback
         = (if (100 <? String.length task_input)%nat
            then Py.JStr task_input else Py.JNull)
      /\ EnhancedGrokService.tp_priority fallback = Py.JStr "medium"
      /\ EnhancedGrokService.tp_due_date fallback = None
      /\ EnhancedGrokService.tp_ai_confidence fallback
         = Py.JFloat (Py.FFinite (3 # 10)))
  /\ parse HttpError = fallback
  /\ parse HttpNotJson = fallback
  /\ (forall content, json_loads content = None ->
        parse (completion_reply content) = fallback)
  /\ (forall content doc, json_loads content = Some doc ->
        (forall d, doc <> Py.JDict d) ->
        parse (completion_reply content) = fallback)
  /\ (forall content d, json_loads content = Some (Py.JDict d) ->
        let field k default := match Py.dict_lookup d k with
                               | Some v => v
                               | None => default
                               end in
        parse (completion_reply content)
        = EnhancedGrokService.mkTaskParsing
            (field "title"%string (Py.JStr (Py.prefix 100 task_input)))
            (field "description"%string Py.JNull)
            (field "priority"%string (Py.JStr "medium"))
            (EnhancedGrokService._parse_datetime fromisoformat strptime
               (field "due_date"%string Py.JNull))
            (field "estimated_duration"%string Py.JNull)
            (field "tags"%string (Py.JList []))
            (field "dependencies"%string (Py.JList []))
            (field "subtasks"%string (Py.JList []))
            (field "confidence"%string (Py.JFloat (Py.FFinite (8 # 10))))
            (field "reasoning"%string
               (Py.JStr "AI parsed task from natural language"))).
Proof.
  cbv zeta.
  assert (Hfall : forall reply,
            Py.is_ok (EnhancedGrokService.parse_body json_loads fromisoformat
                        strptime task_input reply) = false ->
            EnhancedGrokService.parse_natural_language_task json_loads
              fromisoformat strptime task_input reply
            = EnhancedGrokService.fallback_parsing task_input).
  { intros reply Hraise. unfold EnhancedGrokService.parse_natural_language_task.
    destruct (EnhancedGrokService.parse_body _ _ _ _ _); [discriminate|reflexivity]. }
  split; [exact Hfall|]. split.
  { repeat split. rewrite prefix_length. apply Nat.le_min_l. }
  split; [reflexivity|]. split; [reflexivity|]. split; [|split].
  - intros content Hbad. apply Hfall.
    unfold EnhancedGrokService.parse_body. simpl. now rewrite Hbad.
  - intros content doc Hdoc Hnot. apply Hfall.
    unfold EnhancedGrokService.parse_body. simpl. rewrite Hdoc. simpl.
    destruct doc; try reflexivity. exfalso. now apply (Hnot d).
  - intros content d Hdoc.
    unfold EnhancedGrokService.parse_natural_language_task,
      EnhancedGrokService.parse_body. simpl. rewrite Hdoc. reflexivity.
Qed.

(** ** The daily insights job *)

Section DailyInsights.

Variable json_loads : string -> option Py.json.
Variable now : Z -> datetime.
Variable replies : Z -> http_outcome.
Variable db : DB.

Local Abbreviation turn :=
  (fun u : User =>
     AiTasks.user_insights json_loads (now (uid u)) db u (replies (uid u))).

Local Abbreviation failure_line :=
  (fun u : User =>
     mkLog ERROR "Failed to generate insights for user" [("user_id"%string, uid u)]).

Lemma insights_loop_spec (users : list User) :
  forall n : nat,
    AiTasks.insights_loop json_loads now replies db users n
    = ((n + length (List.filter (fun u => Py.is_ok (snd (turn u))) users))%nat,
       flat_map (fun u => fst (turn u)
                          ++ (if Py.is_ok (snd (turn u)) then [] else [failure_line u]))
         users).
Proof.
  induction users as [|u users IH]; intros n; simpl.
  - f_equal. lia.
  - destruct (AiTasks.user_insights json_loads (now (uid u)) db u (replies (uid u)))
      as [logs [[]|e]]; simpl; rewrite IH; simpl; rewrite ?app_nil_r;
      f_equal; lia.
Qed.

End DailyInsights.

(** X20. [generate_daily_productivity_insights] returns for every store and
    every outcome of the requests. Its last log line reports the number of
    active users and the number of them whose turn did not raise, which is
    at most the number of users. The lines of every turn are in the log,
    followed by the line of the handler when the turn raised. The turn of a
    user whose tasks of the last seven days all have a status and a
    priority, and whose request to the AI layer fails, does not raise: the
    failure is logged by the AI layer, after the line of the request when
    the request itself failed, the user is counted, and the line of the job
    shows an insights count of 0. *)
Theorem daily_insights_report
    (json_loads : string -> option Py.json) (now : Z -> datetime)
    (replies : Z -> http_outcome) (all_users : list User) (db : DB) :
  let log :=
    AiTasks.generate_daily_productivity_insights json_loads now replies
      all_users db in
  let users := List.filter (fun u => is_active u) all_users in
  let turn u :=
    AiTasks.user_insights json_loads (now (uid u)) db u (replies (uid u)) in
  let generated := List.filter (fun u => Py.is_ok (snd (turn u))) users in
  last log
  = Some (mkLog INFO "Daily productivity insights completed"
            [("total_users"%string, Z.of_nat (length users));
             ("insights_generated"%string, Z.of_nat (length generated))])
  /\ (length generated <= length users)%nat
  /\ (forall u, In u users ->
        (forall e, In e (fst (turn u)) -> In e log)
        /\ (Py.is_ok (snd (turn u)) = false ->
            In (mkLog ERROR "Failed to generate insights for user"
                  [("user_id"%string, uid u)]) log))
  /\ (forall u,
        In u users ->
        (forall id t, db_tasks db !! id = Some t -> user_id t = uid u ->
                      created_at t >= now (uid u) - 7 * day_us ->
                      is_Some (status t) /\ is_Some (priority t)) ->
        Py.is_ok (GrokService.request_and_parse json_loads (replies (uid u))) = false ->
        turn u
        = (fst (GrokService._make_request (replies (uid u)))
           ++ [mkLog ERROR "Productivity insights failed" [("user_id"%string, uid u)];
               mkLog INFO "Productivity insights generated"
                 [("user_id"%string, uid u); ("insights_count"%string, 0)]],
           Py.Ok tt)
        /\ In u generated)
  /\ GrokService._make_request HttpError
     = ([mkLog ERROR "Grok API request failed" []], Py.Raise Py.ServiceUnavailable).
Proof.
  cbv zeta. unfold AiTasks.generate_daily_productivity_insights.
  rewrite insights_loop_spec. simpl.
  set (users := List.filter (fun u => is_active u) all_users).
  split; [apply last_snoc|]. split; [apply filter_length_le|].
  split; [|split; [|reflexivity]].
  - intros u Hu.
    assert (Hin : forall e,
              In e (fst (AiTasks.user_insights json_loads (now (uid u)) db u
                           (replies (uid u)))
                    ++ (if Py.is_ok (snd (AiTasks.user_insights json_loads
                                            (now (uid u)) db u (replies (uid u))))
                        then []
                        else [mkLog ERROR "Failed to generate insights for user"
                                [("user_id"%string, uid u)]])) ->
              In e (flat_map
                      (fun u => fst (AiTasks.user_insights json_loads (now (uid u)) db
                                       u (replies (uid u)))
                                ++ (if Py.is_ok (snd (AiTasks.user_insights json_loads
                                                        (now (uid u)) db u
                                                        (replies (uid u))))
                                    then []
                                    else [mkLog ERROR
                                            "Failed to generate insights for user"
                                            [("user_id"%string, uid u)]]))
                      users
                    ++ [mkLog INFO "Daily productivity insights completed"
                          [("total_users"%string, Z.of_nat (length users));
                           ("insights_generated"%string,
                            Z.of_nat
                              (length
                                 (List.filter
                                    (fun u => Py.is_ok
                                                (snd (AiTasks.user_insights json_loads
                                                        (now (uid u)) db u
                                                        (replies (uid u)))))
                                    users)))]])).
    { intros e He. apply in_or_app. left. apply in_flat_map. exists u. auto. }
    split.
    + intros e He. apply Hin. apply in_or_app. now left.
    + intros Hraise. apply Hin. apply in_or_app. right. rewrite Hraise. now left.
  - intros u Hu Hrows Hfail.
    assert (Hturn : AiTasks.user_insights json_loads (now (uid u)) db u
                      (replies (uid u))
                    = (fst (GrokService._make_request (replies (uid u)))
                       ++ [mkLog ERROR "Productivity insights failed"
                             [("user_id"%string, uid u)];
                           mkLog INFO "Productivity insights generated"
                             [("user_id"%string, uid u); ("insights_count"%string, 0)]],
                       Py.Ok tt)).
    { unfold AiTasks.user_insights.
      assert (Hnone : existsb
                (fun row : Z * Task =>
                   negb (bool_decide (is_Some (status (snd row))))
                   || negb (bool_decide (is_Some (priority (snd row)))))
                (select_tasks
                   (fun _ t => (user_id t =? uid u)
                               && (created_at t >=? now (uid u) - timedelta_of_days 7))
                   db) = false).
      { destruct (existsb _ _) eqn:E; [|reflexivity].
        apply existsb_exists in E as ([id t] & Hin & Hbad).
        apply select_tasks_In in Hin as [Hrow Hcond].
        apply andb_true_iff in Hcond as [H1 H2].
        destruct (Hrows id t Hrow) as [Hs Hp].
        - lia.
        - unfold timedelta_of_days in H2. lia.
        - simpl in Hbad. rewrite !bool_decide_eq_true_2 in Hbad by assumption.
          discriminate. }
      rewrite Hnone. unfold GrokService.generate_productivity_insights.
      destruct (GrokService.request_and_parse json_loads (replies (uid u)));
        [discriminate|].
      simpl. rewrite <- app_assoc. reflexivity. }
    split; [exact Hturn|].
    apply filter_In. split; [exact Hu|]. rewrite Hturn. reflexivity.
Qed.

(** ** Completion patterns *)

Lemma bump_sum (day : string) (counts : list (string * Z)) :
  fold_right Z.add 0 (map snd (AiTasks.bump day counts))
  = fold_right Z.add 0 (map snd counts) + 1.
Proof.
  induction counts as [|[k n] counts IH]; simpl; [reflexivity|].
  destruct (String.eqb k day); simpl; lia.
Qed.

Lemma bump_key_in (day : string) (counts : list (string * Z)) (k : string) :
  In k (map fst (AiTasks.bump day counts)) -> k = day \/ In k (map fst counts).
Proof.
  induction counts as [|[k' n'] counts IH]; simpl.
  - intros [<-|[]]. now left.
  - destruct (String.eqb_spec k' day) as [->|Hne]; simpl.
    + intros [<-|Hin]; auto.
    + intros [<-|Hin]; [auto|]. destruct (IH Hin); auto.
Qed.

Lemma bump_NoDup (day : string) (counts : list (string * Z)) :
  NoDup (map fst counts) -> NoDup (map fst (AiTasks.bump day counts)).
Proof.
  induction counts as [|[k' n'] counts IH]; simpl; intros Hnodup.
  - apply NoDup_cons. split; [apply not_elem_of_nil | apply NoDup_nil; exact I].
  - apply NoDup_cons in Hnodup as [Hhead Htail].
    destruct (String.eqb_spec k' day) as [->|Hne]; simpl.
    + apply NoDup_cons. split; assumption.
    + apply NoDup_cons. split; [|auto].
      intros Hin. apply list_elem_of_In in Hin.
      apply bump_key_in in Hin as [->|Hin]; [congruence|].
      apply Hhead. now apply list_elem_of_In.
Qed.

Lemma bump_entries (P : string -> Prop) (day : string) (counts : list (string * Z)) :
  P day ->
  (forall k n, In (k, n) counts -> P k /\ 1 <= n) ->
  forall k n, In (k, n) (AiTasks.bump day counts) -> P k /\ 1 <= n.
Proof.
  intros Hday. induction counts as [|[k' n'] counts IH]; simpl; intros Hall k n.
  - intros [[= <- <-]|[]]. split; [exact Hday | lia].
  - destruct (String.eqb_spec k' day) as [->|Hne]; simpl.
    + intros [[= <- <-]|Hin].
      * destruct (Hall day n' (or_introl eq_refl)). split; [assumption | lia].
      * apply Hall. now right.
    + intros [[= <- <-]|Hin].
      * apply Hall. now left.
      * apply IH; [|exact Hin]. intros k0 n0 H0. apply Hall. now right.
Qed.

Lemma strftime_A_weekday (d : datetime) : In (AiTasks.strftime_A d) AiTasks.weekday_names.
Proof.
  unfold AiTasks.strftime_A. apply nth_In.
  pose proof (Z.mod_pos_bound (d / day_us + 3) 7 ltac:(lia)) as H.
  change (length AiTasks.weekday_names) with 7%nat. lia.
Qed.

Lemma count_completions_spec (tasks : list (Z * Task)) :
  forall counts : list (string * Z),
    NoDup (map fst counts) ->
    (forall k n, In (k, n) counts -> In k AiTasks.weekday_names /\ 1 <= n) ->
    let result :=
      fold_left
        (fun counts row =>
           match completed_at (snd row) with
           | Some d => AiTasks.bump (AiTasks.strftime_A d) counts
           | None => counts
           end) tasks counts in
    fold_right Z.add 0 (map snd result)
    = fold_right Z.add 0 (map snd counts)
      + TaskService.count
          (fun row => bool_decide (is_Some (completed_at (snd row)))) tasks
    /\ NoDup (map fst result)
    /\ (forall k n, In (k, n) result -> In k AiTasks.weekday_names /\ 1 <= n).
Proof.
  unfold TaskService.count.
  induction tasks as [|row tasks IH]; intros counts Hnodup Hall; simpl.
  - split; [lia|]. split; assumption.
  - destruct (completed_at (snd row)) as [d|] eqn:Hd; simpl.
    + destruct (IH (AiTasks.bump (AiTasks.strftime_A d) counts)) as (H1 & H2 & H3).
      * now apply bump_NoDup.
      * apply bump_entries; [apply strftime_A_weekday | exact Hall].
      * cbv zeta in H1. rewrite H1, bump_sum.
        split; [|split; assumption].
        rewrite Nat2Z.inj_succ. lia.
    + destruct (IH counts Hnodup Hall) as (H1 & H2 & H3).
      split; [exact H1|]. split; assumption.
Qed.

(** X21. [analyze_user_productivity_patterns] returns [None] when no user
    has the id. For a user that exists it returns the patterns, in which
    the counts of [completion_patterns] add up to the number of tasks of the
    user, created in the last thirty days, that have a completion
    timestamp; each key is the name of a weekday and occurs once, each
    count is at least 1, and the three other values are empty or zero. *)
Theorem completion_patterns_add_up
    (now : datetime) (all_users : list User) (db : DB) (user : Z) :
  (List.filter (fun u => uid u =? user) all_users = [] ->
   AiTasks.analyze_user_productivity_patterns now all_users db user = Py.Ok None)
  /\ (forall u,
        List.filter (fun u => uid u =? user) all_users = [u] ->
        exists p,
          AiTasks.analyze_user_productivity_patterns now all_users db user
          = Py.Ok (Some p)
          /\ fold_right Z.add 0 (map snd (AiTasks.completion_patterns p))
             = TaskService.count
                 (fun row => bool_decide (is_Some (completed_at (snd row))))
                 (select_tasks
                    (fun _ t => (user_id t =? user)
                                && (created_at t >=? now - timedelta_of_days 30)) db)
          /\ NoDup (map fst (AiTasks.completion_patterns p))
          /\ (forall day n, In (day, n) (AiTasks.completion_patterns p) ->
                In day AiTasks.weekday_names /\ 1 <= n)
          /\ AiTasks.most_productive_hours p = []
          /\ AiTasks.priority_handling p = []
          /\ AiTasks.task_duration_accuracy p = 0%Q).
Proof.
  split.
  - intros Hnone. unfold AiTasks.analyze_user_productivity_patterns.
    now rewrite Hnone.
  - intros u Hone. unfold AiTasks.analyze_user_productivity_patterns.
    rewrite Hone. simpl. eexists. split; [reflexivity|]. simpl.
    destruct (count_completions_spec
                (select_tasks
                   (fun _ t => (user_id t =? user)
                               && (created_at t >=? now - timedelta_of_days 30)) db)
                []) as (H1 & H2 & H3).
    + apply NoDup_nil. exact I.
    + intros k n [].
    + cbv zeta in H1, H2, H3. unfold AiTasks.count_completions.
      split; [rewrite H1; simpl; lia|]. split; [exact H2|]. split; [exact H3|].
      repeat split.
Qed.

(** ** The validators of the tags *)

(** X22. [validate_tags] rejects a list exactly when it has more than ten
    tags, blank ones counted, and otherwise returns, in the order of the
    list, the stripped and lower-cased form of each tag that is not blank:
    at most as many tags as it was given, hence at most ten. The validator
    of [TaskUpdate] passes [None] through and treats a list as the
    validator of [TaskBase] does. *)
Theorem validate_tags_bounds (strip lower : string -> string) (v : list string) :
  let blank tag := String.eqb (strip tag) EmptyString in
  (TaskSchema.TaskBase_validate_tags strip lower v = Py.Raise Py.ValueError
   <-> (10 < length v)%nat)
  /\ ((length v <= 10)%nat ->
      exists tags,
        TaskSchema.TaskBase_validate_tags strip lower v = Py.Ok tags
        /\ tags = map (fun tag => lower (strip tag))
                    (List.filter (fun tag => negb (blank tag)) v)
        /\ (length tags <= length v)%nat
        /\ (length tags <= 10)%nat
        /\ (length tags = length v <-> forall tag, In tag v -> blank tag = false))
  /\ TaskSchema.TaskUpdate_validate_tags strip lower None = Py.Ok None
  /\ TaskSchema.TaskUpdate_validate_tags strip lower (Some v)
     = (let! tags := TaskSchema.TaskBase_validate_tags strip lower v in
        Py.Ok (Some tags)).
Proof.
  cbv zeta. unfold TaskSchema.TaskBase_validate_tags,
    TaskSchema.TaskUpdate_validate_tags, TaskSchema.clean_tags.
  split; [|split; [|split]].
  - destruct (Nat.ltb_spec 10 (length v)); split; intros; try reflexivity;
      try discriminate; lia.
  - intros Hlen. destruct (Nat.ltb_spec 10 (length v)); [lia|].
    eexists. split; [reflexivity|]. split; [reflexivity|].
    rewrite length_map.
    pose proof (filter_length_le
                  (fun tag => negb (String.eqb (strip tag) EmptyString)) v) as Hle.
    split; [exact Hle|]. split; [lia|].
    clear Hlen H Hle. induction v as [|tag v IH]; simpl.
    + split; [intros _ tag [] | reflexivity].
    + pose proof (filter_length_le
                    (fun tag => negb (String.eqb (strip tag) EmptyString)) v) as Hle.
      destruct (String.eqb (strip tag) EmptyString) eqn:E; simpl.
      * split; [lia|]. intros Hall. specialize (Hall tag (or_introl eq_refl)).
        congruence.
      * split.
        -- intros Hlen tag' [<-|Hin]; [exact E|].
           apply (proj1 IH); [lia | exact Hin].
        -- intros Hall. f_equal. apply (proj2 IH). intros tag' Hin.
           apply Hall. now right.
  - reflexivity.
  - destruct (Nat.ltb_spec 10 (length v)); [reflexivity|].
    destruct v; reflexivity.
Qed.

(** ** The answers of the task endpoints *)

(** X23. The handlers answer for a task of another user exactly as they do
    for an id that is in no row, and leave the store as it was: status 404
    with [Task not found] on reading, updating, deleting and completing,
    the empty list on listing its dependencies, and status 400 on adding a
    dependency from it or to it. None of them adds a background call or
    logs a line. *)
Theorem endpoints_answer_foreign_as_missing
    (now : datetime) (db : DB) (id missing other x : Z) (task : Task)
    (task_update : TaskUpdate) :
  db_tasks db !! id = Some task ->
  user_id task <> other ->
  db_tasks db !! missing = None ->
  let answers i :=
    (Endpoints.get_task now db i other,
     Endpoints.update_task now db i task_update other,
     Endpoints.delete_task db i other,
     Endpoints.complete_task now db i other,
     Endpoints.get_task_dependencies db i other,
     Endpoints.add_task_dependency db i x other,
     Endpoints.add_task_dependency db x i other) in
  let not_found {A : Type} : Endpoints.outcome A :=
    Endpoints.mkOutcome db (Endpoints.HTTPException 404 "Task not found") [] [] in
  let refused : Endpoints.outcome string :=
    Endpoints.mkOutcome db
      (Endpoints.HTTPException 400 "Cannot create dependency") [] [] in
  answers id
  = (not_found, not_found, not_found, not_found,
     Endpoints.mkOutcome db (Endpoints.Respond []) [] [], refused, refused)
  /\ answers missing = answers id.
Proof.
  intros Hrow Hother Hmissing. cbv zeta.
  pose proof (find_task_foreign db id other task Hrow Hother) as Hid.
  pose proof (find_task_missing db missing other Hmissing) as Hmiss.
  unfold Endpoints.get_task, Endpoints.update_task, Endpoints.delete_task,
    Endpoints.complete_task, Endpoints.get_task_dependencies,
    Endpoints.add_task_dependency,
    TaskService.get_task, TaskService.complete_task, TaskService.update_task,
    TaskService.delete_task, TaskService.get_task_dependencies,
    TaskService.add_task_dependency.
  rewrite Hid, Hmiss, !ownership_check, Hid, Hmiss.
  rewrite (bool_decide_eq_false_2 (is_Some None)) by (intros [? ?]; congruence).
  rewrite !andb_false_r. simpl. split; reflexivity.
Qed.

Lemma endpoints_answer_foreign_as_missing_witness :
  let answers i :=
    (Endpoints.get_task 0 Sample.store i 7,
     Endpoints.update_task 0 Sample.store i (Sample.rename "mine") 7,
     Endpoints.delete_task Sample.store i 7,
     Endpoints.complete_task 0 Sample.store i 7,
     Endpoints.get_task_dependencies Sample.store i 7,
     Endpoints.add_task_dependency Sample.store i 1 7,
     Endpoints.add_task_dependency Sample.store 1 i 7) in
  let not_found {A : Type} : Endpoints.outcome A :=
    Endpoints.mkOutcome Sample.store
      (Endpoints.HTTPException 404 "Task not found") [] [] in
  let refused : Endpoints.outcome string :=
    Endpoints.mkOutcome Sample.store
      (Endpoints.HTTPException 400 "Cannot create dependency") [] [] in
  answers 4
  = (not_found, not_found, not_found, not_found,
     Endpoints.mkOutcome Sample.store (Endpoints.Respond []) [] [], refused, refused)
  /\ answers 9 = answers 4.
Proof.
  apply (endpoints_answer_foreign_as_missing 0 Sample.store 4 9 7 1
           (Sample.task 8 URGENT None) (Sample.rename "mine")).
  - reflexivity.
  - simpl. lia.
  - reflexivity.
Defined.

(** ** The rate limit *)

Lemma recent_mono (T T' x : Q) :
  (T' <= T)%Q -> RateLimitMiddleware.recent T x = true ->
  RateLimitMiddleware.recent T' x = true.
Proof.
  unfold RateLimitMiddleware.recent. intros Hle H.
  apply negb_true_iff in H. apply negb_true_iff.
  destruct (Qle_bool x (T' - 60)) eqn:E; [|reflexivity].
  apply Qle_bool_iff in E.
  assert (Hx : (x <= T - 60)%Q).
  { apply Qle_trans with (T' - 60)%Q; [exact E|].
    unfold Qminus. apply Qplus_le_compat; [exact Hle | apply Qle_refl]. }
  apply Qle_bool_iff in Hx. congruence.
Qed.

Lemma filter_recent_filter (T T' : Q) (l : list Q) :
  (T' <= T)%Q ->
  List.filter (RateLimitMiddleware.recent T) (List.filter (RateLimitMiddleware.recent T') l)
  = List.filter (RateLimitMiddleware.recent T) l.
Proof.
  intros Hle. induction l as [|x l IH]; simpl; [reflexivity|].
  destruct (RateLimitMiddleware.recent T' x) eqn:E'; simpl.
  - now rewrite IH.
  - destruct (RateLimitMiddleware.recent T x) eqn:E; [|exact IH].
    apply (recent_mono T T' x Hle) in E. congruence.
Qed.

Lemma filter_recent_none (T T' : Q) (l : list Q) :
  (T' <= T)%Q -> existsb (RateLimitMiddleware.recent T') l = false ->
  List.filter (RateLimitMiddleware.recent T) l = [].
Proof.
  intros Hle. induction l as [|x l IH]; simpl; [reflexivity|].
  intros H. apply orb_false_iff in H as [Hx Hl].
  destruct (RateLimitMiddleware.recent T x) eqn:E; [|auto].
  apply (recent_mono T T' x Hle) in E. congruence.
Qed.

(** What the cleaning keeps of an entry is all that a later reading of the
    clock can find recent in it. *)
Lemma cleaned_lookup (state : RateLimitMiddleware.clients) (t T : Q) (ip : string) :
  (t <= T)%Q ->
  List.filter (RateLimitMiddleware.recent T)
    (default []
       (filter (fun kv : string * list Q =>
                  existsb (RateLimitMiddleware.recent t) (snd kv) = true) state
        !! ip))
  = List.filter (RateLimitMiddleware.recent T) (default [] (state !! ip)).
Proof.
  intros Hle. rewrite map_lookup_filter.
  destruct (state !! ip) as [l|]; simpl; [|reflexivity].
  destruct (existsb (RateLimitMiddleware.recent t) l) eqn:E.
  - rewrite option_guard_True by reflexivity. reflexivity.
  - rewrite option_guard_False by congruence. simpl.
    symmetry. exact (filter_recent_none T t l Hle E).
Qed.

Lemma serve_spec (calls_per_minute : Z) (requests : list (string * Q)) :
  forall (state : RateLimitMiddleware.clients) (hist : string -> list Q) (last : Q),
    (forall ip T, (last <= T)%Q ->
       List.filter (RateLimitMiddleware.recent T) (default [] (state !! ip))
       = List.filter (RateLimitMiddleware.recent T) (hist ip)) ->
    RateLimitMiddleware.clock_monotone last requests ->
    forall n ip t, nth_error requests n = Some (ip, t) ->
      nth_error (RateLimitMiddleware.serve calls_per_minute state requests) n
      = Some (Z.of_nat
                (length
                   (List.filter (RateLimitMiddleware.recent t)
                      (hist ip
                       ++ RateLimitMiddleware.passed_times ip (firstn n requests)
                            (firstn n (RateLimitMiddleware.serve calls_per_minute
                                         state requests)))))
              <? calls_per_minute).
Proof.
  induction requests as [|[ip0 t0] rest IH]; intros state hist last Hinv Hclock n ip t Hn.
  - destruct n; discriminate.
  - destruct Hclock as [Hlast Hclock]. simpl.
    set (cleaned := filter (fun kv : string * list Q =>
                              existsb (RateLimitMiddleware.recent t0) (snd kv) = true)
                      state).
    assert (Hrecent : List.filter (RateLimitMiddleware.recent t0)
                        (default [] (cleaned !! ip0))
                      = List.filter (RateLimitMiddleware.recent t0) (hist ip0)).
    { unfold cleaned. rewrite cleaned_lookup by apply Qle_refl.
      apply Hinv. exact Hlast. }
    unfold RateLimitMiddleware.dispatch. fold cleaned. rewrite Hrecent.
    set (k := Z.of_nat (length (List.filter (RateLimitMiddleware.recent t0) (hist ip0)))).
    assert (Hk : (k >=? calls_per_minute) = negb (k <? calls_per_minute)).
    { destruct (Z.geb_spec k calls_per_minute), (Z.ltb_spec k calls_per_minute);
        try reflexivity; lia. }
    destruct n as [|n].
    + simpl in Hn. injection Hn as <- <-. rewrite app_nil_r. fold k.
      rewrite Hk. destruct (k <? calls_per_minute); reflexivity.
    + simpl in Hn.
      destruct (k >=? calls_per_minute) eqn:Hfull.
      * (* refused *)
        simpl.
        apply (IH cleaned hist t0); [|exact Hclock | exact Hn].
        intros ip' T HT. unfold cleaned. rewrite cleaned_lookup by exact HT.
        apply Hinv. now apply Qle_trans with t0.
      * (* let through *)
        simpl.
        set (state' := <[ip0 := List.filter (RateLimitMiddleware.recent t0) (hist ip0)
                                ++ [t0]]> cleaned).
        set (hist' := fun ip' => if String.eqb ip0 ip' then hist ip' ++ [t0]
                                 else hist ip').
        assert (Hinv' : forall ip' T, (t0 <= T)%Q ->
                  List.filter (RateLimitMiddleware.recent T) (default [] (state' !! ip'))
                  = List.filter (RateLimitMiddleware.recent T) (hist' ip')).
        { intros ip' T HT. unfold state', hist'.
          destruct (String.eqb_spec ip0 ip') as [<-|Hne].
          - rewrite lookup_insert_eq. simpl.
            rewrite !List.filter_app. f_equal.
            apply filter_recent_filter. exact HT.
          - rewrite lookup_insert_ne by exact Hne.
            unfold cleaned. rewrite cleaned_lookup by exact HT.
            apply Hinv. now apply Qle_trans with t0. }
        rewrite (IH state' hist' t0 Hinv' Hclock n ip t Hn).
        unfold hist'. destruct (String.eqb ip0 ip); simpl.
        -- rewrite <- app_assoc. reflexivity.
        -- reflexivity.
Qed.

(** X24. On a fresh instance of [RateLimitMiddleware], over a run of
    requests during which the clock does not run backwards: a request is
    let through exactly when fewer than [calls_per_minute] of the earlier
    requests of the same address that were let through lie less than 60
    seconds back. A request that is refused does not count against the
    address. *)
Theorem rate_limit_is_a_sliding_window
    (calls_per_minute : Z) (requests : list (string * Q)) (last : Q)
    (n : nat) (ip : string) (t : Q) :
  RateLimitMiddleware.clock_monotone last requests ->
  nth_error requests n = Some (ip, t) ->
  let answers := RateLimitMiddleware.serve calls_per_minute ∅ requests in
  let earlier :=
    RateLimitMiddleware.passed_times ip (firstn n requests) (firstn n answers) in
  nth_error answers n
  = Some (Z.of_nat (length (List.filter (RateLimitMiddleware.recent t) earlier))
          <? calls_per_minute).
Proof.
  intros Hclock Hn. cbv zeta.
  apply (serve_spec calls_per_minute requests ∅ (fun _ => []) last); auto.
Qed.

Lemma rate_limit_is_a_sliding_window_witness :
  let requests :=
    [("10.0.0.1"%string, 0%Q); ("10.0.0.1"%string, 1%Q); ("10.0.0.2"%string, 1%Q);
     ("10.0.0.1"%string, 2%Q); ("10.0.0.1"%string, 61%Q)] in
  let answers := RateLimitMiddleware.serve 2 ∅ requests in
  let earlier :=
    RateLimitMiddleware.passed_times "10.0.0.1" (firstn 3 requests)
      (firstn 3 answers) in
  nth_error answers 3
  = Some (Z.of_nat (length (List.filter (RateLimitMiddleware.recent 2) earlier)) <? 2).
Proof.
  apply (rate_limit_is_a_sliding_window 2
           [("10.0.0.1"%string, 0%Q); ("10.0.0.1"%string, 1%Q);
            ("10.0.0.2"%string, 1%Q); ("10.0.0.1"%string, 2%Q);
            ("10.0.0.1"%string, 61%Q)] 0%Q 3 "10.0.0.1" 2%Q).
  - simpl. repeat split; discriminate.
  - reflexivity.
Defined.

Lemma rate_limit_example :
  RateLimitMiddleware.serve 2 ∅
    [("10.0.0.1"%string, 0%Q); ("10.0.0.1"%string, 1%Q); ("10.0.0.2"%string, 1%Q);
     ("10.0.0.1"%string, 2%Q); ("10.0.0.1"%string, 61%Q)]
  = [true; true; true; false; true].
Proof. vm_compute. reflexivity. Qed.
